(** * NVIDIA GPU Setup Tool: a shallow embedding of [nlinux.c]

    The development follows the C source function by function.  The
    worker threads and the GTK signal handlers are state transformers
    over a [World]: the shared [AppData] structure, the stream of answers
    of the operating system (external processes, wall clock), and the
    ordered trace of the effects performed so far.

    Conventions.
    - [gchar *] is [option string]: [None] is the NULL pointer.
    - the [gint] a command ends with is the wait status of [pclose], a
      [Z]; [gdouble] progress values are exact rationals kept in reduced
      form.
    - a [GtkTextBuffer] is its text; an iterator is a character offset.
    - [g_idle_add] appends a callback to the trace; [dispatch] is what
      the main loop does with it later.
    - a second [g_free] of one string ends the process: the trace ends
      with [Abort] and the function that was running returns nothing. *)

From Stdlib Require Import String Ascii List ZArith QArith Lia Bool Arith DecimalString Sorted.
Import ListNotations.
Local Close Scope Q_scope.
Local Open Scope string_scope.

(* ================================================================= *)
(** ** Application constants *)

Definition MAX_LOG_LINES : nat := 1000.

(* ================================================================= *)
(** ** C and GLib string helpers *)

Definition newline : ascii := "010"%char.

(** [g_ascii_isspace]: tab, line feed, form feed, carriage return, space. *)
Definition g_ascii_isspace (c : ascii) : bool :=
  match nat_of_ascii c with
  | 9 | 10 | 12 | 13 | 32 => true
  | _ => false
  end.

(** [strlen(s) > 0] *)
Definition nonempty (s : string) : bool :=
  match s with EmptyString => false | String _ _ => true end.

(** [g_strchug]: remove leading white space. *)
Fixpoint g_strchug (s : string) : string :=
  match s with
  | EmptyString => EmptyString
  | String c t => if g_ascii_isspace c then g_strchug t else s
  end.

(** [g_strchomp]: remove trailing white space. *)
Fixpoint g_strchomp (s : string) : string :=
  match s with
  | EmptyString => EmptyString
  | String c t =>
      match g_strchomp t with
      | EmptyString => if g_ascii_isspace c then EmptyString else String c EmptyString
      | t' => String c t'
      end
  end.

(** [strstr(haystack, needle) != NULL] *)
Definition strstr (haystack needle : string) : bool :=
  match index 0 needle haystack with Some _ => true | None => false end.

(** [g_strcmp0(a, b) == 0] on non-NULL arguments. *)
Definition g_strcmp0_eq (a b : string) : bool := String.eqb a b.

(** [printf]'s [%d]. *)
Definition fmt_d (z : Z) : string := NilZero.string_of_int (Z.to_int z).

Definition G_MAXINT64 : Z := 9223372036854775807%Z.
Definition G_MININT64 : Z := (-9223372036854775808)%Z.

Definition digit_val (c : ascii) : option Z :=
  let n := nat_of_ascii c in
  if (48 <=? n)%nat && (n <=? 57)%nat then Some (Z.of_nat (n - 48)) else None.

Fixpoint strtoll_digits (s : string) (acc : Z) : Z :=
  match s with
  | EmptyString => acc
  | String c t =>
      match digit_val c with
      | Some d => strtoll_digits t (10 * acc + d)%Z
      | None => acc
      end
  end.

(** [g_ascii_strtoll(s, NULL, 10)]: leading white space, an optional
    sign, decimal digits; out-of-range values are clamped. *)
Definition g_ascii_strtoll (s : string) : Z :=
  let s := g_strchug s in
  let clamp z := Z.max G_MININT64 (Z.min G_MAXINT64 z) in
  match s with
  | String "-"%char t => clamp (- strtoll_digits t 0)%Z
  | String "+"%char t => clamp (strtoll_digits t 0%Z)
  | _ => clamp (strtoll_digits s 0%Z)
  end.

(* ================================================================= *)
(** ** Data model *)

Inductive StatusType :=
| STATUS_UNKNOWN
| STATUS_SUCCESS
| STATUS_WARNING
| STATUS_ERROR
| STATUS_INFO.

Record SystemInfo := mkSystemInfo {
  gpu_detected : bool;
  gpu_info : option string;
  driver_installed : bool;
  driver_info : option string;
  cuda_installed : bool;
  cuda_info : option string;
  distro_codename : option string
}.

Definition gdouble := Q.

(** The widgets the worker threads hand to [g_idle_add]. *)
Inductive Widget := detect_button | install_button.

(** The two thread entry points passed to [pthread_create]. *)
Inductive Worker := detection_worker | installation_worker.

Record ProgressUpdate := mkProgressUpdate {
  progress : gdouble;
  message : option string;
  log_text : option string;     (* field [log_message] of the C struct *)
  log_type : StatusType
}.

(** The callbacks queued with [g_idle_add]. *)
Inductive IdleCallback :=
| update_progress_ui (update : ProgressUpdate)
| update_status_display_wrapper
| set_widget_sensitive_wrapper (w : Widget)
| set_button_label_wrapper (w : Widget)
| show_completion_dialog_wrapper
| show_error_dialog_wrapper.

(** [AppData], restricted to the state the orchestration core reads or
    writes; a widget is represented by the property the code sets. *)
Record AppData := mkAppData {
  system_info : SystemInfo;
  installation_running : bool;
  worker_thread : option Worker;
  console_buffer : option string;
  detect_button_sensitive : bool;
  install_button_sensitive : bool;
  install_button_label : string;
  install_driver_check : bool;
  install_cuda_check : bool;
  progress_frame_visible : bool;
  progress_bar_fraction : gdouble;
  progress_label : string
}.

(* ================================================================= *)
(** ** The environment and the world *)

(** What [popen]/[fgets]/[pclose] deliver for one command: [None] when
    [popen] fails, otherwise the wait status and the captured output. *)
Definition PopenResult := option (Z * string).

Record DateTime := mkDateTime { hour : nat; minute : nat; second : nat }.

(** The operating system as seen by the program: the n-th process
    spawned, the n-th reading of the clock, the user id. *)
Record Env := mkEnv {
  popen : nat -> string -> PopenResult;
  clock : nat -> DateTime;
  getuid : Z
}.

(** What the user answers in the modal dialogs of one install request. *)
Record UserInput := mkUserInput {
  confirm_yes : bool;
  password_entry : option string
}.

(** What the program did, in order; [Abort] is the death of the
    process. *)
Inductive Effect :=
| Exec (command : string) (r : PopenResult)
| Log (type : StatusType) (text : string)
| IdleAdd (cb : IdleCallback)
| SetRunning (b : bool)
| Dialog (title : string)
| Spawn (w : Worker)
| Abort.

Record World := mkWorld {
  data : AppData;
  ncmd : nat;
  nlog : nat;
  trace : list Effect;
  threads : list Worker
}.

(** A small state monad over [World]. *)
Definition M (A : Type) : Type := World -> A * World.

Definition ret {A} (a : A) : M A := fun w => (a, w).
Definition bind {A B} (c : M A) (k : A -> M B) : M B :=
  fun w => let (a, w') := c w in k a w'.

Declare Scope m_scope.
Delimit Scope m_scope with M.
Notation "x <- c ;; k" := (bind c (fun x => k))
  (at level 61, c at next level, right associativity) : m_scope.
Notation "c ;; k" := (bind c (fun _ => k))
  (at level 61, right associativity) : m_scope.
(** [c &&; k]: go on with [k] only when [c] succeeded; the failing case
    is the [goto cleanup_install] of the source. *)
Notation "c &&; k" := (bind c (fun ok : bool => if ok then k else ret false))
  (at level 61, right associativity) : m_scope.
Local Open Scope m_scope.

Definition get_app : M AppData := fun w => (data w, w).
Definition modify_app (f : AppData -> AppData) : M unit :=
  fun w => (tt, mkWorld (f (data w)) (ncmd w) (nlog w) (trace w) (threads w)).
Definition emit (e : Effect) : M unit :=
  fun w => (tt, mkWorld (data w) (ncmd w) (nlog w) (trace w ++ [e]) (threads w)).
Definition exec {A} (c : M A) (w : World) : World := snd (c w).
Definition eval {A} (c : M A) (w : World) : A := fst (c w).

(** Field updates of [AppData] and [SystemInfo]. *)
Definition set_system_info (f : SystemInfo -> SystemInfo) (d : AppData) : AppData :=
  mkAppData (f (system_info d)) (installation_running d) (worker_thread d)
    (console_buffer d) (detect_button_sensitive d) (install_button_sensitive d)
    (install_button_label d) (install_driver_check d) (install_cuda_check d)
    (progress_frame_visible d) (progress_bar_fraction d) (progress_label d).
Definition set_installation_running (b : bool) (d : AppData) : AppData :=
  mkAppData (system_info d) b (worker_thread d)
    (console_buffer d) (detect_button_sensitive d) (install_button_sensitive d)
    (install_button_label d) (install_driver_check d) (install_cuda_check d)
    (progress_frame_visible d) (progress_bar_fraction d) (progress_label d).
Definition set_worker_thread (t : Worker) (d : AppData) : AppData :=
  mkAppData (system_info d) (installation_running d) (Some t)
    (console_buffer d) (detect_button_sensitive d) (install_button_sensitive d)
    (install_button_label d) (install_driver_check d) (install_cuda_check d)
    (progress_frame_visible d) (progress_bar_fraction d) (progress_label d).
Definition set_console_buffer (t : string) (d : AppData) : AppData :=
  mkAppData (system_info d) (installation_running d) (worker_thread d)
    (Some t) (detect_button_sensitive d) (install_button_sensitive d)
    (install_button_label d) (install_driver_check d) (install_cuda_check d)
    (progress_frame_visible d) (progress_bar_fraction d) (progress_label d).
Definition gtk_widget_set_sensitive (w : Widget) (b : bool) (d : AppData) : AppData :=
  mkAppData (system_info d) (installation_running d) (worker_thread d)
    (console_buffer d)
    (match w with detect_button => b | install_button => detect_button_sensitive d end)
    (match w with install_button => b | detect_button => install_button_sensitive d end)
    (install_button_label d) (install_driver_check d) (install_cuda_check d)
    (progress_frame_visible d) (progress_bar_fraction d) (progress_label d).
(** Only the label of the install button is ever changed. *)
Definition gtk_button_set_label (w : Widget) (l : string) (d : AppData) : AppData :=
  mkAppData (system_info d) (installation_running d) (worker_thread d)
    (console_buffer d) (detect_button_sensitive d) (install_button_sensitive d)
    (match w with install_button => l | detect_button => install_button_label d end)
    (install_driver_check d) (install_cuda_check d)
    (progress_frame_visible d) (progress_bar_fraction d) (progress_label d).
Definition gtk_widget_show_progress_frame (d : AppData) : AppData :=
  mkAppData (system_info d) (installation_running d) (worker_thread d)
    (console_buffer d) (detect_button_sensitive d) (install_button_sensitive d)
    (install_button_label d) (install_driver_check d) (install_cuda_check d)
    true (progress_bar_fraction d) (progress_label d).
Definition set_progress (f : gdouble) (l : string) (d : AppData) : AppData :=
  mkAppData (system_info d) (installation_running d) (worker_thread d)
    (console_buffer d) (detect_button_sensitive d) (install_button_sensitive d)
    (install_button_label d) (install_driver_check d) (install_cuda_check d)
    (progress_frame_visible d) f l.

Definition set_gpu (b : bool) (s : string) (i : SystemInfo) : SystemInfo :=
  mkSystemInfo b (Some s) (driver_installed i) (driver_info i)
    (cuda_installed i) (cuda_info i) (distro_codename i).
Definition set_driver (b : bool) (s : string) (i : SystemInfo) : SystemInfo :=
  mkSystemInfo (gpu_detected i) (gpu_info i) b (Some s)
    (cuda_installed i) (cuda_info i) (distro_codename i).
Definition set_cuda (b : bool) (s : string) (i : SystemInfo) : SystemInfo :=
  mkSystemInfo (gpu_detected i) (gpu_info i) (driver_installed i) (driver_info i)
    b (Some s) (distro_codename i).
Definition set_distro_codename (s : string) (i : SystemInfo) : SystemInfo :=
  mkSystemInfo (gpu_detected i) (gpu_info i) (driver_installed i) (driver_info i)
    (cuda_installed i) (cuda_info i) (Some s).

(* ================================================================= *)
(** ** The console: [GtkTextBuffer] as text *)

(** [gtk_text_buffer_get_line_count]: one more than the number of line
    feeds, so the empty buffer has one line. *)
Fixpoint gtk_text_buffer_get_line_count (text : string) : nat :=
  match text with
  | EmptyString => 1
  | String c t =>
      if Ascii.eqb c newline then S (gtk_text_buffer_get_line_count t)
      else gtk_text_buffer_get_line_count t
  end.

(** [gtk_text_buffer_get_iter_at_line]: the offset at which line [line]
    starts; the end of the buffer when there is no such line. *)
Fixpoint gtk_text_buffer_get_iter_at_line (text : string) (line : nat) {struct text} : nat :=
  match line, text with
  | 0, _ => 0
  | S _, EmptyString => 0
  | S l, String c t =>
      S (gtk_text_buffer_get_iter_at_line t (if Ascii.eqb c newline then l else line))
  end.

Definition gtk_text_buffer_get_end_iter (text : string) : nat := String.length text.

(** [gtk_text_buffer_delete]: remove the characters in [start, end_). *)
Definition gtk_text_buffer_delete (text : string) (start end_ : nat) : string :=
  substring 0 start text ++ substring end_ (String.length text - end_) text.

(** [gtk_text_buffer_insert] at offset [iter]. *)
Definition gtk_text_buffer_insert (text : string) (iter : nat) (s : string) : string :=
  substring 0 iter text ++ s ++ substring iter (String.length text - iter) text.

Definition digit (n : nat) : ascii := ascii_of_nat (48 + n mod 10).

Definition two_digits (n : nat) : string :=
  String (digit (n / 10)) (String (digit n) EmptyString).

(** [g_date_time_format(now, "%H:%M:%S")] *)
Definition g_date_time_format (now : DateTime) : string :=
  two_digits (hour now) ++ ":" ++ two_digits (minute now) ++ ":" ++ two_digits (second now).

Definition status_icon (type : StatusType) : string :=
  match type with
  | STATUS_SUCCESS => "[OK]"
  | STATUS_WARNING => "[WARN]"
  | STATUS_ERROR => "[ERROR]"
  | STATUS_INFO => "[INFO]"
  | STATUS_UNKNOWN => "[*]"
  end.

(** [g_strdup_printf("[%s] %s %s\n", timestamp, status_icon, message)] *)
Definition formatted_message (now : DateTime) (type : StatusType) (message : string) : string :=
  "[" ++ g_date_time_format now ++ "] " ++ status_icon type ++ " " ++ message
      ++ String newline EmptyString.

(** The buffer part of [log_message]: trim from the top when the line
    count has reached [MAX_LOG_LINES], then insert at the end. *)
Definition console_insert (text : string) (now : DateTime) (type : StatusType)
    (message : string) : string :=
  let line_count := gtk_text_buffer_get_line_count text in
  let text' :=
    if (MAX_LOG_LINES <=? line_count)%nat then
      let start := gtk_text_buffer_get_iter_at_line text 0 in
      let end_ := gtk_text_buffer_get_iter_at_line text (line_count - MAX_LOG_LINES + 1) in
      gtk_text_buffer_delete text start end_
    else text in
  gtk_text_buffer_insert text' (gtk_text_buffer_get_end_iter text')
    (formatted_message now type message).

Section WithEnv.

Variable env : Env.

(** [log_message]: does nothing without a console buffer. *)
Definition log_message (message : string) (type : StatusType) : M unit :=
  fun w =>
    match console_buffer (data w) with
    | None => (tt, w)
    | Some text =>
        let now := clock env (nlog w) in
        (tt, mkWorld (set_console_buffer (console_insert text now type message) (data w))
               (ncmd w) (S (nlog w)) (trace w ++ [Log type message]) (threads w))
    end.

(* ================================================================= *)
(** ** Process runner *)

(** [run_command]: returns the status and, when [popen] succeeded, the
    text stored through [output]; on [popen] failure the status is -1 and
    [*output] is left as it was. *)
Definition run_command (command : string) : M (Z * option string) :=
  fun w =>
    let r := popen env (ncmd w) command in
    let w' := mkWorld (data w) (S (ncmd w)) (nlog w)
                (trace w ++ [Exec command r]) (threads w) in
    match r with
    | None => (((-1)%Z, None), w')
    | Some (status, out) => ((status, Some out), w')
    end.

Definition g_idle_add (cb : IdleCallback) : M unit := emit (IdleAdd cb).

(** [result == 0 && output != NULL && strlen(output) > 0] *)
Definition ok_with_output (r : Z * option string) : bool :=
  (fst r =? 0)%Z && match snd r with Some out => nonempty out | None => false end.

Definition run_command_with_progress (command : string) (progress_increment : gdouble)
    : M bool :=
  g_idle_add (update_progress_ui
    (mkProgressUpdate 0%Q None (Some ("Running: " ++ command)) STATUS_INFO)) ;;
  r <- run_command command ;;
  let result := fst r in
  if (result =? 0)%Z then
    g_idle_add (update_progress_ui
      (mkProgressUpdate progress_increment None
         (Some "Command completed successfully") STATUS_SUCCESS)) ;;
    ret true
  else
    g_idle_add (update_progress_ui
      (mkProgressUpdate 0%Q None
         (Some ("Command failed with exit code " ++ fmt_d result)) STATUS_ERROR)) ;;
    ret false.

(* ================================================================= *)
(** ** System prober *)

Definition wsl_cmd : string := "cat /proc/version 2>/dev/null | grep -i microsoft".
Definition ping_cmd : string := "ping -c 1 8.8.8.8 >/dev/null 2>&1".
Definition df_cmd : string := "df / | tail -1 | awk '{print $4}'".
Definition mokutil_cmd : string := "mokutil --sb-state 2>/dev/null".
Definition lsb_release_cmd : string := "lsb_release -cs 2>/dev/null".
Definition lspci_cmd : string := "lspci | grep -i nvidia".
Definition nvidia_smi_cmd : string :=
  "nvidia-smi --query-gpu=driver_version --format=csv,noheader,nounits 2>/dev/null".
Definition nvcc_cmd : string :=
  "nvcc --version 2>/dev/null | grep 'release' | awk '{print $6}' | cut -c2-".

Definition detect_nvidia_gpu : M bool :=
  r <- run_command lspci_cmd ;;
  match r with
  | (0%Z, Some (String c t)) =>
      let output := g_strchomp (g_strchug (String c t)) in
      modify_app (set_system_info (set_gpu true ("Detected: " ++ output))) ;;
      ret true
  | _ =>
      modify_app (set_system_info (set_gpu false "No NVIDIA GPU detected")) ;;
      ret false
  end.

Definition detect_nvidia_driver : M bool :=
  r <- run_command nvidia_smi_cmd ;;
  match r with
  | (0%Z, Some (String c t)) =>
      let output := g_strchomp (g_strchug (String c t)) in
      modify_app (set_system_info (set_driver true ("Installed: Version " ++ output))) ;;
      ret true
  | _ =>
      modify_app (set_system_info (set_driver false "Not installed")) ;;
      ret false
  end.

Definition detect_cuda : M bool :=
  r <- run_command nvcc_cmd ;;
  match r with
  | (0%Z, Some (String c t)) =>
      let output := g_strchomp (g_strchug (String c t)) in
      modify_app (set_system_info (set_cuda true ("Installed: CUDA " ++ output))) ;;
      ret true
  | _ =>
      modify_app (set_system_info (set_cuda false "Not installed")) ;;
      ret false
  end.

Definition is_wsl_system : M bool :=
  r <- run_command wsl_cmd ;;
  ret (ok_with_output r).

Definition check_internet_connectivity : M bool :=
  r <- run_command ping_cmd ;;
  if negb (fst r =? 0)%Z then
    log_message "No internet connection detected. Installation requires internet access."
      STATUS_ERROR ;;
    ret false
  else ret true.

Definition when (b : bool) (c : M unit) : M unit := if b then c else ret tt.

(** A [gchar *] variable as [g_free] leaves it: [g_free] releases the
    string and does not reset the variable. *)
Inductive Pointer :=
| null_pointer
| live (text : string)
| dangling.

(** The variable [output] after [run_command (command, &output)]: a new
    string when [popen] succeeded, left as it was when it failed. *)
Definition stored (output : Pointer) (r : Z * option string) : Pointer :=
  match snd r with
  | Some text => live text
  | None => output
  end.

(** [if (output) g_free(output);].  [None] is the second [g_free] of one
    string: the behaviour is undefined, and the allocator ends the
    process with [abort]. *)
Definition free_if_set (output : Pointer) : option Pointer :=
  match output with
  | null_pointer => Some null_pointer
  | live _ => Some dangling
  | dangling => None
  end.

(** The process is killed: nothing of the program runs after it. *)
Definition abort {A} : M (option A) := emit Abort ;; ret None.

(** [check_system_compatibility]; [None] when the process did not
    survive the call. *)
Definition check_system_compatibility : M (option bool) :=
  wsl <- is_wsl_system ;;
  if wsl then
    log_message "ERROR: Running in WSL. NVIDIA driver installation requires native Linux."
      STATUS_ERROR ;;
    log_message "This tool is designed for live boot Linux systems or native installations."
      STATUS_INFO ;;
    log_message "To use this tool:" STATUS_INFO ;;
    log_message "1. Create a live USB with Ubuntu/Debian" STATUS_INFO ;;
    log_message "2. Boot from the USB on the target system" STATUS_INFO ;;
    log_message "3. Run this tool on the live system" STATUS_INFO ;;
    ret (Some false)
  else
    when (getuid env =? 0)%Z
      (log_message "WARNING: Running as root. This is not recommended for security reasons."
         STATUS_WARNING) ;;
    let output := null_pointer in
    r <- run_command df_cmd ;;
    let output := stored output r in
    when (match fst r, output with
          | 0%Z, live text => (g_ascii_strtoll text <? 2000000)%Z
          | _, _ => false
          end)
      (log_message "WARNING: Low disk space detected. Installation may fail."
         STATUS_WARNING) ;;
    match free_if_set output with
    | None => abort
    | Some output =>
        r <- run_command mokutil_cmd ;;
        let output := stored output r in
        when (match fst r, output with
              | 0%Z, live text => strstr text "enabled"
              | _, _ => false
              end)
          (log_message
             "WARNING: Secure Boot is enabled. Driver installation may require additional steps."
             STATUS_WARNING) ;;
        match free_if_set output with
        | None => abort
        | Some _ =>
            d <- get_app ;;
            match distro_codename (system_info d) with
            | Some codename =>
                if g_strcmp0_eq codename "bullseye" then
                  log_message "WARNING: Debian 11 is EOL. Upgrade recommended."
                    STATUS_WARNING
                else
                  when (negb (g_strcmp0_eq codename "bookworm") &&
                        negb (g_strcmp0_eq codename "jammy") &&
                        negb (g_strcmp0_eq codename "noble"))
                    (log_message "WARNING: Unsupported distro. Installation may fail."
                       STATUS_WARNING)
            | None => ret tt
            end ;;
            ret (Some true)
        end
    end.

(** [detection_thread]; the [nanosleep] pauses between the sub-checks
    have no effect on the state and are left out. *)
Definition detection_thread : M unit :=
  log_message "Detecting system components..." STATUS_INFO ;;
  log_message "Detecting Linux distribution..." STATUS_INFO ;;
  r <- run_command lsb_release_cmd ;;
  match snd r with
  | Some output => modify_app (set_system_info (set_distro_codename output))
  | None => ret tt
  end ;;
  d <- get_app ;;
  match distro_codename (system_info d) with
  | Some codename =>
      let codename := g_strchomp codename in
      modify_app (set_system_info (set_distro_codename codename)) ;;
      log_message ("Distribution codename: " ++ codename) STATUS_INFO
  | None =>
      modify_app (set_system_info (set_distro_codename "unknown")) ;;
      log_message "Unable to detect distribution codename" STATUS_WARNING
  end ;;
  log_message "Checking for NVIDIA GPU..." STATUS_INFO ;;
  detect_nvidia_gpu ;;
  log_message "Checking driver status..." STATUS_INFO ;;
  detect_nvidia_driver ;;
  log_message "Checking CUDA status..." STATUS_INFO ;;
  detect_cuda ;;
  g_idle_add (update_progress_ui
    (mkProgressUpdate 0%Q None (Some "System detection completed.") STATUS_INFO)) ;;
  g_idle_add update_status_display_wrapper ;;
  g_idle_add (set_widget_sensitive_wrapper detect_button).

(* ================================================================= *)
(** ** Installation planner and executor *)

Definition total_steps (install_driver install_cuda : bool) : Z :=
  (1 + (if install_driver then 4 else 0) + (if install_cuda then 4 else 0))%Z.

(** [100.0 / total_steps] *)
Definition progress_increment_of (total : Z) : gdouble :=
  Qred ((100 # 1) / inject_Z total)%Q.

(** [progress += progress_increment] *)
Definition advance (progress progress_increment : gdouble) : gdouble :=
  Qred (progress + progress_increment)%Q.

Definition update_cmd : string := "sudo apt-get update".
Definition prereq_cmd : string :=
  "sudo apt-get install -y software-properties-common " ++
  "apt-transport-https ca-certificates curl wget gnupg " ++
  "lsb-release build-essential dkms".
(** [%s] applied to a NULL pointer prints [(null)]. *)
Definition repo_cmd (codename : option string) : string :=
  "wget https://developer.download.nvidia.com/compute/cuda/repos/" ++
  match codename with Some c => c | None => "(null)" end ++
  "/x86_64/cuda-keyring_1.1-1_all.deb".
Definition dpkg_cmd : string := "sudo dpkg -i cuda-keyring_1.1-1_all.deb".
Definition driver_cmd : string := "sudo apt-get install -y cuda-drivers".
Definition cuda_cmd : string := "sudo apt-get install -y cuda-toolkit-12-6".
Definition env_cmd : string :=
  "echo 'export PATH=/usr/local/cuda/bin${PATH:+:$PATH}' | sudo tee /etc/profile.d/cuda.sh && " ++
  "echo 'export LD_LIBRARY_PATH=/usr/local/cuda/lib64${LD_LIBRARY_PATH:+:$LD_LIBRARY_PATH}' | sudo tee -a /etc/profile.d/cuda.sh".
Definition rm_keyring_cmd : string := "rm -f cuda-keyring_1.1-1_all.deb".
Definition autoremove_cmd : string := "sudo apt-get autoremove -y".

(** The block every step starts with: post the new [progress], the
    progress [message] and the [log_message] text. *)
Definition post_progress (progress : gdouble) (message log : string) : M unit :=
  g_idle_add (update_progress_ui
    (mkProgressUpdate progress (Some message) (Some log) STATUS_INFO)).

(** The body of [if (install_driver) { ... }]; [k] is the code after the
    block, reached with the value [progress] has there. *)
Definition driver_block (codename : option string) (progress inc : gdouble)
    (k : gdouble -> M bool) : M bool :=
  let progress := advance progress inc in
  post_progress progress "Adding NVIDIA repository..." "Adding NVIDIA repository..." ;;
  run_command_with_progress (repo_cmd codename) inc &&;
  run_command_with_progress dpkg_cmd inc &&;
  let progress := advance progress inc in
  post_progress progress "Updating package lists..."
    "Updating package lists with NVIDIA repository..." ;;
  run_command_with_progress update_cmd inc &&;
  let progress := advance progress inc in
  post_progress progress "Installing NVIDIA driver..."
    "Installing NVIDIA proprietary driver..." ;;
  run_command_with_progress driver_cmd inc &&;
  k progress.

(** The body of [if (install_cuda) { ... }]. *)
Definition cuda_block (progress inc : gdouble) (k : gdouble -> M bool) : M bool :=
  let progress := advance progress inc in
  post_progress progress "Verifying CUDA repository..."
    "Ensuring NVIDIA CUDA repository..." ;;
  run_command_with_progress update_cmd inc &&;
  let progress := advance progress inc in
  post_progress progress "Installing CUDA toolkit..." "Installing CUDA toolkit..." ;;
  run_command_with_progress cuda_cmd inc &&;
  let progress := advance progress inc in
  post_progress progress "Setting up environment variables..."
    "Configuring CUDA environment..." ;;
  run_command_with_progress env_cmd inc &&;
  k progress.

(** From "Final update" to the label [cleanup_install]. *)
Definition final_update : M bool :=
  let progress := (100 # 1)%Q in
  g_idle_add (update_progress_ui
    (mkProgressUpdate progress (Some "Installation completed successfully!")
       (Some "Installation completed successfully!") STATUS_SUCCESS)) ;;
  run_command rm_keyring_cmd ;;
  ret true.

(** The steps of [installation_thread] between the gates and the label
    [cleanup_install]; the result is the value of [success] there. *)
Definition install_steps (install_driver install_cuda : bool)
    (codename : option string) (inc : gdouble) : M bool :=
  let progress := 0%Q in
  let progress := advance progress inc in
  post_progress progress "Updating package lists..." "Updating package repositories..." ;;
  run_command_with_progress update_cmd inc &&;
  let progress := advance progress inc in
  post_progress progress "Installing prerequisites..." "Installing required packages..." ;;
  run_command_with_progress prereq_cmd inc &&;
  (if install_driver then driver_block codename progress inc else fun k => k progress)
    (fun progress =>
  (if install_cuda then cuda_block progress inc else fun k => k progress)
    (fun _ =>
  final_update)).

Definition set_running (b : bool) : M unit :=
  modify_app (set_installation_running b) ;; emit (SetRunning b).

(** The three callbacks every exit path of [installation_thread] queues. *)
Definition restore_buttons : M unit :=
  g_idle_add (set_widget_sensitive_wrapper install_button) ;;
  g_idle_add (set_widget_sensitive_wrapper detect_button) ;;
  g_idle_add (set_button_label_wrapper install_button).

Definition installation_thread : M unit :=
  d <- get_app ;;
  let install_driver := install_driver_check d in
  let install_cuda := install_cuda_check d in
  let progress_increment := progress_increment_of (total_steps install_driver install_cuda) in
  compatible <- check_system_compatibility ;;
  match compatible with
  | None => ret tt
  | Some compatible =>
      if negb compatible then
        set_running false ;;
        restore_buttons
      else
        online <- check_internet_connectivity ;;
        if negb online then
          set_running false ;;
          restore_buttons ;;
          g_idle_add show_error_dialog_wrapper
        else
          d <- get_app ;;
          success <- install_steps install_driver install_cuda
                       (distro_codename (system_info d)) progress_increment ;;
          (* cleanup_install: *)
          when (negb success) (run_command autoremove_cmd ;; ret tt) ;;
          set_running false ;;
          restore_buttons ;;
          if success then g_idle_add show_completion_dialog_wrapper
          else g_idle_add show_error_dialog_wrapper
  end.

(* ================================================================= *)
(** ** Signal handlers, thread creation, idle dispatch *)

Definition pthread_create (t : Worker) : M unit :=
  fun w => (tt, mkWorld (set_worker_thread t (data w)) (ncmd w) (nlog w)
                  (trace w ++ [Spawn t]) (threads w ++ [t])).

Definition show_error_dialog (title : string) : M unit := emit (Dialog title).

Definition sudo_test_cmd : string := "sudo -S echo 'test' >/dev/null 2>&1".

(** [verify_sudo_access]: the password is written to the process; only
    the status of [pclose] is used. *)
Definition verify_sudo_access (password : string) : M bool :=
  r <- run_command sudo_test_cmd ;;
  ret (match snd r with Some _ => (fst r =? 0)%Z | None => false end).

Definition on_detect_clicked : M unit :=
  d <- get_app ;;
  if installation_running d then ret tt
  else
    modify_app (gtk_widget_set_sensitive detect_button false) ;;
    log_message "Running system detection..." STATUS_INFO ;;
    pthread_create detection_worker.

Definition on_install_clicked (user : UserInput) : M unit :=
  d <- get_app ;;
  if installation_running d then ret tt
  else
    wsl <- is_wsl_system ;;
    if wsl then show_error_dialog "WSL Environment Detected"
    else if negb (gpu_detected (system_info d)) then show_error_dialog "Error"
    else
      let install_driver := install_driver_check d in
      let install_cuda := install_cuda_check d in
      if negb install_driver && negb install_cuda then show_error_dialog "Warning"
      else
        emit (Dialog "Confirm Installation") ;;
        if negb (confirm_yes user) then ret tt
        else
          emit (Dialog "Authentication Required") ;;
          match password_entry user with
          | None => ret tt
          | Some password =>
              verified <- verify_sudo_access password ;;
              if negb verified then show_error_dialog "Error"
              else
                set_running true ;;
                modify_app gtk_widget_show_progress_frame ;;
                modify_app (gtk_widget_set_sensitive install_button false) ;;
                modify_app (gtk_widget_set_sensitive detect_button false) ;;
                modify_app (gtk_button_set_label install_button "Installing...") ;;
                log_message "Starting installation process..." STATUS_INFO ;;
                pthread_create installation_worker
          end.

(** What the main loop runs for a queued callback. *)
Definition dispatch (cb : IdleCallback) : M unit :=
  match cb with
  | update_progress_ui update =>
      match message update with
      | Some m => modify_app (set_progress (Qred (progress update / (100 # 1))%Q) m)
      | None => ret tt
      end ;;
      match log_text update with
      | Some l => log_message l (log_type update)
      | None => ret tt
      end
  | update_status_display_wrapper => ret tt
  | set_widget_sensitive_wrapper w => modify_app (gtk_widget_set_sensitive w true)
  | set_button_label_wrapper w => modify_app (gtk_button_set_label w "[INSTALL] Start")
  | show_completion_dialog_wrapper => emit (Dialog "Installation Complete")
  | show_error_dialog_wrapper => emit (Dialog "Installation Failed")
  end.

Fixpoint dispatch_all (cbs : list IdleCallback) : M unit :=
  match cbs with
  | [] => ret tt
  | cb :: rest => dispatch cb ;; dispatch_all rest
  end.

Definition Worker_eqb (a b : Worker) : bool :=
  match a, b with
  | detection_worker, detection_worker => true
  | installation_worker, installation_worker => true
  | _, _ => false
  end.

Fixpoint remove_first (t : Worker) (l : list Worker) : list Worker :=
  match l with
  | [] => []
  | x :: r => if Worker_eqb x t then r else x :: remove_first t r
  end.

(** A worker thread from its entry point to its exit. *)
Definition run_worker (t : Worker) : M unit :=
  match t with
  | detection_worker => detection_thread
  | installation_worker => installation_thread
  end ;;
  fun w => (tt, mkWorld (data w) (ncmd w) (nlog w) (trace w) (remove_first t (threads w))).

(** [main] after [create_main_window]: the first probe is started. *)
Definition main_start : M unit := pthread_create detection_worker.

(** A sequence of calls of [log_message]. *)
Fixpoint log_all (entries : list (string * StatusType)) : M unit :=
  match entries with
  | [] => ret tt
  | (message, type) :: rest => log_message message type ;; log_all rest
  end.

End WithEnv.

(** [g_malloc0(sizeof(AppData))] *)
Definition zeroed_app : AppData :=
  mkAppData (mkSystemInfo false None false None false None None)
    false None None false false "" false false false 0%Q "".

Definition init_app_data (d : AppData) : AppData :=
  set_system_info (fun _ =>
    mkSystemInfo false (Some "Unknown") false (Some "Unknown") false (Some "Unknown") None)
    (set_installation_running false d).

(** [create_main_window] followed by [gtk_widget_show_all] and
    [gtk_widget_hide(progress_frame)]: an empty console, both buttons
    sensitive, the driver option ticked. *)
Definition create_main_window (d : AppData) : AppData :=
  mkAppData (system_info d) (installation_running d) (worker_thread d)
    (Some "") true true "[INSTALL] Start" true false false 0%Q "Ready to start...".

Definition initial_world : World :=
  mkWorld (create_main_window (init_app_data zeroed_app)) 0 0 [] [].

(* ================================================================= *)
(** ** Observations on traces and on the console text *)

Definition commands_of (tr : list Effect) : list string :=
  flat_map (fun e => match e with Exec c _ => [c] | _ => [] end) tr.

Definition posted (tr : list Effect) : list IdleCallback :=
  flat_map (fun e => match e with IdleAdd cb => [cb] | _ => [] end) tr.

Definition logged (tr : list Effect) : list (StatusType * string) :=
  flat_map (fun e => match e with Log t m => [(t, m)] | _ => [] end) tr.

Definition spawned (tr : list Effect) : list Worker :=
  flat_map (fun e => match e with Spawn t => [t] | _ => [] end) tr.

Fixpoint no_newline (s : string) : bool :=
  match s with
  | EmptyString => true
  | String c t => negb (Ascii.eqb c newline) && no_newline t
  end.

(** The lines of a text: the pieces between line feeds. *)
Fixpoint text_lines (text : string) : list string :=
  match text with
  | EmptyString => [EmptyString]
  | String c t =>
      if Ascii.eqb c newline then EmptyString :: text_lines t
      else match text_lines t with
           | l :: ls => String c l :: ls
           | [] => [String c EmptyString]
           end
  end.

(** The log lines a console text holds: every line but the open one
    after the last line feed. *)
Definition retained_lines (text : string) : list string := removelast (text_lines text).

Fixpoint unlines (ls : list string) : string :=
  match ls with
  | [] => EmptyString
  | l :: rest => l ++ String newline (unlines rest)
  end.

Definition single_lines (ls : list string) : Prop :=
  Forall (fun l => no_newline l = true) ls.

(** A formatted log line without its final line feed. *)
Definition log_line (now : DateTime) (type : StatusType) (message : string) : string :=
  "[" ++ g_date_time_format now ++ "] " ++ status_icon type ++ " " ++ message.

(** The lines [log_message] keeps of [ls] before it adds one. *)
Definition trim_lines (ls : list string) : list string :=
  if (MAX_LOG_LINES <=? S (List.length ls))%nat
  then skipn (S (List.length ls) - MAX_LOG_LINES + 1) ls
  else ls.

Definition is_digit (c : ascii) : bool :=
  let n := nat_of_ascii c in (48 <=? n)%nat && (n <=? 57)%nat.

Fixpoint starts_with (p s : string) : bool :=
  match p, s with
  | EmptyString, _ => true
  | String a p', String b s' => Ascii.eqb a b && starts_with p' s'
  | String _ _, EmptyString => false
  end.

Definition is_status_icon_prefix (s : string) : bool :=
  starts_with "[OK] " s || starts_with "[WARN] " s || starts_with "[ERROR] " s ||
  starts_with "[INFO] " s || starts_with "[*] " s.

(** The log line format: [[HH:MM:SS] [SEVERITY] message]. *)
Definition well_formed_line (l : string) : bool :=
  match l with
  | String "["%char (String h1 (String h2 (String ":"%char (String m1 (String m2
      (String ":"%char (String s1 (String s2 (String "]"%char (String " "%char
        rest)))))))))) =>
      is_digit h1 && is_digit h2 && is_digit m1 && is_digit m2 &&
      is_digit s1 && is_digit s2 && is_status_icon_prefix rest
  | _ => false
  end.

(** What the console holds after a run of single-line insertions. *)
Definition console_lines (w : World) (ls : list string) : Prop :=
  console_buffer (data w) = Some (unlines ls) /\
  single_lines ls /\
  Forall (fun l => well_formed_line l = true) ls /\
  S (List.length ls) <= MAX_LOG_LINES.

(* ================================================================= *)
(** ** The step list of an install run *)

(** One external command of an install run.  [announce] holds the
    progress message and the log text posted just before the command,
    when the source posts them ([dpkg -i] runs under the announcement of
    the download before it). *)
Record Step := mkStep {
  announce : option (string * string);
  command : string
}.

Definition base_steps : list Step :=
  [ mkStep (Some ("Updating package lists...", "Updating package repositories...")) update_cmd;
    mkStep (Some ("Installing prerequisites...", "Installing required packages...")) prereq_cmd ].

Definition driver_steps (codename : option string) : list Step :=
  [ mkStep (Some ("Adding NVIDIA repository...", "Adding NVIDIA repository...")) (repo_cmd codename);
    mkStep None dpkg_cmd;
    mkStep (Some ("Updating package lists...", "Updating package lists with NVIDIA repository..."))
      update_cmd;
    mkStep (Some ("Installing NVIDIA driver...", "Installing NVIDIA proprietary driver..."))
      driver_cmd ].

Definition cuda_steps : list Step :=
  [ mkStep (Some ("Verifying CUDA repository...", "Ensuring NVIDIA CUDA repository...")) update_cmd;
    mkStep (Some ("Installing CUDA toolkit...", "Installing CUDA toolkit...")) cuda_cmd;
    mkStep (Some ("Setting up environment variables...", "Configuring CUDA environment..."))
      env_cmd ].

(** The commands [install_steps] runs, in order. *)
Definition plan (install_driver install_cuda : bool) (codename : option string) : list Step :=
  (base_steps ++ (if install_driver then driver_steps codename else [])
              ++ (if install_cuda then cuda_steps else []))%list.

(** The description a step runs under: the last message announced at or
    before it. *)
Fixpoint description_from (shown : option string) (steps : list Step) (k : nat)
    : option string :=
  match steps with
  | [] => shown
  | s :: rest =>
      let shown := match announce s with Some (m, _) => Some m | None => shown end in
      match k with
      | 0 => shown
      | S k' => description_from shown rest k'
      end
  end.

Definition step_description (steps : list Step) (k : nat) : option string :=
  description_from None steps k.

(** [install_steps] as an interpreter of a step list. *)
Fixpoint exec_plan (env : Env) (progress inc : gdouble) (steps : list Step) : M bool :=
  match steps with
  | [] => final_update env
  | s :: rest =>
      match announce s with
      | Some (m, l) =>
          let progress := advance progress inc in
          post_progress progress m l ;;
          run_command_with_progress env (command s) inc &&;
          exec_plan env progress inc rest
      | None =>
          run_command_with_progress env (command s) inc &&;
          exec_plan env progress inc rest
      end
  end.

(** The value [run_command] returns for an answer of the system: the
    wait status [pclose] delivers, which holds the exit code of the
    command in its bits 8 to 15, or -1 when [popen] failed. *)
Definition wait_status (r : PopenResult) : Z :=
  match r with
  | None => (-1)%Z
  | Some (status, _) => status
  end.

(** The exit code a wait status holds, as [WEXITSTATUS] of [sys/wait.h]
    extracts it; the program never applies it. *)
Definition WEXITSTATUS (status : Z) : Z := Z.land (Z.shiftr status 8) 255.

(** The progress message on display: the [message] of the last posted
    update that carries one. *)
Fixpoint current_message (shown : option string) (cbs : list IdleCallback) : option string :=
  match cbs with
  | [] => shown
  | update_progress_ui u :: rest =>
      current_message (match message u with Some m => Some m | None => shown end) rest
  | _ :: rest => current_message shown rest
  end.

(** The callback [run_command_with_progress] posts for a failed command. *)
Definition failure_report (status : Z) : IdleCallback :=
  update_progress_ui
    (mkProgressUpdate 0%Q None
       (Some ("Command failed with exit code " ++ fmt_d status)) STATUS_ERROR).

(** The callbacks [run_command_with_progress] posts before a command
    and after a successful one. *)
Definition running_report (command : string) : IdleCallback :=
  update_progress_ui
    (mkProgressUpdate 0%Q None (Some ("Running: " ++ command)) STATUS_INFO).

Definition success_report (progress_increment : gdouble) : IdleCallback :=
  update_progress_ui
    (mkProgressUpdate progress_increment None
       (Some "Command completed successfully") STATUS_SUCCESS).

(** The effects of one step whose command is answered by [r]. *)
Definition step_effects (progress inc : gdouble) (s : Step) (r : PopenResult)
    : list Effect :=
  (match announce s with
   | Some (m, l) =>
       [IdleAdd (update_progress_ui
          (mkProgressUpdate (advance progress inc) (Some m) (Some l) STATUS_INFO))]
   | None => []
   end ++
   [IdleAdd (running_report (command s));
    Exec (command s) r;
    IdleAdd (if (wait_status r =? 0)%Z then success_report inc
             else failure_report (wait_status r))])%list.

Definition next_progress (progress inc : gdouble) (s : Step) : gdouble :=
  match announce s with
  | Some _ => advance progress inc
  | None => progress
  end.

(** The callbacks every exit path of [installation_thread] ends with. *)
Definition restore_callbacks : list IdleCallback :=
  [ set_widget_sensitive_wrapper install_button;
    set_widget_sensitive_wrapper detect_button;
    set_button_label_wrapper install_button ].

(** Effects of the working phase of a thread: processes, console lines
    and progress updates. *)
Definition working_effect (e : Effect) : bool :=
  match e with
  | Exec _ _ | Log _ _ | IdleAdd (update_progress_ui _) => true
  | _ => false
  end.

Definition probe_effect (e : Effect) : bool :=
  match e with
  | Exec _ _ | Log _ _ => true
  | _ => false
  end.

Definition log_effect (e : Effect) : bool :=
  match e with
  | Log _ _ => true
  | _ => false
  end.

(** Both gates of [installation_thread] let the run through. *)
Definition gates_pass (env : Env) (w : World) : bool :=
  match eval (check_system_compatibility env) w with
  | Some true =>
      eval (check_internet_connectivity env) (exec (check_system_compatibility env) w)
  | _ => false
  end.

(** The answers under which [check_system_compatibility] frees [output]
    twice: the host is not WSL, [popen] succeeds for the disk query and
    fails for the Secure Boot query. *)
Definition double_free (env : Env) (w : World) : bool :=
  negb (eval (is_wsl_system env) w) &&
  match popen env (ncmd w + 1) df_cmd, popen env (ncmd w + 2) mokutil_cmd with
  | Some _, None => true
  | _, _ => false
  end.

Definition after_gates (env : Env) (w : World) : World :=
  exec (check_internet_connectivity env) (exec (check_system_compatibility env) w).

(** The value of [success] at [cleanup_install]. *)
Definition steps_succeed (env : Env) (w : World) : bool :=
  eval (install_steps env (install_driver_check (data w)) (install_cuda_check (data w))
          (distro_codename (system_info (data w)))
          (progress_increment_of
             (total_steps (install_driver_check (data w)) (install_cuda_check (data w)))))
       (after_gates env w).

(** The world at the label [cleanup_install]. *)
Definition steps_world (env : Env) (w : World) : World :=
  exec (install_steps env (install_driver_check (data w)) (install_cuda_check (data w))
          (distro_codename (system_info (data w)))
          (progress_increment_of
             (total_steps (install_driver_check (data w)) (install_cuda_check (data w)))))
       (after_gates env w).

(** The end of every exit path of [installation_thread]: the flag is
    reset, then the buttons are restored and a dialog may be queued. *)
Definition terminal_effects (dialog : list IdleCallback) : list Effect :=
  SetRunning false :: map IdleAdd (restore_callbacks ++ dialog).

Definition finish_run (dialog : list IdleCallback) (w : World) : World :=
  mkWorld (set_installation_running false (data w)) (ncmd w) (nlog w)
    (trace w ++ terminal_effects dialog) (threads w).

(** [b] differs from [a] at most in the console text. *)
Definition same_core (a b : AppData) : Prop :=
  b = a \/ exists text, b = set_console_buffer text a.

(** [w'] is [w] after the effects [tr], none of which touched more of
    [AppData] than the console or created a thread. *)
Definition extends (w w' : World) (tr : list Effect) : Prop :=
  trace w' = (trace w ++ tr)%list /\
  ncmd w' = ncmd w + List.length (commands_of tr) /\
  threads w' = threads w /\
  same_core (data w) (data w').

(** [w'] is [w] after the commands [cmds], with nothing else done but
    writing console lines. *)
Definition probes (cmds : list string) (w w' : World) : Prop :=
  exists tr, extends w w' tr /\
             Forall (fun e => probe_effect e = true) tr /\
             commands_of tr = cmds.

Definition default_step : Step := mkStep None EmptyString.

(** A computation that only ever appends to the trace. *)
Definition grows {A} (c : M A) : Prop :=
  forall w, exists t, trace (exec c w) = (trace w ++ t)%list.

(** [w'] is [w] after the effects [tr] of the working phase; [AppData]
    is untouched. *)
Definition steps_run (w w' : World) (tr : list Effect) : Prop :=
  trace w' = (trace w ++ tr)%list /\
  data w' = data w /\
  threads w' = threads w /\
  ncmd w' = ncmd w + List.length (commands_of tr) /\
  Forall (fun e => working_effect e = true) tr.

(** The index of the first step whose command fails when the steps run
    from process number [n] on. *)
Fixpoint first_failure (env : Env) (n : nat) (steps : list Step) : option nat :=
  match steps with
  | [] => None
  | s :: rest =>
      if (wait_status (popen env n (command s)) =? 0)%Z
      then option_map S (first_failure env (S n) rest)
      else Some 0
  end.

(** The commands the gates run when they let the run through. *)
Definition gate_commands : list string := [wsl_cmd; df_cmd; mokutil_cmd; ping_cmd].

(** The commands of an install run that change the system. *)
Definition mutating_commands (codename : option string) : list string :=
  [update_cmd; prereq_cmd; repo_cmd codename; dpkg_cmd; driver_cmd; cuda_cmd;
   env_cmd; rm_keyring_cmd; autoremove_cmd].

(** The sum of the increments [run_command_with_progress] reports: the
    [progress] of the posted updates that carry no message. *)
Fixpoint increments_posted (cbs : list IdleCallback) : gdouble :=
  match cbs with
  | [] => 0%Q
  | update_progress_ui u :: rest =>
      match message u with
      | None => Qred (progress u + increments_posted rest)%Q
      | Some _ => increments_posted rest
      end
  | _ :: rest => increments_posted rest
  end.

(** The progress values put on display, in order. *)
Definition progress_shown (cbs : list IdleCallback) : list gdouble :=
  flat_map (fun cb => match cb with
                      | update_progress_ui u =>
                          match message u with Some _ => [progress u] | None => [] end
                      | _ => []
                      end) cbs.

(* ================================================================= *)
(** ** Sample environments *)

Definition noon : DateTime := mkDateTime 12 0 0.

(** A native Ubuntu 22.04 host with an NVIDIA card, where every command
    succeeds; [grep] without a match ends with wait status 256. *)
Definition host_ok (cmd : string) : PopenResult :=
  if String.eqb cmd wsl_cmd then Some (256%Z, "")
  else if String.eqb cmd lsb_release_cmd then Some (0%Z, "jammy" ++ String newline "")
  else if String.eqb cmd lspci_cmd
       then Some (0%Z, "01:00.0 VGA compatible controller: NVIDIA Corporation GA104"
                        ++ String newline "")
  else if String.eqb cmd df_cmd then Some (0%Z, "50000000" ++ String newline "")
  else if String.eqb cmd mokutil_cmd then Some (0%Z, "SecureBoot disabled" ++ String newline "")
  else if String.eqb cmd nvidia_smi_cmd then Some (32512%Z, "")
  else if String.eqb cmd nvcc_cmd then Some (0%Z, "")
  else Some (0%Z, "").

Definition env_ok : Env := mkEnv (fun _ => host_ok) (fun _ => noon) 1000%Z.

(** The same host, where installing the driver package ends with exit
    code 100 (wait status 25600). *)
Definition env_driver_fails : Env :=
  mkEnv (fun _ cmd => if String.eqb cmd driver_cmd then Some (25600%Z, "") else host_ok cmd)
        (fun _ => noon) 1000%Z.

(** A WSL shell: the kernel version string carries the marker. *)
Definition env_wsl : Env :=
  mkEnv (fun _ cmd =>
           if String.eqb cmd wsl_cmd
           then Some (0%Z, "Linux version 5.15.90.1-microsoft-standard-WSL2"
                            ++ String newline "")
           else host_ok cmd)
        (fun _ => noon) 1000%Z.

(** The same host, where installing the downloaded keyring package
    ends with exit code 1 (wait status 256). *)
Definition env_dpkg_fails : Env :=
  mkEnv (fun _ cmd => if String.eqb cmd dpkg_cmd then Some (256%Z, "") else host_ok cmd)
        (fun _ => noon) 1000%Z.

(** The same host without a route to the internet: [ping] ends with
    exit code 2 (wait status 512). *)
Definition env_offline : Env :=
  mkEnv (fun _ cmd => if String.eqb cmd ping_cmd then Some (512%Z, "") else host_ok cmd)
        (fun _ => noon) 1000%Z.

(** The same host at a moment when no further process can be started
    for the Secure Boot query: [popen] fails for it. *)
Definition env_mokutil_unavailable : Env :=
  mkEnv (fun _ cmd => if String.eqb cmd mokutil_cmd then None else host_ok cmd)
        (fun _ => noon) 1000%Z.

(** A host without [lsb_release]: the shell ends with wait status 32512
    (exit code 127) and writes nothing to standard output. *)
Definition env_no_lsb : Env :=
  mkEnv (fun _ cmd => if String.eqb cmd lsb_release_cmd then Some (32512%Z, "")
                      else host_ok cmd)
        (fun _ => noon) 1000%Z.

Definition user_yes : UserInput := mkUserInput true (Some "secret").

(** The user ticks or clears the two option boxes. *)
Definition set_install_options (driver cuda : bool) (d : AppData) : AppData :=
  mkAppData (system_info d) (installation_running d) (worker_thread d)
    (console_buffer d) (detect_button_sensitive d) (install_button_sensitive d)
    (install_button_label d) driver cuda
    (progress_frame_visible d) (progress_bar_fraction d) (progress_label d).

Definition with_options (driver cuda : bool) (w : World) : World :=
  mkWorld (set_install_options driver cuda (data w)) (ncmd w) (nlog w) (trace w) (threads w).

(** The world once the probe started by [main] has finished. *)
Definition probed_world (env : Env) : World :=
  exec (run_worker env detection_worker) (exec main_start initial_world).

(** The world in which the worker of an accepted install request starts. *)
Definition installing_world (env : Env) : World :=
  exec (on_install_clicked env user_yes) (probed_world env).

(* ================================================================= *)
(** ** The log relay and the status cards *)

Definition bar : ascii := "|"%char.

(** The text before and after the first [|] of [s]. *)
Fixpoint split_at_bar (s : string) : option (string * string) :=
  match s with
  | EmptyString => None
  | String c t =>
      if Ascii.eqb c bar then Some (EmptyString, t)
      else match split_at_bar t with
           | Some (a, b) => Some (String c a, b)
           | None => None
           end
  end.

(** [g_strsplit(s, "|", 2)]: at most two pieces, the second one holding
    the rest of the text; the empty string gives the empty vector. *)
Definition g_strsplit_bar_2 (s : string) : list string :=
  match s with
  | EmptyString => []
  | _ => match split_at_bar s with
         | Some (a, b) => [a; b]
         | None => [s]
         end
  end.

(** [update_log_ui]; the global [app_data] is set from [main] on. *)
Definition update_log_ui (env : Env) (log_data : option string) : M unit :=
  match log_data with
  | None => ret tt
  | Some text =>
      match g_strsplit_bar_2 text with
      | [severity; message] =>
          let type :=
            if String.eqb severity "SUCCESS" then STATUS_SUCCESS
            else if String.eqb severity "WARNING" then STATUS_WARNING
            else if String.eqb severity "ERROR" then STATUS_ERROR
            else if String.eqb severity "INFO" then STATUS_INFO
            else STATUS_INFO in
          log_message env message type
      | _ => ret tt
      end
  end.

(** The name a producer writes in front of the bar for a severity. *)
Definition severity_name (type : StatusType) : string :=
  match type with
  | STATUS_SUCCESS => "SUCCESS"
  | STATUS_WARNING => "WARNING"
  | STATUS_ERROR => "ERROR"
  | STATUS_INFO => "INFO"
  | STATUS_UNKNOWN => "UNKNOWN"
  end.

(** One status card: the markup of its icon label, the text of its
    status label and the style classes of the status label. *)
Record StatusCard := mkStatusCard {
  icon_markup : string;
  status_text : string;
  style_classes : list string
}.

Definition gtk_style_context_remove_class (class : string) (classes : list string)
    : list string :=
  filter (fun c => negb (String.eqb c class)) classes.

Definition gtk_style_context_add_class (class : string) (classes : list string)
    : list string :=
  if existsb (String.eqb class) classes then classes else class :: classes.

Definition status_classes : list string :=
  ["status-success"; "status-warning"; "status-error"; "status-info"].

Definition update_status_card (card : StatusCard) (icon : string) (text : option string)
    (type : StatusType) : StatusCard :=
  let classes := style_classes card in
  let classes := gtk_style_context_remove_class "status-success" classes in
  let classes := gtk_style_context_remove_class "status-warning" classes in
  let classes := gtk_style_context_remove_class "status-error" classes in
  let classes := gtk_style_context_remove_class "status-info" classes in
  let classes :=
    match type with
    | STATUS_SUCCESS => gtk_style_context_add_class "status-success" classes
    | STATUS_WARNING => gtk_style_context_add_class "status-warning" classes
    | STATUS_ERROR => gtk_style_context_add_class "status-error" classes
    | STATUS_INFO => gtk_style_context_add_class "status-info" classes
    | STATUS_UNKNOWN => classes
    end in
  mkStatusCard ("<span size='large'>" ++ icon ++ "</span>")
    (match text with Some t => t | None => EmptyString end)
    classes.

Record StatusCards := mkStatusCards {
  gpu_card : StatusCard;
  driver_card : StatusCard;
  cuda_card : StatusCard
}.

Definition update_status_display (info : SystemInfo) (cards : StatusCards) : StatusCards :=
  mkStatusCards
    (update_status_card (gpu_card cards)
       (if gpu_detected info then "[OK]" else "[FAIL]") (gpu_info info)
       (if gpu_detected info then STATUS_SUCCESS else STATUS_ERROR))
    (update_status_card (driver_card cards)
       (if driver_installed info then "[OK]" else "[WARN]") (driver_info info)
       (if driver_installed info then STATUS_SUCCESS else STATUS_WARNING))
    (update_status_card (cuda_card cards)
       (if cuda_installed info then "[OK]" else "[INFO]") (cuda_info info)
       (if cuda_installed info then STATUS_SUCCESS else STATUS_INFO)).

(** The status classes a card carries. *)
Definition status_classes_of (card : StatusCard) : list string :=
  filter (fun c => existsb (String.eqb c) status_classes) (style_classes card).

Definition other_classes_of (card : StatusCard) : list string :=
  filter (fun c => negb (existsb (String.eqb c) status_classes)) (style_classes card).

(* ================================================================= *)
(** ** Further observations *)

(** The trimmed output of a detection command that found something:
    status 0 and non-empty output. *)
Definition detected_text (r : PopenResult) : option string :=
  match r with
  | Some (0%Z, String c t) => Some (g_strchomp (g_strchug (String c t)))
  | _ => None
  end.

Definition found (text : option string) : bool :=
  match text with Some _ => true | None => false end.

(** The description a detector stores: the prefix and the trimmed
    output, or the sentinel. *)
Definition describe (prefix sentinel : string) (text : option string) : string :=
  match text with
  | Some t => prefix ++ t
  | None => sentinel
  end.

(** The codename a probe ends with, from the answer to [lsb_release]
    and the codename known before. *)
Definition probed_codename (r : PopenResult) (previous : option string) : string :=
  match r with
  | Some (_, out) => g_strchomp out
  | None => match previous with
            | Some c => g_strchomp c
            | None => "unknown"
            end
  end.

Definition ends_with_space (s : string) : bool :=
  match get (String.length s - 1) s with
  | Some c => g_ascii_isspace c
  | None => false
  end.

(** Effects that neither write the run flag nor open a dialog nor
    create a thread. *)
Definition quiet_effect (e : Effect) : bool :=
  match e with
  | Exec _ _ | Log _ _ | IdleAdd _ => true
  | _ => false
  end.

(** [b] differs from [a] at most in [system_info] and the console. *)
Definition probe_frame (a b : AppData) : Prop :=
  installation_running b = installation_running a /\
  worker_thread b = worker_thread a /\
  detect_button_sensitive b = detect_button_sensitive a /\
  install_button_sensitive b = install_button_sensitive a /\
  install_button_label b = install_button_label a /\
  install_driver_check b = install_driver_check a /\
  install_cuda_check b = install_cuda_check a /\
  progress_frame_visible b = progress_frame_visible a /\
  progress_bar_fraction b = progress_bar_fraction a /\
  progress_label b = progress_label a /\
  (console_buffer a = None <-> console_buffer b = None).

(** [w'] is [w] after the commands [cmds] and the posts [cbs], with
    nothing else done but writing the console and [system_info]. *)
Definition probe_run (cmds : list string) (cbs : list IdleCallback) (w w' : World) : Prop :=
  exists tr,
    trace w' = (trace w ++ tr)%list /\
    Forall (fun e => quiet_effect e = true) tr /\
    commands_of tr = cmds /\
    posted tr = cbs /\
    ncmd w' = ncmd w + List.length cmds /\
    threads w' = threads w /\
    probe_frame (data w) (data w').

Definition probe_commands : list string :=
  [lsb_release_cmd; lspci_cmd; nvidia_smi_cmd; nvcc_cmd].

(** The callbacks a probe ends with. *)
Definition probe_callbacks : list IdleCallback :=
  [ update_progress_ui
      (mkProgressUpdate 0%Q None (Some "System detection completed.") STATUS_INFO);
    update_status_display_wrapper;
    set_widget_sensitive_wrapper detect_button ].

(** Everything [on_install_clicked] checks before it starts a worker. *)
Definition install_request_ok (env : Env) (user : UserInput) (w : World) : bool :=
  negb (installation_running (data w)) &&
  negb (eval (is_wsl_system env) w) &&
  gpu_detected (system_info (data w)) &&
  (install_driver_check (data w) || install_cuda_check (data w)) &&
  confirm_yes user &&
  match password_entry user with
  | Some _ => (wait_status (popen env (S (ncmd w)) sudo_test_cmd) =? 0)%Z
  | None => false
  end.

(** The progress values the steps announce when all of them run. *)
Fixpoint announced_progress (progress inc : gdouble) (steps : list Step) : list gdouble :=
  match steps with
  | [] => []
  | s :: rest =>
      match announce s with
      | Some _ =>
          advance progress inc :: announced_progress (advance progress inc) inc rest
      | None => announced_progress progress inc rest
      end
  end.

(** The last posted update that carries a message: what the progress
    bar and the progress label show. *)
Fixpoint shown_update (shown : option (gdouble * string)) (cbs : list IdleCallback)
    : option (gdouble * string) :=
  match cbs with
  | [] => shown
  | update_progress_ui u :: rest =>
      shown_update (match message u with
                    | Some m => Some (progress u, m)
                    | None => shown
                    end) rest
  | _ :: rest => shown_update shown rest
  end.

(** The console lines a callback writes when it is dispatched. *)
Definition log_of_callback (cb : IdleCallback) : list (StatusType * string) :=
  match cb with
  | update_progress_ui u =>
      match log_text u with
      | Some l => [(log_type u, l)]
      | None => []
      end
  | _ => []
  end.

(** The console entries a queue of callbacks writes, in queue order. *)
Definition log_entries (cbs : list IdleCallback) : list (string * StatusType) :=
  map (fun e => (snd e, fst e)) (flat_map log_of_callback cbs).

(** The last [k] elements of a list. *)
Definition lastn {A} (k : nat) (l : list A) : list A := skipn (List.length l - k) l.

(** The formatted lines of a sequence of insertions whose first clock
    reading has number [n]. *)
Fixpoint log_lines (env : Env) (n : nat) (entries : list (string * StatusType))
    : list string :=
  match entries with
  | [] => []
  | (message, type) :: rest =>
      log_line (clock env n) type message :: log_lines env (S n) rest
  end.

(** A progress value the bar can show. *)
Definition percentage (q : gdouble) : Prop := (0 < q)%Q /\ (q <= 100 # 1)%Q.

(** The update [installation_thread] posts under "Final update". *)
Definition final_report : IdleCallback :=
  update_progress_ui
    (mkProgressUpdate (100 # 1)%Q (Some "Installation completed successfully!")
       (Some "Installation completed successfully!") STATUS_SUCCESS).

(** What the progress bar and the progress label show once the main
    loop has run the callbacks [cbs]. *)
Definition progress_display (cbs : list IdleCallback) (d : AppData) : gdouble * string :=
  match shown_update None cbs with
  | Some (p, m) => (Qred (p / (100 # 1))%Q, m)
  | None => (progress_bar_fraction d, progress_label d)
  end.

(* ================================================================= *)
(** * Properties *)

(** ** Strings *)

Lemma append_assoc (a b c : string) : (a ++ b) ++ c = a ++ (b ++ c).
Proof. induction a as [|x a IH]; simpl; [reflexivity | now rewrite IH]. Qed.

Lemma append_nil_r (a : string) : a ++ "" = a.
Proof. induction a as [|x a IH]; simpl; [reflexivity | now rewrite IH]. Qed.

Lemma length_append (a b : string) :
  String.length (a ++ b) = String.length a + String.length b.
Proof. induction a as [|x a IH]; simpl; [reflexivity | now rewrite IH]. Qed.

Lemma substring_0_0 (s : string) : substring 0 0 s = "".
Proof. destruct s; reflexivity. Qed.

Lemma substring_all (s : string) : substring 0 (String.length s) s = s.
Proof. induction s as [|x s IH]; simpl; [reflexivity | now rewrite IH]. Qed.

Lemma substring_skip (a b : string) :
  substring (String.length a) (String.length b) (a ++ b) = b.
Proof.
  induction a as [|x a IH]; simpl; [apply substring_all | exact IH].
Qed.

Lemma substring_past_end (s : string) : substring (String.length s) 0 s = "".
Proof. induction s as [|x s IH]; simpl; [reflexivity | exact IH]. Qed.

Lemma no_newline_app (a b : string) :
  no_newline (a ++ b) = no_newline a && no_newline b.
Proof.
  induction a as [|x a IH]; simpl; [reflexivity |].
  rewrite IH. now rewrite andb_assoc.
Qed.

(** ** The console text *)

Lemma insert_at_end (text s : string) :
  gtk_text_buffer_insert text (gtk_text_buffer_get_end_iter text) s = text ++ s.
Proof.
  unfold gtk_text_buffer_insert, gtk_text_buffer_get_end_iter.
  rewrite substring_all, Nat.sub_diag, substring_past_end, append_nil_r.
  reflexivity.
Qed.

Lemma delete_prefix (a b : string) :
  gtk_text_buffer_delete (a ++ b) 0 (String.length a) = b.
Proof.
  unfold gtk_text_buffer_delete.
  rewrite substring_0_0, length_append.
  replace (String.length a + String.length b - String.length a)
    with (String.length b) by lia.
  simpl. apply substring_skip.
Qed.

Lemma unlines_app (xs ys : list string) :
  unlines (xs ++ ys) = unlines xs ++ unlines ys.
Proof.
  induction xs as [|x xs IH]; simpl; [reflexivity |].
  rewrite IH, append_assoc. reflexivity.
Qed.

Lemma line_count_line (l rest : string) :
  no_newline l = true ->
  gtk_text_buffer_get_line_count (l ++ String newline rest)
  = S (gtk_text_buffer_get_line_count rest).
Proof.
  induction l as [|x l IH]; simpl; intros H; [reflexivity |].
  apply andb_prop in H as [Hx Hl].
  apply negb_true_iff in Hx. rewrite Hx. auto.
Qed.

Lemma line_count_unlines (ls : list string) :
  single_lines ls ->
  gtk_text_buffer_get_line_count (unlines ls) = S (List.length ls).
Proof.
  induction 1 as [|l ls Hl _ IH]; simpl; [reflexivity |].
  rewrite line_count_line by exact Hl. now rewrite IH.
Qed.

Lemma iter_at_line_line (l rest : string) (n : nat) :
  no_newline l = true ->
  gtk_text_buffer_get_iter_at_line (l ++ String newline rest) (S n)
  = String.length l + 1 + gtk_text_buffer_get_iter_at_line rest n.
Proof.
  induction l as [|x l IH]; simpl; intros H; [reflexivity |].
  apply andb_prop in H as [Hx Hl].
  apply negb_true_iff in Hx. rewrite Hx. rewrite IH by exact Hl. reflexivity.
Qed.

Lemma iter_at_line_unlines (ls : list string) :
  single_lines ls ->
  forall n, n <= List.length ls ->
  gtk_text_buffer_get_iter_at_line (unlines ls) n
  = String.length (unlines (firstn n ls)).
Proof.
  induction 1 as [|l ls Hl _ IH]; intros n Hn.
  - destruct n; reflexivity.
  - destruct n as [|n]; [destruct l; reflexivity |].
    simpl in Hn. cbn [unlines firstn].
    rewrite iter_at_line_line by exact Hl.
    rewrite IH by lia. rewrite length_append. simpl. lia.
Qed.

Lemma text_lines_line (l rest : string) :
  no_newline l = true ->
  text_lines (l ++ String newline rest) = l :: text_lines rest.
Proof.
  induction l as [|x l IH]; simpl; intros H; [reflexivity |].
  apply andb_prop in H as [Hx Hl].
  apply negb_true_iff in Hx. rewrite Hx. rewrite IH by exact Hl. reflexivity.
Qed.

Lemma text_lines_unlines (ls : list string) :
  single_lines ls -> text_lines (unlines ls) = (ls ++ [""])%list.
Proof.
  induction 1 as [|l ls Hl _ IH]; simpl; [reflexivity |].
  rewrite text_lines_line by exact Hl. now rewrite IH.
Qed.

Lemma retained_lines_unlines (ls : list string) :
  single_lines ls -> retained_lines (unlines ls) = ls.
Proof.
  intros H. unfold retained_lines. rewrite text_lines_unlines by exact H.
  apply removelast_last.
Qed.

Lemma iter_at_line_0 (text : string) : gtk_text_buffer_get_iter_at_line text 0 = 0.
Proof. destruct text; reflexivity. Qed.

Lemma delete_first_lines (ls : list string) (n : nat) :
  gtk_text_buffer_delete (unlines ls) 0 (String.length (unlines (firstn n ls)))
  = unlines (skipn n ls).
Proof.
  pose proof (delete_prefix (unlines (firstn n ls)) (unlines (skipn n ls))) as H.
  rewrite <- unlines_app, firstn_skipn in H. exact H.
Qed.

Lemma formatted_message_line now type message :
  formatted_message now type message
  = log_line now type message ++ String newline EmptyString.
Proof.
  unfold formatted_message, log_line.
  repeat rewrite append_assoc. reflexivity.
Qed.

Lemma unlines_snoc (ls : list string) (l : string) :
  unlines (ls ++ [l]) = unlines ls ++ l ++ String newline EmptyString.
Proof. rewrite unlines_app. reflexivity. Qed.

(** On a console made of complete single lines, [log_message] keeps the
    newest lines and appends the formatted one. *)
Lemma console_insert_unlines (ls : list string) now type message :
  single_lines ls ->
  console_insert (unlines ls) now type message
  = unlines (trim_lines ls ++ [log_line now type message]).
Proof.
  intros Hls. unfold console_insert, trim_lines.
  rewrite line_count_unlines by exact Hls.
  rewrite unlines_snoc, <- formatted_message_line.
  destruct (MAX_LOG_LINES <=? S (List.length ls))%nat eqn:Hcap.
  - apply Nat.leb_le in Hcap. unfold MAX_LOG_LINES in Hcap.
    rewrite iter_at_line_0.
    rewrite iter_at_line_unlines by (trivial; unfold MAX_LOG_LINES; lia).
    rewrite delete_first_lines. apply insert_at_end.
  - apply insert_at_end.
Qed.

Lemma is_digit_digit (n : nat) : is_digit (digit n) = true.
Proof.
  unfold is_digit, digit.
  pose proof (Nat.mod_upper_bound n 10 ltac:(lia)) as Hm.
  rewrite nat_ascii_embedding by lia.
  apply andb_true_intro; split; apply Nat.leb_le; lia.
Qed.

Lemma digit_not_newline (n : nat) : Ascii.eqb (digit n) newline = false.
Proof.
  destruct (Ascii.eqb_spec (digit n) newline) as [E|]; [| reflexivity].
  pose proof (is_digit_digit n) as H. rewrite E in H. discriminate H.
Qed.

Lemma log_line_single now type message :
  no_newline message = true -> no_newline (log_line now type message) = true.
Proof.
  intros Hm. unfold log_line, g_date_time_format, two_digits.
  cbn [append no_newline].
  rewrite !digit_not_newline. cbn.
  rewrite no_newline_app. cbn. rewrite Hm.
  destruct type; reflexivity.
Qed.

Lemma log_line_well_formed now type message :
  well_formed_line (log_line now type message) = true.
Proof.
  unfold log_line, g_date_time_format, two_digits.
  cbn [append well_formed_line].
  rewrite !is_digit_digit.
  destruct type; reflexivity.
Qed.

Lemma trim_lines_length (ls : list string) :
  S (List.length ls) <= MAX_LOG_LINES ->
  S (List.length (trim_lines ls ++ [EmptyString])) <= MAX_LOG_LINES.
Proof.
  unfold trim_lines. intros H.
  destruct (MAX_LOG_LINES <=? S (List.length ls))%nat eqn:Hcap;
    rewrite length_app; cbn [List.length].
  - rewrite length_skipn. unfold MAX_LOG_LINES in *. lia.
  - apply Nat.leb_gt in Hcap. lia.
Qed.

Lemma trim_lines_Forall (P : string -> Prop) (ls : list string) :
  Forall P ls -> Forall P (trim_lines ls).
Proof.
  intros H. unfold trim_lines.
  destruct (MAX_LOG_LINES <=? S (List.length ls))%nat; [| exact H].
  rewrite <- (firstn_skipn (S (List.length ls) - MAX_LOG_LINES + 1) ls) in H.
  apply Forall_app in H. tauto.
Qed.

Lemma trim_lines_at_cap (ls : list string) :
  S (List.length ls) = MAX_LOG_LINES ->
  exists oldest kept, ls = oldest :: kept /\ trim_lines ls = kept.
Proof.
  intros H. unfold trim_lines. rewrite H, Nat.leb_refl, Nat.sub_diag.
  destruct ls as [|oldest kept]; [discriminate H |].
  exists oldest, kept. split; reflexivity.
Qed.

Lemma log_message_console env (w : World) (ls : list string) message type :
  console_buffer (data w) = Some (unlines ls) ->
  single_lines ls ->
  console_buffer (data (exec (log_message env message type) w))
  = Some (unlines (trim_lines ls ++ [log_line (clock env (nlog w)) type message])).
Proof.
  intros Hbuf Hls. unfold exec, log_message. rewrite Hbuf. simpl.
  rewrite console_insert_unlines by exact Hls. reflexivity.
Qed.

Lemma log_message_console_lines env (w : World) (ls : list string) message type :
  console_lines w ls ->
  no_newline message = true ->
  console_lines (exec (log_message env message type) w)
    (trim_lines ls ++ [log_line (clock env (nlog w)) type message]).
Proof.
  intros (Hbuf & Hls & Hwf & Hlen) Hm. repeat split.
  - apply log_message_console; assumption.
  - apply Forall_app. split; [apply trim_lines_Forall; exact Hls |].
    constructor; [apply log_line_single; exact Hm | constructor].
  - apply Forall_app. split; [apply trim_lines_Forall; exact Hwf |].
    constructor; [apply log_line_well_formed | constructor].
  - pose proof (trim_lines_length ls Hlen) as H.
    rewrite length_app in *. exact H.
Qed.

(** ** The install run as a step list *)

Lemma install_steps_plan (env : Env) (install_driver install_cuda : bool)
    (codename : option string) (inc : gdouble) (w : World) :
  install_steps env install_driver install_cuda codename inc w
  = exec_plan env 0%Q inc (plan install_driver install_cuda codename) w.
Proof. destruct install_driver, install_cuda; reflexivity. Qed.

(** ** Worlds *)

Lemma exec_bind {A B} (c : M A) (k : A -> M B) (w : World) :
  exec (bind c k) w = exec (k (eval c w)) (exec c w).
Proof. unfold exec, eval, bind. destruct (c w). reflexivity. Qed.

Lemma eval_bind {A B} (c : M A) (k : A -> M B) (w : World) :
  eval (bind c k) w = eval (k (eval c w)) (exec c w).
Proof. unfold exec, eval, bind. destruct (c w). reflexivity. Qed.

Lemma exec_ret {A} (a : A) (w : World) : exec (ret a) w = w.
Proof. reflexivity. Qed.

Lemma exec_get_app (w : World) : exec get_app w = w.
Proof. reflexivity. Qed.

Lemma run_eta {A} (c : M A) (w : World) : c w = (eval c w, exec c w).
Proof. unfold eval, exec. destruct (c w). reflexivity. Qed.

Lemma commands_of_app (a b : list Effect) :
  commands_of (a ++ b) = (commands_of a ++ commands_of b)%list.
Proof. apply flat_map_app. Qed.

Lemma posted_app (a b : list Effect) :
  posted (a ++ b) = (posted a ++ posted b)%list.
Proof. apply flat_map_app. Qed.

Lemma same_core_refl (a : AppData) : same_core a a.
Proof. left. reflexivity. Qed.

Lemma same_core_trans (a b c : AppData) :
  same_core a b -> same_core b c -> same_core a c.
Proof.
  intros [-> | [t ->]] [-> | [t' ->]].
  - left; reflexivity.
  - right; exists t'; reflexivity.
  - right; exists t; reflexivity.
  - right; exists t'; reflexivity.
Qed.

Lemma same_core_fields (a b : AppData) :
  same_core a b ->
  system_info b = system_info a /\
  installation_running b = installation_running a /\
  install_driver_check b = install_driver_check a /\
  install_cuda_check b = install_cuda_check a.
Proof. intros [-> | [t ->]]; repeat split; reflexivity. Qed.

Lemma extends_refl (w : World) : extends w w [].
Proof.
  repeat split; simpl; try lia.
  - now rewrite app_nil_r.
  - apply same_core_refl.
Qed.

Lemma extends_trans (w w1 w2 : World) (a b : list Effect) :
  extends w w1 a -> extends w1 w2 b -> extends w w2 (a ++ b).
Proof.
  intros (Ht & Hn & Hth & Hc) (Ht' & Hn' & Hth' & Hc').
  repeat split.
  - rewrite Ht', Ht. now rewrite app_assoc.
  - rewrite commands_of_app, length_app. lia.
  - congruence.
  - eapply same_core_trans; eassumption.
Qed.

Lemma probes_refl (w : World) : probes [] w w.
Proof. exists []. split; [apply extends_refl | split; [constructor | reflexivity]]. Qed.

Lemma probes_trans (a b : list string) (w w1 w2 : World) :
  probes a w w1 -> probes b w1 w2 -> probes (a ++ b) w w2.
Proof.
  intros (ta & Ha & Fa & Ca) (tb & Hb & Fb & Cb).
  exists (ta ++ tb)%list. split; [eapply extends_trans; eassumption |].
  split; [apply Forall_app; split; assumption |].
  rewrite commands_of_app. congruence.
Qed.

Lemma probes_log env message type (w : World) :
  probes [] w (exec (log_message env message type) w).
Proof.
  unfold exec, log_message.
  destruct (console_buffer (data w)) as [text|]; [| apply probes_refl].
  exists [Log type message]. simpl. split.
  - repeat split; simpl; try lia. right. eexists. reflexivity.
  - split; [repeat constructor | reflexivity].
Qed.

Lemma probes_when_log env (b : bool) message type (w : World) :
  probes [] w (exec (when b (log_message env message type)) w).
Proof. destruct b; [apply probes_log | apply probes_refl]. Qed.

Lemma exec_run_command env (c : string) (w : World) :
  exec (run_command env c) w
  = mkWorld (data w) (S (ncmd w)) (nlog w)
      (trace w ++ [Exec c (popen env (ncmd w) c)]) (threads w).
Proof.
  unfold exec, run_command.
  destruct (popen env (ncmd w) c) as [[status out]|]; reflexivity.
Qed.

Lemma eval_run_command env (c : string) (w : World) :
  fst (eval (run_command env c) w) = wait_status (popen env (ncmd w) c).
Proof.
  unfold eval, run_command.
  destruct (popen env (ncmd w) c) as [[status out]|]; reflexivity.
Qed.

Lemma probes_run_command env (c : string) (w : World) :
  probes [c] w (exec (run_command env c) w).
Proof.
  rewrite exec_run_command.
  exists [Exec c (popen env (ncmd w) c)]. split.
  - repeat split; simpl; try lia. apply same_core_refl.
  - split; [repeat constructor | reflexivity].
Qed.

(** ** The gates *)

Lemma exec_is_wsl_system env (w : World) :
  exec (is_wsl_system env) w = exec (run_command env wsl_cmd) w.
Proof. unfold is_wsl_system. rewrite exec_bind. reflexivity. Qed.

Lemma eval_is_wsl_system env (w : World) :
  eval (is_wsl_system env) w
  = match popen env (ncmd w) wsl_cmd with
    | Some (status, out) => (status =? 0)%Z && nonempty out
    | None => false
    end.
Proof.
  unfold is_wsl_system, eval, bind, run_command, ok_with_output.
  destruct (popen env (ncmd w) wsl_cmd) as [[status out]|]; reflexivity.
Qed.

Lemma eval_run_command_full env (c : string) (w : World) :
  eval (run_command env c) w
  = (wait_status (popen env (ncmd w) c), option_map snd (popen env (ncmd w) c)).
Proof.
  unfold eval, run_command.
  destruct (popen env (ncmd w) c) as [[status out]|]; reflexivity.
Qed.

Lemma probes_ncmd (cmds : list string) (w w' : World) :
  probes cmds w w' -> ncmd w' = ncmd w + List.length cmds.
Proof. intros (tr & (_ & Hn & _) & _ & Hc). rewrite Hn, Hc. reflexivity. Qed.

Lemma extends_abort (w : World) :
  extends w (exec (emit Abort) w) [Abort].
Proof. repeat split; cbn; try lia. apply same_core_refl. Qed.

(** What [check_system_compatibility] does, for every answer of the
    system: the result, the probes, and the double free. *)
Lemma check_system_compatibility_outcome env (w : World) :
  let w' := exec (check_system_compatibility env) w in
  eval (check_system_compatibility env) w
  = (if double_free env w then None else Some (negb (eval (is_wsl_system env) w))) /\
  exists tr,
    extends w w' (tr ++ if double_free env w then [Abort] else []) /\
    Forall (fun e => probe_effect e = true) tr /\
    commands_of tr = if eval (is_wsl_system env) w then [wsl_cmd]
                     else [wsl_cmd; df_cmd; mokutil_cmd].
Proof.
  cbv zeta. unfold double_free, check_system_compatibility.
  rewrite eval_bind, exec_bind, exec_is_wsl_system.
  pose proof (probes_run_command env wsl_cmd w) as Hwsl.
  set (w1 := exec (run_command env wsl_cmd) w) in *.
  destruct (eval (is_wsl_system env) w); cbn [negb andb].
  - split; [repeat rewrite eval_bind; reflexivity |].
    repeat rewrite exec_bind. rewrite exec_ret.
    assert (H : probes [wsl_cmd] w
                  (exec (log_message env "3. Run this tool on the live system" STATUS_INFO)
                     (exec (log_message env "2. Boot from the USB on the target system"
                              STATUS_INFO)
                        (exec (log_message env "1. Create a live USB with Ubuntu/Debian"
                                 STATUS_INFO)
                           (exec (log_message env "To use this tool:" STATUS_INFO)
                              (exec (log_message env
                                       "This tool is designed for live boot Linux systems or native installations."
                                       STATUS_INFO)
                                 (exec (log_message env
                                          "ERROR: Running in WSL. NVIDIA driver installation requires native Linux."
                                          STATUS_ERROR) w1))))))).
    { change [wsl_cmd] with (((((([wsl_cmd] ++ []) ++ []) ++ []) ++ []) ++ []) ++ [])%list.
      do 6 (eapply probes_trans; [| apply probes_log]).
      exact Hwsl. }
    destruct H as (tr & Hext & Hp & Hc). exists tr. rewrite app_nil_r. auto.
  - rewrite eval_bind, exec_bind.
    pose proof (probes_when_log env (getuid env =? 0)%Z
                  "WARNING: Running as root. This is not recommended for security reasons."
                  STATUS_WARNING w1) as H2.
    set (w2 := exec (when _ _) w1) in *.
    pose proof (probes_trans _ _ _ _ _ Hwsl H2) as H02. cbn [List.app] in H02.
    assert (Hn2 : ncmd w2 = ncmd w + 1) by (apply (probes_ncmd _ _ _ H02)).
    rewrite eval_bind, exec_bind, eval_run_command_full, Hn2.
    pose proof (probes_run_command env df_cmd w2) as H3.
    set (w3 := exec (run_command env df_cmd) w2) in *.
    pose proof (probes_trans _ _ _ _ _ H02 H3) as H03. cbn [List.app] in H03.
    rewrite eval_bind, exec_bind.
    match goal with
    | |- context [exec (when ?b (log_message env ?m ?t)) w3] =>
        pose proof (probes_when_log env b m t w3) as H4;
        set (w4 := exec (when b (log_message env m t)) w3) in *
    end.
    pose proof (probes_trans _ _ _ _ _ H03 H4) as H04. cbn [List.app] in H04.
    assert (Hn4 : ncmd w4 = ncmd w + 2) by (apply (probes_ncmd _ _ _ H04)).
    assert (Hfree1 : free_if_set
                       (stored null_pointer
                          (wait_status (popen env (ncmd w + 1) df_cmd),
                           option_map snd (popen env (ncmd w + 1) df_cmd)))
                     = Some (match popen env (ncmd w + 1) df_cmd with
                             | Some _ => dangling
                             | None => null_pointer
                             end))
      by (destruct (popen env (ncmd w + 1) df_cmd) as [[st out]|]; reflexivity).
    rewrite Hfree1.
    rewrite eval_bind, exec_bind, eval_run_command_full, Hn4.
    pose proof (probes_run_command env mokutil_cmd w4) as H5.
    set (w5 := exec (run_command env mokutil_cmd) w4) in *.
    pose proof (probes_trans _ _ _ _ _ H04 H5) as H05. cbn [List.app] in H05.
    rewrite eval_bind, exec_bind.
    match goal with
    | |- context [exec (when ?b (log_message env ?m ?t)) w5] =>
        pose proof (probes_when_log env b m t w5) as H6;
        set (w6 := exec (when b (log_message env m t)) w5) in *
    end.
    pose proof (probes_trans _ _ _ _ _ H05 H6) as H06. cbn [List.app] in H06.
    destruct (popen env (ncmd w + 1) df_cmd) as [[st1 out1]|];
      destruct (popen env (ncmd w + 2) mokutil_cmd) as [[st2 out2]|];
      cbn [stored snd option_map free_if_set].
    all: try (split; [repeat rewrite eval_bind; reflexivity |];
              repeat rewrite exec_bind; rewrite exec_ret, exec_get_app;
              change (eval get_app w6) with (data w6);
              assert (H7 : probes [wsl_cmd; df_cmd; mokutil_cmd] w
                             (exec match distro_codename (system_info (data w6)) with
                                   | Some codename =>
                                       if g_strcmp0_eq codename "bullseye"
                                       then log_message env
                                              "WARNING: Debian 11 is EOL. Upgrade recommended."
                                              STATUS_WARNING
                                       else when (negb (g_strcmp0_eq codename "bookworm") &&
                                                  negb (g_strcmp0_eq codename "jammy") &&
                                                  negb (g_strcmp0_eq codename "noble"))
                                              (log_message env
                                                 "WARNING: Unsupported distro. Installation may fail."
                                                 STATUS_WARNING)
                                   | None => ret tt
                                   end w6));
              [ change [wsl_cmd; df_cmd; mokutil_cmd]
                  with ([wsl_cmd; df_cmd; mokutil_cmd] ++ [])%list;
                eapply probes_trans; [exact H06 |];
                destruct (distro_codename (system_info (data w6))) as [codename|];
                [ destruct (g_strcmp0_eq codename "bullseye");
                  [apply probes_log | apply probes_when_log]
                | rewrite exec_ret; apply probes_refl ]
              | destruct H7 as (tr & Hext & Hp & Hc); exists tr; rewrite app_nil_r; auto ]).
    split; [reflexivity |].
    destruct H06 as (tr & Hext & Hp & Hc). exists tr.
    split; [| split; assumption].
    unfold abort. rewrite exec_bind, exec_ret.
    eapply extends_trans; [exact Hext | apply extends_abort].
Qed.

Lemma wsl_no_double_free env (w : World) :
  eval (is_wsl_system env) w = true -> double_free env w = false.
Proof. intros H. unfold double_free. rewrite H. reflexivity. Qed.

Lemma check_system_compatibility_result env (w : World) :
  eval (check_system_compatibility env) w
  = if double_free env w then None else Some (negb (eval (is_wsl_system env) w)).
Proof. apply check_system_compatibility_outcome. Qed.

Lemma check_system_compatibility_probes env (w : World) :
  double_free env w = false ->
  probes (if eval (is_wsl_system env) w then [wsl_cmd]
          else [wsl_cmd; df_cmd; mokutil_cmd])
    w (exec (check_system_compatibility env) w).
Proof.
  intros Hfree.
  destruct (check_system_compatibility_outcome env w) as (_ & tr & Hext & Hp & Hc).
  rewrite Hfree, app_nil_r in Hext. exists tr. auto.
Qed.

(** The run that frees [output] twice ends inside
    [check_system_compatibility], after the three probes. *)
Lemma check_system_compatibility_killed env (w : World) :
  double_free env w = true ->
  exists tr,
    extends w (exec (check_system_compatibility env) w) (tr ++ [Abort]) /\
    Forall (fun e => probe_effect e = true) tr /\
    commands_of tr = [wsl_cmd; df_cmd; mokutil_cmd].
Proof.
  intros Hfree.
  destruct (check_system_compatibility_outcome env w) as (_ & tr & Hext & Hp & Hc).
  rewrite Hfree in Hext. exists tr.
  assert (Hwsl : eval (is_wsl_system env) w = false).
  { unfold double_free in Hfree. destruct (eval (is_wsl_system env) w);
      [discriminate Hfree | reflexivity]. }
  rewrite Hwsl in Hc. auto.
Qed.

Lemma check_internet_connectivity_result env (w : World) :
  eval (check_internet_connectivity env) w
  = (wait_status (popen env (ncmd w) ping_cmd) =? 0)%Z.
Proof.
  unfold check_internet_connectivity. rewrite eval_bind, eval_run_command.
  destruct (wait_status (popen env (ncmd w) ping_cmd) =? 0)%Z; simpl;
    [reflexivity | rewrite eval_bind; reflexivity].
Qed.

Lemma check_internet_connectivity_probes env (w : World) :
  probes [ping_cmd] w (exec (check_internet_connectivity env) w).
Proof.
  unfold check_internet_connectivity. rewrite exec_bind.
  change [ping_cmd] with ([ping_cmd] ++ [])%list.
  eapply probes_trans; [apply probes_run_command |].
  destruct (negb _).
  - rewrite exec_bind, exec_ret. apply probes_log.
  - rewrite exec_ret. apply probes_refl.
Qed.

Lemma gates_pass_no_double_free env (w : World) :
  gates_pass env w = true ->
  double_free env w = false /\ eval (is_wsl_system env) w = false.
Proof.
  unfold gates_pass. rewrite check_system_compatibility_result.
  destruct (double_free env w); [discriminate |].
  destruct (eval (is_wsl_system env) w); [discriminate | auto].
Qed.

Lemma gates_pass_probes env (w : World) :
  gates_pass env w = true ->
  eval (is_wsl_system env) w = false /\
  probes [wsl_cmd; df_cmd; mokutil_cmd; ping_cmd] w (after_gates env w).
Proof.
  intros H. destruct (gates_pass_no_double_free env w H) as [Hfree Hc].
  unfold after_gates. split; [exact Hc |].
  pose proof (check_system_compatibility_probes env w Hfree) as H1.
  rewrite Hc in H1.
  change [wsl_cmd; df_cmd; mokutil_cmd; ping_cmd]
    with ([wsl_cmd; df_cmd; mokutil_cmd] ++ [ping_cmd])%list.
  eapply probes_trans; [exact H1 | apply check_internet_connectivity_probes].
Qed.

(** ** The steps *)

Lemma exec_plan_cons env (progress inc : gdouble) (s : Step) (rest : list Step)
    (w : World) :
  exec_plan env progress inc (s :: rest) w
  = let r := popen env (ncmd w) (command s) in
    let w1 := mkWorld (data w) (S (ncmd w)) (nlog w)
                (trace w ++ step_effects progress inc s r) (threads w) in
    if (wait_status r =? 0)%Z
    then exec_plan env (next_progress progress inc s) inc rest w1
    else (false, w1).
Proof.
  destruct s as [[[m l]|] c]; cbn [exec_plan announce command];
    unfold step_effects, next_progress, post_progress, run_command_with_progress,
      g_idle_add, emit, run_command, bind, ret;
    cbn [announce command data ncmd nlog trace threads];
    destruct (popen env (ncmd w) c) as [[status out]|]; cbn [wait_status fst];
    try destruct (status =? 0)%Z;
    cbn [data ncmd nlog trace threads fst snd Z.eqb];
    repeat rewrite <- app_assoc; reflexivity.
Qed.

Lemma exec_plan_nil env (progress inc : gdouble) (w : World) :
  exec_plan env progress inc [] w
  = (true,
     mkWorld (data w) (S (ncmd w)) (nlog w)
       (trace w ++
        [IdleAdd (update_progress_ui
           (mkProgressUpdate (100 # 1)%Q (Some "Installation completed successfully!")
              (Some "Installation completed successfully!") STATUS_SUCCESS));
         Exec rm_keyring_cmd (popen env (ncmd w) rm_keyring_cmd)])
       (threads w)).
Proof.
  cbn [exec_plan]. unfold final_update, g_idle_add, emit, run_command, bind, ret.
  cbn [data ncmd nlog trace threads].
  destruct (popen env (ncmd w) rm_keyring_cmd) as [[status out]|];
    cbn [data ncmd nlog trace threads]; rewrite <- app_assoc; reflexivity.
Qed.

Lemma step_effects_commands progress inc (s : Step) (r : PopenResult) :
  commands_of (step_effects progress inc s r) = [command s].
Proof. unfold step_effects. destruct (announce s) as [[m l]|]; reflexivity. Qed.

Lemma step_effects_working progress inc (s : Step) (r : PopenResult) :
  Forall (fun e => working_effect e = true) (step_effects progress inc s r).
Proof.
  unfold step_effects.
  destruct (announce s) as [[m l]|]; destruct (wait_status r =? 0)%Z;
    repeat constructor.
Qed.

Lemma current_message_app (shown : option string) (a b : list IdleCallback) :
  current_message shown (a ++ b) = current_message (current_message shown a) b.
Proof.
  revert shown. induction a as [|cb a IH]; intros shown; [reflexivity |].
  destruct cb; simpl; apply IH.
Qed.

Lemma steps_run_cons (w w1 w2 : World) (a b : list Effect) :
  steps_run w w1 a -> steps_run w1 w2 b -> steps_run w w2 (a ++ b).
Proof.
  intros (Ht & Ha & Hth & Hn & Hf) (Ht' & Ha' & Hth' & Hn' & Hf').
  repeat split; try congruence.
  - rewrite Ht', Ht. now rewrite app_assoc.
  - rewrite commands_of_app, length_app. lia.
  - apply Forall_app. split; assumption.
Qed.

Lemma steps_run_step (w : World) progress inc (s : Step) (r : PopenResult) :
  steps_run w
    (mkWorld (data w) (S (ncmd w)) (nlog w)
       (trace w ++ step_effects progress inc s r) (threads w))
    (step_effects progress inc s r).
Proof.
  repeat split; cbn [trace data threads ncmd].
  - rewrite step_effects_commands. simpl. lia.
  - apply step_effects_working.
Qed.

(** Whatever the system answers, the steps either all run and the
    keyring file is removed, or they stop at the first failing one. *)
Lemma exec_plan_outcome env (inc : gdouble) (steps : list Step) :
  forall (progress : gdouble) (w : World),
  exists tr,
    steps_run w (exec (exec_plan env progress inc steps) w) tr /\
    if eval (exec_plan env progress inc steps) w
    then commands_of tr = (map command steps ++ [rm_keyring_cmd])%list
    else exists k, k < List.length steps /\
                   commands_of tr = map command (firstn (S k) steps).
Proof.
  induction steps as [|s rest IH]; intros progress w.
  - unfold exec, eval. rewrite exec_plan_nil. cbn [fst snd].
    eexists. split.
    + split; [cbn [trace]; reflexivity |].
      repeat split; cbn [trace data threads ncmd]; [simpl; lia | repeat constructor].
    + reflexivity.
  - unfold exec, eval. rewrite exec_plan_cons. cbv zeta.
    set (r := popen env (ncmd w) (command s)).
    pose proof (steps_run_step w progress inc s r) as Hstep.
    set (w1 := mkWorld _ _ _ _ _) in *.
    destruct (wait_status r =? 0)%Z.
    + destruct (IH (next_progress progress inc s) w1) as (tr & Hrun & Hout).
      exists (step_effects progress inc s r ++ tr)%list.
      split; [eapply steps_run_cons; eassumption |].
      unfold exec, eval in *.
      destruct (fst (exec_plan env (next_progress progress inc s) inc rest w1)).
      * rewrite commands_of_app, step_effects_commands, Hout. reflexivity.
      * destruct Hout as (k & Hk & Hcmds). exists (S k).
        split; [simpl; lia |].
        rewrite commands_of_app, step_effects_commands, Hcmds. reflexivity.
    + cbn [fst snd]. exists (step_effects progress inc s r).
      split; [exact Hstep |].
      exists 0. split; [simpl; lia |].
      rewrite step_effects_commands. reflexivity.
Qed.

(** When step [k] is the first whose command fails, exactly the
    commands up to it run, the last callback posted reports its status
    and the message on display is its description. *)
Lemma exec_plan_first_failure env (inc : gdouble) (steps : list Step) :
  forall (k : nat) (progress : gdouble) (shown : option string) (w : World),
  k < List.length steps ->
  (forall i, i < k ->
     wait_status (popen env (ncmd w + i) (command (nth i steps default_step))) = 0%Z) ->
  wait_status (popen env (ncmd w + k) (command (nth k steps default_step))) <> 0%Z ->
  exists tr front,
    steps_run w (exec (exec_plan env progress inc steps) w) tr /\
    eval (exec_plan env progress inc steps) w = false /\
    commands_of tr = map command (firstn (S k) steps) /\
    posted tr
    = (front ++ [running_report (command (nth k steps default_step));
                 failure_report
                   (wait_status
                      (popen env (ncmd w + k) (command (nth k steps default_step))))])%list /\
    current_message shown (posted tr) = description_from shown steps k.
Proof.
  induction steps as [|s rest IH]; intros k progress shown w Hk Hok Hfail;
    [simpl in Hk; lia |].
  unfold exec, eval. rewrite exec_plan_cons. cbv zeta.
  pose proof (steps_run_step w progress inc s (popen env (ncmd w) (command s))) as Hstep.
  destruct k as [|k].
  - rewrite Nat.add_0_r in Hfail. cbn [nth] in Hfail.
    rewrite Nat.add_0_r. cbn [nth].
    set (r := popen env (ncmd w) (command s)) in *.
    apply Z.eqb_neq in Hfail. rewrite Hfail. cbn [fst snd].
    exists (step_effects progress inc s r).
    destruct (announce s) as [[m l]|] eqn:Ha.
    + exists [update_progress_ui
                (mkProgressUpdate (advance progress inc) (Some m) (Some l) STATUS_INFO)].
      split; [exact Hstep |]. split; [reflexivity |].
      split; [apply step_effects_commands |].
      unfold step_effects. rewrite Ha, Hfail. cbn. rewrite Ha. split; reflexivity.
    + exists [].
      split; [exact Hstep |]. split; [reflexivity |].
      split; [apply step_effects_commands |].
      unfold step_effects. rewrite Ha, Hfail. cbn. rewrite Ha. split; reflexivity.
  - assert (H0 : wait_status (popen env (ncmd w) (command s)) = 0%Z).
    { specialize (Hok 0 ltac:(lia)). rewrite Nat.add_0_r in Hok. exact Hok. }
    set (r := popen env (ncmd w) (command s)) in *.
    rewrite H0. cbn [Z.eqb].
    set (w1 := mkWorld _ _ _ _ _) in *.
    set (shown1 := match announce s with Some (m, _) => Some m | None => shown end).
    destruct (IH k (next_progress progress inc s) shown1 w1) as (tr & front & Hrun & Hev & Hcmds & Hpost & Hmsg).
    + simpl in Hk. lia.
    + intros i Hi. specialize (Hok (S i) ltac:(lia)).
      cbn [nth] in Hok. subst w1. cbn [ncmd].
      replace (S (ncmd w) + i) with (ncmd w + S i) by lia. exact Hok.
    + subst w1. cbn [ncmd].
      replace (S (ncmd w) + k) with (ncmd w + S k) by lia. exact Hfail.
    + subst w1. cbn [ncmd] in Hpost.
      replace (S (ncmd w) + k) with (ncmd w + S k) in Hpost by lia.
      cbn [nth] in *.
      exists (step_effects progress inc s r ++ tr)%list,
             (posted (step_effects progress inc s r) ++ front)%list.
      unfold exec, eval in *.
      split; [eapply steps_run_cons; eassumption |].
      split; [exact Hev |].
      split; [rewrite commands_of_app, step_effects_commands, Hcmds; reflexivity |].
      split; [rewrite posted_app, Hpost, app_assoc; reflexivity |].
      assert (Hshown : current_message shown (posted (step_effects progress inc s r))
                       = shown1).
      { unfold step_effects, shown1. rewrite H0. cbn [Z.eqb].
        destruct (announce s) as [[m l]|]; reflexivity. }
      rewrite posted_app, current_message_app, Hshown, Hmsg.
      reflexivity.
Qed.

(** ** The install run as a whole *)

Lemma exec_finish (dialog : option IdleCallback) (w : World) :
  exec (set_running false ;; restore_buttons ;;
        match dialog with Some cb => g_idle_add cb | None => ret tt end) w
  = finish_run (match dialog with Some cb => [cb] | None => [] end) w.
Proof.
  destruct dialog; unfold finish_run, terminal_effects, restore_callbacks;
    cbn; repeat rewrite <- app_assoc; reflexivity.
Qed.

Lemma gates_keep_core env (w : World) :
  same_core (data w) (data (exec (check_system_compatibility env) w)) /\
  same_core (data w) (data (after_gates env w)).
Proof.
  destruct (check_system_compatibility_outcome env w) as (_ & t1 & (_ & _ & _ & H1) & _).
  destruct (check_internet_connectivity_probes env (exec (check_system_compatibility env) w))
    as (t2 & (_ & _ & _ & H2) & _).
  split; [exact H1 | eapply same_core_trans; eassumption].
Qed.

Lemma installation_thread_run env (w : World) :
  exec (installation_thread env) w
  = if eval (is_wsl_system env) w
    then finish_run [] (exec (check_system_compatibility env) w)
    else if double_free env w
    then exec (check_system_compatibility env) w
    else if negb (gates_pass env w)
    then finish_run [show_error_dialog_wrapper] (after_gates env w)
    else if steps_succeed env w
    then finish_run [show_completion_dialog_wrapper] (steps_world env w)
    else finish_run [show_error_dialog_wrapper]
           (exec (run_command env autoremove_cmd) (steps_world env w)).
Proof.
  unfold installation_thread. rewrite exec_bind. rewrite exec_get_app.
  change (eval get_app w) with (data w). cbv zeta.
  rewrite exec_bind.
  unfold gates_pass, steps_succeed, steps_world, after_gates.
  rewrite check_system_compatibility_result.
  destruct (eval (is_wsl_system env) w) eqn:Hwsl; cbn [negb andb].
  - rewrite (wsl_no_double_free env w Hwsl). apply (exec_finish None).
  - destruct (double_free env w); [apply exec_ret |].
    cbn [negb]. rewrite exec_bind.
    destruct (eval (check_internet_connectivity env)
                (exec (check_system_compatibility env) w)); cbn [negb].
    + rewrite exec_bind, exec_get_app.
      change (eval get_app ?x) with (data x).
      destruct (gates_keep_core env w) as [_ Hcore].
      apply same_core_fields in Hcore as (Hsi & _).
      unfold after_gates in Hsi. rewrite Hsi.
      rewrite exec_bind.
      match goal with
      | |- context [eval ?c ?x] => generalize (eval c x) (exec c x)
      end.
      intros success w3.
      destruct success; cbn [negb when].
      * change (exec (ret tt ;; ?c) ?x) with (exec c x).
        apply (exec_finish (Some show_completion_dialog_wrapper)).
      * rewrite exec_bind.
        rewrite (exec_bind (run_command env autoremove_cmd)), exec_ret.
        apply (exec_finish (Some show_error_dialog_wrapper)).
    + apply (exec_finish (Some show_error_dialog_wrapper)).
Qed.

Example installing_world_ok :
  installation_running (data (installing_world env_ok)) = true /\
  threads (installing_world env_ok) = [installation_worker] /\
  gates_pass env_ok (installing_world env_ok) = true.
Proof. vm_compute. repeat split. Qed.

Lemma probe_effects_posted (tr : list Effect) :
  Forall (fun e => probe_effect e = true) tr -> posted tr = [].
Proof.
  induction 1 as [|e tr He _ IH]; [reflexivity |].
  destruct e; try discriminate He; exact IH.
Qed.

Lemma probe_effects_working (tr : list Effect) :
  Forall (fun e => probe_effect e = true) tr ->
  Forall (fun e => working_effect e = true) tr.
Proof.
  apply Forall_impl. intros e He. destruct e; try discriminate He; reflexivity.
Qed.

Lemma finish_run_trace (dialog : list IdleCallback) (w : World) :
  trace (finish_run dialog w) = (trace w ++ terminal_effects dialog)%list /\
  installation_running (data (finish_run dialog w)) = false /\
  threads (finish_run dialog w) = threads w /\
  ncmd (finish_run dialog w) = ncmd w.
Proof. repeat split. Qed.

Lemma wsl_not_mutating (codename : option string) :
  ~ In wsl_cmd (mutating_commands codename).
Proof.
  unfold mutating_commands. cbn [In].
  intros [H|[H|[H|[H|[H|[H|[H|[H|[H|[]]]]]]]]]]; discriminate H.
Qed.

Lemma on_install_clicked_wsl env (user : UserInput) (w : World) :
  installation_running (data w) = false ->
  eval (is_wsl_system env) w = true ->
  exec (on_install_clicked env user) w
  = mkWorld (data w) (S (ncmd w)) (nlog w)
      (trace w ++ [Exec wsl_cmd (popen env (ncmd w) wsl_cmd);
                   Dialog "WSL Environment Detected"])
      (threads w).
Proof.
  intros Hrun Hwsl. unfold on_install_clicked.
  rewrite exec_bind, exec_get_app. change (eval get_app w) with (data w).
  rewrite Hrun, exec_bind, Hwsl, exec_is_wsl_system, exec_run_command.
  unfold exec, show_error_dialog, emit. cbn. rewrite <- app_assoc. reflexivity.
Qed.

(** C3. When the kernel version string carries the WSL marker, the
    install request is turned down in the handler and, should a worker
    run all the same, [installation_thread] stops at its first gate: the
    only process either of them starts is the kernel-version probe, which
    is none of the commands that change the system; the worker resets the
    run flag and only restores the buttons. *)
Theorem wsl_marker_aborts_install (env : Env) (user : UserInput) (w : World) :
  eval (is_wsl_system env) w = true ->
  let w' := exec (installation_thread env) w in
  let h := exec (on_install_clicked env user) w in
  (exists work,
     trace w' = (trace w ++ work ++ terminal_effects [])%list /\
     Forall (fun e => probe_effect e = true) work /\
     commands_of work = [wsl_cmd]) /\
  installation_running (data w') = false /\
  threads w' = threads w /\
  (forall codename, ~ In wsl_cmd (mutating_commands codename)) /\
  commands_of (trace h)
  = (commands_of (trace w) ++ if installation_running (data w) then [] else [wsl_cmd])%list /\
  spawned (trace h) = spawned (trace w) /\
  threads h = threads w /\
  data h = data w.
Proof.
  intros Hwsl w' h. subst w' h.
  rewrite installation_thread_run, Hwsl.
  pose proof (check_system_compatibility_probes env w (wsl_no_double_free env w Hwsl))
    as Hp.
  rewrite Hwsl in Hp.
  destruct Hp as (work & (Htr & _ & Hth & _) & Hprobe & Hcmds).
  split; [| split; [| split; [| split]]].
  - exists work. cbn [finish_run trace]. rewrite Htr, <- app_assoc.
    repeat split; assumption.
  - reflexivity.
  - cbn [finish_run threads]. exact Hth.
  - apply wsl_not_mutating.
  - destruct (installation_running (data w)) eqn:Hrun.
    + unfold on_install_clicked. rewrite exec_bind, exec_get_app.
      change (eval get_app w) with (data w). rewrite Hrun, exec_ret, app_nil_r.
      repeat split.
    + rewrite on_install_clicked_wsl by assumption. cbn [trace threads data].
      unfold spawned. rewrite commands_of_app, !flat_map_app, app_nil_r.
      repeat split.
Qed.

Lemma install_steps_outcome env (w : World) :
  exists tr,
    steps_run (after_gates env w) (steps_world env w) tr /\
    if steps_succeed env w
    then commands_of tr
         = (map command (plan (install_driver_check (data w)) (install_cuda_check (data w))
                           (distro_codename (system_info (data w))))
            ++ [rm_keyring_cmd])%list
    else exists k,
           k < List.length (plan (install_driver_check (data w)) (install_cuda_check (data w))
                              (distro_codename (system_info (data w)))) /\
           commands_of tr
           = map command
               (firstn (S k) (plan (install_driver_check (data w)) (install_cuda_check (data w))
                                (distro_codename (system_info (data w))))).
Proof.
  unfold steps_world, steps_succeed, exec, eval.
  rewrite install_steps_plan. apply exec_plan_outcome.
Qed.

Lemma on_detect_clicked_accepts env (w : World) :
  installation_running (data w) = false ->
  threads (exec (on_detect_clicked env) w) = (threads w ++ [detection_worker])%list.
Proof.
  intros Hrun. unfold on_detect_clicked.
  rewrite exec_bind, exec_get_app. change (eval get_app w) with (data w).
  rewrite Hrun. rewrite !exec_bind.
  unfold exec at 1. unfold pthread_create. cbn [snd threads].
  destruct (probes_log env "Running system detection..." STATUS_INFO
              (exec (modify_app (gtk_widget_set_sensitive detect_button false)) w))
    as (tr & (_ & _ & Hth & _) & _).
  rewrite Hth. reflexivity.
Qed.

Lemma grows_ret {A} (a : A) : grows (ret a).
Proof. intros w. exists []. cbn. now rewrite app_nil_r. Qed.

Lemma grows_bind {A B} (c : M A) (k : A -> M B) :
  grows c -> (forall a, grows (k a)) -> grows (bind c k).
Proof.
  intros Hc Hk w. rewrite exec_bind.
  destruct (Hc w) as [t Ht]. destruct (Hk (eval c w) (exec c w)) as [t' Ht'].
  exists (t ++ t')%list. rewrite Ht', Ht, app_assoc. reflexivity.
Qed.

Lemma grows_emit (e : Effect) : grows (emit e).
Proof. intros w. exists [e]. reflexivity. Qed.

Lemma grows_modify_app (f : AppData -> AppData) : grows (modify_app f).
Proof. intros w. exists []. cbn. now rewrite app_nil_r. Qed.

Lemma grows_log_message env message type : grows (log_message env message type).
Proof.
  intros w. destruct (probes_log env message type w) as (t & (Ht & _) & _).
  exists t. exact Ht.
Qed.

Lemma grows_run_command env (c : string) : grows (run_command env c).
Proof. intros w. rewrite exec_run_command. eexists. reflexivity. Qed.

Lemma grows_pthread_create (t : Worker) : grows (pthread_create t).
Proof. intros w. exists [Spawn t]. reflexivity. Qed.

Ltac grows_step :=
  first
    [ apply grows_ret | apply grows_emit | apply grows_modify_app
    | apply grows_log_message | apply grows_run_command | apply grows_pthread_create
    | apply grows_bind; [| intros ?]
    | match goal with
      | |- grows (if ?b then _ else _) => destruct b
      | |- grows (match ?x with _ => _ end) => destruct x
      end ].

Lemma on_install_clicked_passes_guard env (user : UserInput) (w : World) :
  installation_running (data w) = false ->
  exists rest,
    trace (exec (on_install_clicked env user) w)
    = (trace w ++ Exec wsl_cmd (popen env (ncmd w) wsl_cmd) :: rest)%list.
Proof.
  intros Hrun. unfold on_install_clicked.
  rewrite exec_bind, exec_get_app. change (eval get_app w) with (data w).
  rewrite Hrun, exec_bind, exec_is_wsl_system.
  match goal with
  | |- context [exec ?c (exec (run_command env wsl_cmd) w)] =>
      assert (Hc : grows c)
  end.
  { unfold show_error_dialog, set_running, verify_sudo_access. repeat grows_step. }
  destruct (Hc (exec (run_command env wsl_cmd) w)) as [t Ht].
  exists t. rewrite Ht, exec_run_command. cbn [trace].
  rewrite <- app_assoc. reflexivity.
Qed.

Lemma dispatch_terminal_callbacks env (dialog : list IdleCallback) (w : World) :
  dialog = [] \/ dialog = [show_error_dialog_wrapper] \/
  dialog = [show_completion_dialog_wrapper] ->
  let ui := exec (dispatch_all env (restore_callbacks ++ dialog)) w in
  detect_button_sensitive (data ui) = true /\
  install_button_sensitive (data ui) = true /\
  install_button_label (data ui) = "[INSTALL] Start" /\
  installation_running (data ui) = installation_running (data w).
Proof. intros [-> | [-> | ->]]; repeat split. Qed.

(** Every exit path: working effects, then the reset of the flag, then
    the restoring callbacks and at most one dialog. *)
Lemma installation_thread_exit env (w : World) :
  double_free env w = false ->
  exists work dialog,
    trace (exec (installation_thread env) w)
    = (trace w ++ work ++ terminal_effects dialog)%list /\
    Forall (fun e => working_effect e = true) work /\
    (dialog = [] \/ dialog = [show_error_dialog_wrapper] \/
     dialog = [show_completion_dialog_wrapper]).
Proof.
  intros Hfree.
  rewrite installation_thread_run, Hfree.
  pose proof (check_system_compatibility_probes env w Hfree) as Hc.
  destruct (eval (is_wsl_system env) w) eqn:Hwsl.
  { destruct Hc as (work & (Htr & _) & Hprobe & _).
    exists work, []. cbn [finish_run trace]. rewrite Htr, <- app_assoc.
    split; [reflexivity |]. split; [apply probe_effects_working; exact Hprobe | auto]. }
  pose proof (check_internet_connectivity_probes env
                (exec (check_system_compatibility env) w)) as Hi.
  fold (after_gates env w) in Hi.
  pose proof (probes_trans _ _ _ _ _ Hc Hi) as (gates & (Hg & _) & Hgprobe & _).
  destruct (negb (gates_pass env w)).
  { exists gates, [show_error_dialog_wrapper].
    cbn [finish_run trace]. rewrite Hg, <- app_assoc.
    split; [reflexivity |]. split; [apply probe_effects_working; exact Hgprobe | auto]. }
  destruct (install_steps_outcome env w) as (tr & (Hs & _ & _ & _ & Hwork) & _).
  destruct (steps_succeed env w).
  - exists (gates ++ tr)%list, [show_completion_dialog_wrapper].
    cbn [finish_run trace]. rewrite Hs, Hg. repeat rewrite <- app_assoc.
    split; [reflexivity |].
    split; [apply Forall_app; split; [apply probe_effects_working |]; assumption | auto].
  - exists (gates ++ tr ++ [Exec autoremove_cmd
                              (popen env (ncmd (steps_world env w)) autoremove_cmd)])%list,
           [show_error_dialog_wrapper].
    cbn [finish_run trace]. rewrite exec_run_command. cbn [trace].
    rewrite Hs, Hg. repeat rewrite <- app_assoc.
    split; [reflexivity |].
    split; [| auto].
    apply Forall_app; split; [apply probe_effects_working; assumption |].
    apply Forall_app; split; [assumption | repeat constructor].
Qed.

Lemma installation_thread_resets_flag env (w : World) :
  double_free env w = false ->
  installation_running (data (exec (installation_thread env) w)) = false.
Proof.
  intros Hfree. rewrite installation_thread_run, Hfree.
  repeat match goal with |- context [if ?b then _ else _] => destruct b end;
    reflexivity.
Qed.

(** C9. Unless [check_system_compatibility] frees its buffer twice --
    the one answer of the system under which the worker does not reach
    an exit -- [installation_thread] ends with the run flag reset; the
    reset comes after the working phase (processes, console lines,
    progress updates) and before the callbacks that restore the buttons
    and open the closing dialog, on every exit path: compatibility gate,
    connectivity gate, step failure and success.  Afterwards the guard
    of both handlers lets a request through, and once the main loop has
    run the queued callbacks both buttons are sensitive again. *)
Theorem every_exit_resets_running_flag (env : Env) (user : UserInput) (w : World) :
  double_free env w = false ->
  let w' := exec (installation_thread env) w in
  installation_running (data w') = false /\
  (exists work dialog,
     trace w' = (trace w ++ work ++ terminal_effects dialog)%list /\
     Forall (fun e => working_effect e = true) work /\
     (dialog = [] \/ dialog = [show_error_dialog_wrapper] \/
      dialog = [show_completion_dialog_wrapper]) /\
     let ui := exec (dispatch_all env (restore_callbacks ++ dialog)) w' in
     detect_button_sensitive (data ui) = true /\
     install_button_sensitive (data ui) = true /\
     installation_running (data ui) = false) /\
  threads (exec (on_detect_clicked env) w') = (threads w' ++ [detection_worker])%list /\
  (exists rest,
     trace (exec (on_install_clicked env user) w')
     = (trace w' ++ Exec wsl_cmd (popen env (ncmd w') wsl_cmd) :: rest)%list).
Proof.
  intros Hfree w'.
  pose proof (installation_thread_resets_flag env w Hfree) as Hflag. fold w' in Hflag.
  split; [exact Hflag |].
  split; [| split; [apply on_detect_clicked_accepts; exact Hflag
                   | apply on_install_clicked_passes_guard; exact Hflag]].
  destruct (installation_thread_exit env w Hfree) as (work & dialog & Htr & Hwork & Hd).
  exists work, dialog.
  destruct (dispatch_terminal_callbacks env dialog w' Hd) as (H1 & H2 & _ & H4).
  cbv zeta. rewrite H4. auto 10.
Qed.

Lemma plan_commands_not_cleanup (d c : bool) (codename : option string) (x : string) :
  In x (gate_commands ++ map command (plan d c codename)) ->
  x <> rm_keyring_cmd /\ x <> autoremove_cmd.
Proof.
  destruct d, c; cbn [plan base_steps driver_steps cuda_steps gate_commands
                        List.app map command In];
    intros H;
    repeat (destruct H as [<- | H]; [split; discriminate |]);
    destruct H.
Qed.

Lemma count_occ_absent (l : list string) (x : string) :
  (forall y, In y l -> y <> x) -> count_occ string_dec l x = 0.
Proof.
  intros H. apply count_occ_not_In. intros Hin. exact (H x Hin eq_refl).
Qed.

Lemma firstn_incl {A} (n : nat) (l : list A) (x : A) :
  In x (firstn n l) -> In x l.
Proof.
  revert n. induction l as [|a l IH]; intros [|n] H; simpl in *; try tauto.
  destruct H as [H | H]; [left; exact H | right; eapply IH; exact H].
Qed.

Lemma gates_pass_stopped env (w : World) :
  eval (is_wsl_system env) w = true \/ double_free env w = true ->
  gates_pass env w = false.
Proof.
  unfold gates_pass. rewrite check_system_compatibility_result.
  intros [H | H].
  - rewrite (wsl_no_double_free env w H), H. reflexivity.
  - rewrite H. reflexivity.
Qed.

(** C10. The two cleanup commands by outcome, for every answer of the
    system.  In a run that passed the gates exactly one of them is
    executed: after the last step has succeeded the downloaded keyring
    file is removed and nothing is auto-removed; after a step has failed
    the packages are auto-removed and the keyring file is left in place.
    A run that did not pass the gates executes neither, although the run
    stopped at the connectivity gate ends with the failure dialog as
    well. *)
Theorem cleanup_actions_exclusive (env : Env) (w : World) :
  exists tr,
    trace (exec (installation_thread env) w) = (trace w ++ tr)%list /\
    let removed := count_occ string_dec (commands_of tr) rm_keyring_cmd in
    let autoremoved := count_occ string_dec (commands_of tr) autoremove_cmd in
    if gates_pass env w then
      if steps_succeed env w
      then removed = 1 /\ autoremoved = 0 /\
           exists front,
             posted tr = (front ++ restore_callbacks ++ [show_completion_dialog_wrapper])%list
      else autoremoved = 1 /\ removed = 0 /\
           exists front,
             posted tr = (front ++ restore_callbacks ++ [show_error_dialog_wrapper])%list
    else
      removed = 0 /\ autoremoved = 0 /\
      posted tr = if eval (is_wsl_system env) w then restore_callbacks
                  else if double_free env w then []
                  else (restore_callbacks ++ [show_error_dialog_wrapper])%list.
Proof.
  rewrite installation_thread_run.
  destruct (eval (is_wsl_system env) w) eqn:Hwsl.
  { rewrite (gates_pass_stopped env w (or_introl Hwsl)).
    pose proof (check_system_compatibility_probes env w (wsl_no_double_free env w Hwsl))
      as (work & (Htr & _) & Hprobe & Hcmds).
    rewrite Hwsl in Hcmds.
    exists (work ++ terminal_effects [])%list.
    cbn [finish_run trace]. rewrite Htr, <- app_assoc. split; [reflexivity |].
    cbv zeta. rewrite commands_of_app, posted_app, Hcmds, (probe_effects_posted work Hprobe).
    repeat split. }
  destruct (double_free env w) eqn:Hfree.
  { rewrite (gates_pass_stopped env w (or_intror Hfree)).
    destruct (check_system_compatibility_killed env w Hfree)
      as (work & (Htr & _) & Hprobe & Hcmds).
    exists (work ++ [Abort])%list. split; [exact Htr |].
    cbv zeta. rewrite commands_of_app, posted_app, Hcmds, (probe_effects_posted work Hprobe).
    repeat split. }
  destruct (gates_pass env w) eqn:Hgates; cbn [negb].
  2:{ pose proof (check_system_compatibility_probes env w Hfree) as Hc.
      rewrite Hwsl in Hc.
      pose proof (check_internet_connectivity_probes env
                    (exec (check_system_compatibility env) w)) as Hi.
      fold (after_gates env w) in Hi.
      pose proof (probes_trans _ _ _ _ _ Hc Hi) as (gates & (Hg & _) & Hgprobe & Hgc).
      exists (gates ++ terminal_effects [show_error_dialog_wrapper])%list.
      cbn [finish_run trace]. rewrite Hg, <- app_assoc. split; [reflexivity |].
      cbv zeta. rewrite commands_of_app, posted_app, Hgc, (probe_effects_posted gates Hgprobe).
      repeat split. }
  destruct (gates_pass_probes env w Hgates) as (_ & gates & (Hg & _) & Hgprobe & Hgc).
  destruct (install_steps_outcome env w) as (tr & (Hs & _) & Hout).
  set (steps := plan (install_driver_check (data w)) (install_cuda_check (data w))
                  (distro_codename (system_info (data w)))) in *.
  assert (Hclean : forall x, In x (gate_commands ++ map command steps) ->
                             x <> rm_keyring_cmd /\ x <> autoremove_cmd)
    by (intros x; apply plan_commands_not_cleanup).
  destruct (steps_succeed env w).
  - exists (gates ++ tr ++ terminal_effects [show_completion_dialog_wrapper])%list.
    cbn [finish_run trace]. rewrite Hs, Hg. repeat rewrite <- app_assoc.
    split; [reflexivity |]. cbv zeta.
    rewrite !commands_of_app, !posted_app, Hgc, Hout, (probe_effects_posted gates Hgprobe).
    change (commands_of (terminal_effects [show_completion_dialog_wrapper]))
      with (@nil string).
    fold gate_commands.
    rewrite app_nil_r, app_assoc.
    rewrite !(count_occ_app string_dec (gate_commands ++ map command steps)).
    rewrite !(count_occ_absent (gate_commands ++ map command steps))
      by (intros y Hy; apply Hclean; exact Hy).
    split; [reflexivity |]. split; [reflexivity |].
    exists (posted tr). reflexivity.
  - destruct Hout as (k & Hk & Hout).
    exists (gates ++ tr ++ Exec autoremove_cmd
                             (popen env (ncmd (steps_world env w)) autoremove_cmd)
                  :: terminal_effects [show_error_dialog_wrapper])%list.
    cbn [finish_run trace]. rewrite exec_run_command. cbn [trace].
    rewrite Hs, Hg. repeat rewrite <- app_assoc.
    split; [reflexivity |]. cbv zeta.
    rewrite !commands_of_app, !posted_app, Hgc, Hout, (probe_effects_posted gates Hgprobe).
    change (commands_of (Exec autoremove_cmd
                           (popen env (ncmd (steps_world env w)) autoremove_cmd)
                         :: terminal_effects [show_error_dialog_wrapper]))
      with [autoremove_cmd].
    fold gate_commands.
    rewrite app_assoc.
    rewrite !(count_occ_app string_dec (gate_commands ++ map command (firstn (S k) steps))).
    rewrite !(count_occ_absent (gate_commands ++ map command (firstn (S k) steps))).
    + split; [reflexivity |]. split; [reflexivity |].
      exists (posted tr). reflexivity.
    + intros y Hy. apply Hclean. apply in_app_or in Hy as [Hy | Hy];
        apply in_or_app; [left; exact Hy | right].
      rewrite <- firstn_map in Hy. eapply firstn_incl; exact Hy.
    + intros y Hy. apply Hclean. apply in_app_or in Hy as [Hy | Hy];
        apply in_or_app; [left; exact Hy | right].
      rewrite <- firstn_map in Hy. eapply firstn_incl; exact Hy.
Qed.

Lemma same_core_progress_label (a b : AppData) :
  same_core a b -> progress_label b = progress_label a.
Proof. intros [-> | [t ->]]; reflexivity. Qed.

Lemma current_message_shown (cbs : list IdleCallback) :
  forall m, current_message (Some m) cbs
            = Some (match current_message None cbs with Some m' => m' | None => m end).
Proof.
  induction cbs as [|cb cbs IH]; intros m; [reflexivity |].
  destruct cb as [u| | | | |]; cbn [current_message]; try apply IH.
  destruct (message u) as [m'|]; [| apply IH].
  rewrite (IH m'). destruct (current_message None cbs); reflexivity.
Qed.

(** Once the main loop has run a list of callbacks, the progress label
    shows the last message they carried. *)
Lemma dispatch_all_progress_label env (cbs : list IdleCallback) :
  forall w,
  progress_label (data (exec (dispatch_all env cbs) w))
  = match current_message None cbs with
    | Some m => m
    | None => progress_label (data w)
    end.
Proof.
  induction cbs as [|cb cbs IH]; intros w; [reflexivity |].
  cbn [dispatch_all]. rewrite exec_bind, IH.
  destruct cb as [u| | | | |]; cbn [current_message]; try reflexivity.
  assert (Hlog : progress_label
                   (data (exec match log_text u with
                               | Some l => log_message env l (log_type u)
                               | None => ret tt
                               end
                            (exec match message u with
                                  | Some m => modify_app
                                      (set_progress (Qred (progress u / (100 # 1))%Q) m)
                                  | None => ret tt
                                  end w)))
                 = match message u with Some m => m | None => progress_label (data w) end).
  { destruct (log_text u) as [l|].
    - match goal with
      | |- context [exec (log_message env l ?t) ?x] =>
          destruct (probes_log env l t x) as (tr & (_ & _ & _ & Hcore) & _)
      end.
      rewrite (same_core_progress_label _ _ Hcore).
      destruct (message u); reflexivity.
    - destruct (message u); reflexivity. }
  cbn [dispatch]. rewrite exec_bind, Hlog.
  destruct (message u) as [m|]; [| reflexivity].
  rewrite current_message_shown. destruct (current_message None cbs); reflexivity.
Qed.

Lemma first_failure_spec env (steps : list Step) :
  forall (n k : nat),
  first_failure env n steps = Some k ->
  k < List.length steps /\
  (forall i, i < k ->
     wait_status (popen env (n + i) (command (nth i steps default_step))) = 0%Z) /\
  wait_status (popen env (n + k) (command (nth k steps default_step))) <> 0%Z.
Proof.
  induction steps as [|s rest IH]; intros n k H; [discriminate H |].
  cbn [first_failure] in H.
  destruct (wait_status (popen env n (command s)) =? 0)%Z eqn:Hs.
  - destruct (first_failure env (S n) rest) as [k'|] eqn:Hrest; [| discriminate H].
    injection H as <-. destruct (IH _ _ Hrest) as (Hk & Hok & Hfail).
    split; [simpl; lia |]. split.
    + intros [|i] Hi; cbn [nth].
      * rewrite Nat.add_0_r. apply Z.eqb_eq. exact Hs.
      * replace (n + S i) with (S n + i) by lia. apply Hok. lia.
    + cbn [nth]. replace (n + S k') with (S n + k') by lia. exact Hfail.
  - injection H as <-. split; [simpl; lia |]. split; [intros i Hi; lia |].
    cbn [nth]. rewrite Nat.add_0_r. apply Z.eqb_neq. exact Hs.
Qed.

Lemma description_from_shown (steps : list Step) :
  forall (m : string) (k : nat), exists description,
    description_from (Some m) steps k = Some description.
Proof.
  induction steps as [|s rest IH]; intros m k; cbn [description_from].
  - exists m. reflexivity.
  - destruct (announce s) as [[m' l]|]; destruct k; eauto.
Qed.

Lemma plan_step_described (d c : bool) (codename : option string) (k : nat) :
  exists description, step_description (plan d c codename) k = Some description.
Proof.
  unfold step_description, plan, base_steps.
  cbn [List.app description_from announce].
  destruct k as [|[|k]]; [eauto | eauto |]. apply description_from_shown.
Qed.

Lemma WEXITSTATUS_of_exit (code : Z) :
  (0 <= code < 256)%Z -> WEXITSTATUS (256 * code) = code.
Proof.
  intros H. unfold WEXITSTATUS.
  rewrite Z.shiftr_div_pow2 by lia. change (2 ^ 8)%Z with 256%Z.
  rewrite Z.mul_comm, Z.div_mul by lia.
  change 255%Z with (Z.ones 8). rewrite Z.land_ones by lia.
  apply Z.mod_small. change (2 ^ 8)%Z with 256%Z. lia.
Qed.

(** The number printed for a wait status is never the number of the
    exit code it holds. *)
Lemma fmt_d_wait_status (code : Z) :
  (0 < code < 256)%Z -> fmt_d (256 * code) <> fmt_d code.
Proof.
  intros H.
  assert (Hall : forallb (fun n => negb (String.eqb (fmt_d (256 * Z.of_nat n))
                                           (fmt_d (Z.of_nat n))))
                   (seq 1 255) = true) by (vm_compute; reflexivity).
  rewrite forallb_forall in Hall.
  specialize (Hall (Z.to_nat code)).
  rewrite Z2Nat.id in Hall by lia.
  assert (Hin : In (Z.to_nat code) (seq 1 255)) by (apply in_seq; lia).
  apply Hall in Hin. apply negb_true_iff in Hin. apply String.eqb_neq in Hin. exact Hin.
Qed.

(** C2. In a run that passed the gates, when step [k] is the first step
    whose command fails and that command exits with code [code]: the
    processes started are those of the gates, the commands of the steps
    up to [k] and then the one [apt-get autoremove], whose answer nothing
    depends on; no later step is run; the run ends with the flag reset
    and the failure dialog queued.  The last two callbacks of the working
    phase name the command and report its failure, but the number
    reported as its exit code is the wait status of [pclose], 256 times
    the exit code, which [%d] never prints as the exit code itself.  The
    message on display is the last one announced at or before step
    [k]. *)
Theorem first_failing_step_reports_wait_status (env : Env) (w : World) (k : nat)
    (code : Z) (out : string) :
  let steps := plan (install_driver_check (data w)) (install_cuda_check (data w))
                 (distro_codename (system_info (data w))) in
  let base := ncmd w + List.length gate_commands in
  let failing := command (nth k steps default_step) in
  gates_pass env w = true ->
  first_failure env base steps = Some k ->
  popen env (base + k) failing = Some ((256 * code)%Z, out) ->
  (0 < code < 256)%Z ->
  let w' := exec (installation_thread env) w in
  exists work front description,
    trace w'
    = (trace w ++ work
         ++ Exec autoremove_cmd (popen env (base + S k) autoremove_cmd)
         :: terminal_effects [show_error_dialog_wrapper])%list /\
    commands_of work = (gate_commands ++ map command (firstn (S k) steps))%list /\
    posted work
    = (front ++
       [update_progress_ui
          (mkProgressUpdate 0%Q None (Some ("Running: " ++ failing)%string) STATUS_INFO);
        update_progress_ui
          (mkProgressUpdate 0%Q None
             (Some ("Command failed with exit code " ++ fmt_d (256 * code))%string)
             STATUS_ERROR)])%list /\
    WEXITSTATUS (256 * code) = code /\
    fmt_d (256 * code) <> fmt_d code /\
    step_description steps k = Some description /\
    current_message None (posted work) = Some description /\
    progress_label
      (data (exec (dispatch_all env
                     (posted work ++ restore_callbacks ++ [show_error_dialog_wrapper]))
               w'))
    = description /\
    installation_running (data w') = false.
Proof.
  intros steps base failing Hgates Hfirst Hanswer Hcode w'.
  destruct (first_failure_spec env steps base k Hfirst) as (Hk & Hok & Hfail).
  destruct (gates_pass_no_double_free env w Hgates) as [Hfree _].
  destruct (gates_pass_probes env w Hgates)
    as (Hwsl & gates & (Hg & Hgn & _) & Hgprobe & Hgc).
  rewrite Hgc in Hgn. change (List.length [wsl_cmd; df_cmd; mokutil_cmd; ping_cmd])
    with (List.length gate_commands) in Hgn. fold base in Hgn.
  destruct (exec_plan_first_failure env
              (progress_increment_of
                 (total_steps (install_driver_check (data w)) (install_cuda_check (data w))))
              steps k 0%Q None (after_gates env w) Hk)
    as (tr & front & (Hs & _ & _ & Hsn & _) & Hev & Hcmds & Hpost & Hmsg).
  { intros i Hi. rewrite Hgn. apply Hok. exact Hi. }
  { rewrite Hgn. exact Hfail. }
  rewrite Hgn in Hpost. fold failing in Hpost. rewrite Hanswer in Hpost.
  cbn [wait_status] in Hpost.
  assert (Hsucc : steps_succeed env w = false).
  { unfold steps_succeed, eval. rewrite install_steps_plan. exact Hev. }
  assert (Hworld : steps_world env w
                   = exec (exec_plan env 0%Q
                             (progress_increment_of
                                (total_steps (install_driver_check (data w))
                                   (install_cuda_check (data w))))
                             steps) (after_gates env w)).
  { unfold steps_world, exec. rewrite install_steps_plan. reflexivity. }
  rewrite <- Hworld in Hs, Hsn.
  subst w'. rewrite installation_thread_run, Hwsl, Hfree, Hgates, Hsucc. cbn [negb].
  destruct (plan_step_described (install_driver_check (data w)) (install_cuda_check (data w))
              (distro_codename (system_info (data w))) k) as [description Hdesc].
  fold steps in Hdesc.
  exists (gates ++ tr)%list, front, description.
  rewrite exec_run_command. cbn [finish_run trace data].
  assert (Hn : ncmd (steps_world env w) = base + S k).
  { rewrite Hsn, Hgn, Hcmds, length_map, length_firstn. lia. }
  rewrite Hn, Hs, Hg. repeat rewrite <- app_assoc.
  split; [reflexivity |].
  split; [rewrite commands_of_app, Hgc, Hcmds; reflexivity |].
  rewrite posted_app, (probe_effects_posted gates Hgprobe). cbn [List.app].
  split; [exact Hpost |].
  split; [apply WEXITSTATUS_of_exit; lia |].
  split; [apply fmt_d_wait_status; exact Hcode |].
  split; [exact Hdesc |].
  assert (Hshown : current_message None (posted tr) = Some description)
    by (rewrite Hmsg; exact Hdesc).
  split; [exact Hshown |].
  split; [| reflexivity].
  rewrite dispatch_all_progress_label, current_message_app, Hshown. reflexivity.
Qed.

(** ** The request handlers *)

Lemma handlers_reject_while_installing env (user : UserInput) (w : World) :
  installation_running (data w) = true ->
  exec (on_detect_clicked env) w = w /\ exec (on_install_clicked env user) w = w.
Proof.
  intros Hrun. unfold on_detect_clicked, on_install_clicked.
  rewrite !exec_bind, exec_get_app. change (eval get_app w) with (data w).
  rewrite Hrun. split; reflexivity.
Qed.

Lemma on_install_clicked_empty_selection env (user : UserInput) (w : World) :
  installation_running (data w) = false ->
  install_driver_check (data w) = false ->
  install_cuda_check (data w) = false ->
  exists title,
    exec (on_install_clicked env user) w
    = mkWorld (data w) (S (ncmd w)) (nlog w)
        (trace w ++ [Exec wsl_cmd (popen env (ncmd w) wsl_cmd); Dialog title])
        (threads w).
Proof.
  intros Hrun Hd Hc.
  assert (Hdlg : forall title,
            exec (show_error_dialog title) (exec (run_command env wsl_cmd) w)
            = mkWorld (data w) (S (ncmd w)) (nlog w)
                (trace w ++ [Exec wsl_cmd (popen env (ncmd w) wsl_cmd); Dialog title])
                (threads w)).
  { intros title. rewrite exec_run_command.
    unfold exec, show_error_dialog, emit. cbn. rewrite <- app_assoc. reflexivity. }
  unfold on_install_clicked.
  rewrite exec_bind, exec_get_app. change (eval get_app w) with (data w).
  rewrite Hrun, exec_bind, exec_is_wsl_system. cbv zeta. rewrite Hd, Hc. cbn [negb andb].
  destruct (eval (is_wsl_system env) w); [eexists; apply Hdlg |].
  destruct (negb (gpu_detected (system_info (data w)))); eexists; apply Hdlg.
Qed.

(** C8, as the code has it.  With neither option ticked the install
    request is turned down inside the handler: no thread is created, the
    run flag and the rest of [AppData] stay as they were, and the only
    process started is the read-only kernel-version probe of the WSL
    check, which precedes the selection check (and not even that one when
    a run is active). *)
Theorem empty_selection_rejected_in_handler (env : Env) (user : UserInput) (w : World) :
  install_driver_check (data w) = false ->
  install_cuda_check (data w) = false ->
  let h := exec (on_install_clicked env user) w in
  threads h = threads w /\
  spawned (trace h) = spawned (trace w) /\
  data h = data w /\
  commands_of (trace h)
  = (commands_of (trace w) ++ if installation_running (data w) then [] else [wsl_cmd])%list /\
  (forall codename, ~ In wsl_cmd (mutating_commands codename)).
Proof.
  intros Hd Hc h. subst h.
  destruct (installation_running (data w)) eqn:Hrun.
  - destruct (handlers_reject_while_installing env user w Hrun) as [_ ->].
    rewrite app_nil_r. repeat split. apply wsl_not_mutating.
  - destruct (on_install_clicked_empty_selection env user w Hrun Hd Hc) as [title ->].
    cbn [trace threads data]. unfold spawned.
    rewrite commands_of_app, flat_map_app, app_nil_r.
    repeat split. apply wsl_not_mutating.
Qed.

(** C8, as stated, fails: on a native host with neither option ticked
    the handler starts one process before it turns the request down. *)
Lemma empty_selection_runs_wsl_probe :
  let w := with_options false false (probed_world env_ok) in
  let h := exec (on_install_clicked env_ok user_yes) w in
  install_driver_check (data w) = false /\
  install_cuda_check (data w) = false /\
  installation_running (data w) = false /\
  threads h = threads w /\
  commands_of (trace h) = (commands_of (trace w) ++ [wsl_cmd])%list /\
  commands_of (trace h) <> commands_of (trace w).
Proof.
  vm_compute. repeat split. discriminate.
Qed.

Lemma empty_selection_rejected_witness :
  let w := with_options false false (probed_world env_ok) in
  let h := exec (on_install_clicked env_ok user_yes) w in
  threads h = threads w /\
  spawned (trace h) = spawned (trace w) /\
  data h = data w /\
  commands_of (trace h)
  = (commands_of (trace w) ++ if installation_running (data w) then [] else [wsl_cmd])%list /\
  (forall codename, ~ In wsl_cmd (mutating_commands codename)).
Proof.
  apply (empty_selection_rejected_in_handler env_ok user_yes
           (with_options false false (probed_world env_ok))); reflexivity.
Defined.

(** ** The probe *)

Lemma system_info_log env message type (w : World) :
  system_info (data (exec (log_message env message type) w)) = system_info (data w).
Proof.
  destruct (probes_log env message type w) as (t & (_ & _ & _ & Hcore) & _).
  apply same_core_fields in Hcore. tauto.
Qed.

Lemma app_run_command env (c : string) (w : World) :
  data (exec (run_command env c) w) = data w.
Proof. rewrite exec_run_command. reflexivity. Qed.

Lemma nonempty_append (a b : string) : nonempty a = true -> nonempty (a ++ b) = true.
Proof. destruct a; [discriminate | reflexivity]. Qed.

Lemma detect_nvidia_gpu_info env (w : World) :
  exists b s, nonempty s = true /\
    system_info (data (exec (detect_nvidia_gpu env) w)) = set_gpu b s (system_info (data w)).
Proof.
  unfold detect_nvidia_gpu. rewrite exec_bind.
  pose proof (app_run_command env lspci_cmd w) as Happ.
  destruct (eval (run_command env lspci_cmd) w) as [[|p|p] [[|c t]|]];
    rewrite exec_bind, exec_ret; unfold exec, modify_app; cbn [snd data];
    fold (exec (run_command env lspci_cmd) w); rewrite Happ;
    eexists _, _; (split; [| reflexivity]); reflexivity.
Qed.

Lemma detect_nvidia_driver_info env (w : World) :
  exists b s, nonempty s = true /\
    system_info (data (exec (detect_nvidia_driver env) w))
    = set_driver b s (system_info (data w)).
Proof.
  unfold detect_nvidia_driver. rewrite exec_bind.
  pose proof (app_run_command env nvidia_smi_cmd w) as Happ.
  destruct (eval (run_command env nvidia_smi_cmd) w) as [[|p|p] [[|c t]|]];
    rewrite exec_bind, exec_ret; unfold exec, modify_app; cbn [snd data];
    fold (exec (run_command env nvidia_smi_cmd) w); rewrite Happ;
    eexists _, _; (split; [| reflexivity]); reflexivity.
Qed.

Lemma detect_cuda_info env (w : World) :
  exists b s, nonempty s = true /\
    system_info (data (exec (detect_cuda env) w)) = set_cuda b s (system_info (data w)).
Proof.
  unfold detect_cuda. rewrite exec_bind.
  pose proof (app_run_command env nvcc_cmd w) as Happ.
  destruct (eval (run_command env nvcc_cmd) w) as [[|p|p] [[|c t]|]];
    rewrite exec_bind, exec_ret; unfold exec, modify_app; cbn [snd data];
    fold (exec (run_command env nvcc_cmd) w); rewrite Happ;
    eexists _, _; (split; [| reflexivity]); reflexivity.
Qed.

Lemma app_g_idle_add (cb : IdleCallback) (w : World) :
  data (exec (g_idle_add cb) w) = data w.
Proof. reflexivity. Qed.

Lemma system_info_modify (f : SystemInfo -> SystemInfo) (w : World) :
  system_info (data (exec (modify_app (set_system_info f)) w)) = f (system_info (data w)).
Proof. reflexivity. Qed.

(** Whatever the system answers, a probe leaves the three descriptions
    set to non-empty texts and the codename set to some text, which may
    be empty. *)
Lemma detection_thread_fields env (w : World) :
  let si := system_info (data (exec (detection_thread env) w)) in
  (exists s, gpu_info si = Some s /\ nonempty s = true) /\
  (exists s, driver_info si = Some s /\ nonempty s = true) /\
  (exists s, cuda_info si = Some s /\ nonempty s = true) /\
  (exists s, distro_codename si = Some s).
Proof.
  unfold detection_thread. repeat rewrite exec_bind.
  rewrite !app_g_idle_add.
  match goal with
  | |- context [exec (detect_cuda env) ?x] =>
      destruct (detect_cuda_info env x) as (b3 & s3 & H3 & ->)
  end.
  rewrite system_info_log.
  match goal with
  | |- context [exec (detect_nvidia_driver env) ?x] =>
      destruct (detect_nvidia_driver_info env x) as (b2 & s2 & H2 & ->)
  end.
  rewrite system_info_log.
  match goal with
  | |- context [exec (detect_nvidia_gpu env) ?x] =>
      destruct (detect_nvidia_gpu_info env x) as (b1 & s1 & H1 & ->)
  end.
  rewrite system_info_log. cbv zeta.
  cbn [set_cuda set_driver set_gpu gpu_info driver_info cuda_info distro_codename].
  split; [eauto |]. split; [eauto |]. split; [eauto |].
  match goal with
  | |- context [exec (match ?x with _ => _ end) ?y] => destruct x as [codename|]
  end; rewrite exec_bind, system_info_log, system_info_modify; eexists; reflexivity.
Qed.

Lemma ncmd_log env message type (w : World) :
  ncmd (exec (log_message env message type) w) = ncmd w.
Proof.
  destruct (probes_log env message type w) as (t & (_ & Hn & _) & _ & Hc).
  rewrite Hn, Hc. simpl. lia.
Qed.

Lemma snd_eval_run_command env (c : string) (w : World) :
  snd (eval (run_command env c) w) = option_map snd (popen env (ncmd w) c).
Proof.
  unfold eval, run_command.
  destruct (popen env (ncmd w) c) as [[status out]|]; reflexivity.
Qed.

(** The codename a probe ends with when [popen] succeeds for
    [lsb_release]: the output without its trailing white space, be it
    empty or not. *)
Lemma detection_thread_codename env (w : World) (status : Z) (out : string) :
  popen env (ncmd w) lsb_release_cmd = Some (status, out) ->
  distro_codename (system_info (data (exec (detection_thread env) w)))
  = Some (g_strchomp out).
Proof.
  intros Hlsb. unfold detection_thread. repeat rewrite exec_bind.
  rewrite !app_g_idle_add.
  match goal with
  | |- context [exec (detect_cuda env) ?x] =>
      destruct (detect_cuda_info env x) as (b3 & s3 & _ & ->)
  end.
  rewrite system_info_log.
  match goal with
  | |- context [exec (detect_nvidia_driver env) ?x] =>
      destruct (detect_nvidia_driver_info env x) as (b2 & s2 & _ & ->)
  end.
  rewrite system_info_log.
  match goal with
  | |- context [exec (detect_nvidia_gpu env) ?x] =>
      destruct (detect_nvidia_gpu_info env x) as (b1 & s1 & _ & ->)
  end.
  rewrite system_info_log.
  cbn [set_cuda set_driver set_gpu distro_codename].
  rewrite exec_get_app. change (eval get_app ?x) with (data x).
  rewrite snd_eval_run_command, !ncmd_log, Hlsb. cbn [option_map snd].
  rewrite system_info_modify. cbn [set_distro_codename distro_codename].
  rewrite exec_bind, system_info_log, system_info_modify. reflexivity.
Qed.

(** C6 at the failing input.  On a host where [lsb_release] writes
    nothing, the probe ends with the codename field set to the empty
    string, while the three descriptions hold their texts. *)
Theorem probe_leaves_codename_empty :
  let si := system_info (data (probed_world env_no_lsb)) in
  popen env_no_lsb 0 lsb_release_cmd = Some (32512%Z, "") /\
  distro_codename si = Some "" /\
  gpu_info si = Some "Detected: 01:00.0 VGA compatible controller: NVIDIA Corporation GA104" /\
  driver_info si = Some "Not installed" /\
  cuda_info si = Some "Not installed".
Proof. vm_compute. repeat split. Qed.

(** C7 at the failing input.  When [lsb_release] produces empty output
    the probe goes on through all four sub-checks, but the codename is
    not replaced by [unknown] and no warning is written: the console gets
    an [INFO] line with an empty codename. *)
Theorem empty_codename_output_gets_no_fallback :
  let w := probed_world env_no_lsb in
  popen env_no_lsb 0 lsb_release_cmd = Some (32512%Z, "") /\
  distro_codename (system_info (data w)) <> Some "unknown" /\
  In (STATUS_INFO, "Distribution codename: ") (logged (trace w)) /\
  filter (fun e => match fst e with STATUS_WARNING => true | _ => false end)
    (logged (trace w)) = [] /\
  commands_of (trace w) = [lsb_release_cmd; lspci_cmd; nvidia_smi_cmd; nvcc_cmd].
Proof.
  vm_compute. repeat split; [discriminate | tauto].
Qed.

(** The fallback of [detection_thread] is taken only when [popen] itself
    fails and no codename is known yet. *)
Example codename_fallback_on_popen_failure :
  let env := mkEnv (fun _ cmd => if String.eqb cmd lsb_release_cmd then None
                                 else host_ok cmd) (fun _ => noon) 1000%Z in
  let w := probed_world env in
  distro_codename (system_info (data w)) = Some "unknown" /\
  In (STATUS_WARNING, "Unable to detect distribution codename") (logged (trace w)).
Proof. vm_compute. split; [reflexivity | tauto]. Qed.

(** C4 at the failing input.  While the probe started by [main] is in
    flight the detect button is sensitive and the run flag is clear, so a
    click on it starts a second probe; and while a probe started from the
    button is in flight the install button is sensitive, so an install
    request is accepted and its worker runs next to the probe. *)
Theorem second_worker_started_during_probe :
  let w := exec main_start initial_world in
  let p := exec (on_detect_clicked env_ok) (probed_world env_ok) in
  threads w = [detection_worker] /\
  installation_running (data w) = false /\
  detect_button_sensitive (data w) = true /\
  threads (exec (on_detect_clicked env_ok) w) = [detection_worker; detection_worker] /\
  threads p = [detection_worker] /\
  install_button_sensitive (data p) = true /\
  threads (exec (on_install_clicked env_ok user_yes) p)
  = [detection_worker; installation_worker].
Proof. vm_compute. repeat split. Qed.

(** C1 at the failing input.  [total_steps] counts one base step, not
    two: with only the driver selected it is 5 and the increment is 20,
    although six commands run (two base steps, four for the driver,
    three for CUDA); on the host where all of them succeed the bar is set
    to 20, 40, 60, 80, 100 and again 100, and the increments reported
    with the six commands add up to 120. *)
Theorem total_steps_counts_one_base_step :
  let w := installing_world env_ok in
  let w' := exec (installation_thread env_ok) w in
  (forall d c, total_steps d c = (1 + 4 * Z.b2z d + 4 * Z.b2z c)%Z) /\
  (forall d c codename,
     List.length (plan d c codename) = 2 + (if d then 4 else 0) + (if c then 3 else 0)) /\
  install_driver_check (data w) = true /\
  install_cuda_check (data w) = false /\
  total_steps true false = 5%Z /\
  progress_increment_of (total_steps true false) = (20 # 1)%Q /\
  steps_succeed env_ok w = true /\
  progress_shown (posted (trace w'))
  = [(20 # 1); (40 # 1); (60 # 1); (80 # 1); (100 # 1); (100 # 1)]%Q /\
  increments_posted (posted (trace w')) = (120 # 1)%Q.
Proof.
  split; [intros [] []; reflexivity |].
  split; [intros [] [] codename; reflexivity |].
  vm_compute. repeat split.
Qed.

(** ** Concrete runs *)

(** A thousand and five insertions leave a thousand lines in the
    console, the oldest retained one being the seventh inserted. *)
Example console_at_cap_after_1005_insertions :
  let entries := map (fun n => (fmt_d (Z.of_nat n), STATUS_INFO)) (seq 1 1005) in
  let w' := exec (log_all env_ok entries) initial_world in
  option_map gtk_text_buffer_get_line_count (console_buffer (data w')) = Some MAX_LOG_LINES /\
  option_map (fun t => hd "" (retained_lines t)) (console_buffer (data w'))
  = Some "[12:00:00] [INFO] 7".
Proof. vm_compute. split; reflexivity. Qed.

Lemma wsl_marker_aborts_install_witness :
  let w := installing_world env_ok in
  let w' := exec (installation_thread env_wsl) w in
  let h := exec (on_install_clicked env_wsl user_yes) w in
  eval (is_wsl_system env_wsl) w = true /\
  (exists work,
     trace w' = (trace w ++ work ++ terminal_effects [])%list /\
     Forall (fun e => probe_effect e = true) work /\
     commands_of work = [wsl_cmd]) /\
  installation_running (data w') = false /\
  threads w' = threads w /\
  (forall codename, ~ In wsl_cmd (mutating_commands codename)) /\
  commands_of (trace h)
  = (commands_of (trace w) ++ if installation_running (data w) then [] else [wsl_cmd])%list /\
  spawned (trace h) = spawned (trace w) /\
  threads h = threads w /\
  data h = data w.
Proof.
  split; [vm_compute; reflexivity |].
  apply (wsl_marker_aborts_install env_wsl user_yes (installing_world env_ok)).
  vm_compute. reflexivity.
Defined.

(** A failed run that executes neither cleanup command: without a
    route to the internet the run ends with the failure dialog, and the
    only processes started are the four probes of the gates. *)
Lemma failed_run_without_autoremove :
  let w := installing_world env_ok in
  let w' := exec (installation_thread env_offline) w in
  let tr := skipn (List.length (trace w)) (trace w') in
  trace w' = (trace w ++ tr)%list /\
  last (posted tr) update_status_display_wrapper = show_error_dialog_wrapper /\
  commands_of tr = gate_commands /\
  count_occ string_dec (commands_of tr) autoremove_cmd = 0 /\
  count_occ string_dec (commands_of tr) rm_keyring_cmd = 0.
Proof. vm_compute. repeat split. Qed.

Lemma every_exit_resets_running_flag_witness :
  let env := env_driver_fails in
  let user := user_yes in
  let w := installing_world env_driver_fails in
  let w' := exec (installation_thread env) w in
  double_free env w = false /\
  installation_running (data w') = false /\
  (exists work dialog,
     trace w' = (trace w ++ work ++ terminal_effects dialog)%list /\
     Forall (fun e => working_effect e = true) work /\
     (dialog = [] \/ dialog = [show_error_dialog_wrapper] \/
      dialog = [show_completion_dialog_wrapper]) /\
     let ui := exec (dispatch_all env (restore_callbacks ++ dialog)) w' in
     detect_button_sensitive (data ui) = true /\
     install_button_sensitive (data ui) = true /\
     installation_running (data ui) = false) /\
  threads (exec (on_detect_clicked env) w') = (threads w' ++ [detection_worker])%list /\
  (exists rest,
     trace (exec (on_install_clicked env user) w')
     = (trace w' ++ Exec wsl_cmd (popen env (ncmd w') wsl_cmd) :: rest)%list).
Proof.
  split; [vm_compute; reflexivity |].
  apply (every_exit_resets_running_flag env_driver_fails user_yes
           (installing_world env_driver_fails)).
  vm_compute. reflexivity.
Defined.

Lemma first_failing_step_reports_wait_status_witness :
  let env := env_dpkg_fails in
  let w := installing_world env in
  let steps := plan (install_driver_check (data w)) (install_cuda_check (data w))
                 (distro_codename (system_info (data w))) in
  let base := ncmd w + List.length gate_commands in
  let w' := exec (installation_thread env) w in
  (gates_pass env w = true /\
   first_failure env base steps = Some 3 /\
   command (nth 3 steps default_step) = dpkg_cmd /\
   popen env (base + 3) dpkg_cmd = Some ((256 * 1)%Z, "") /\
   step_description steps 3 = step_description steps 2) /\
  exists work front description,
    trace w'
    = (trace w ++ work
         ++ Exec autoremove_cmd (popen env (base + 4) autoremove_cmd)
         :: terminal_effects [show_error_dialog_wrapper])%list /\
    commands_of work = (gate_commands ++ map command (firstn 4 steps))%list /\
    posted work
    = (front ++
       [update_progress_ui
          (mkProgressUpdate 0%Q None
             (Some ("Running: " ++ command (nth 3 steps default_step))%string) STATUS_INFO);
        update_progress_ui
          (mkProgressUpdate 0%Q None
             (Some ("Command failed with exit code " ++ fmt_d (256 * 1))%string)
             STATUS_ERROR)])%list /\
    WEXITSTATUS (256 * 1) = 1%Z /\
    fmt_d (256 * 1) <> fmt_d 1 /\
    step_description steps 3 = Some description /\
    current_message None (posted work) = Some description /\
    progress_label
      (data (exec (dispatch_all env
                     (posted work ++ restore_callbacks ++ [show_error_dialog_wrapper]))
               w'))
    = description /\
    installation_running (data w') = false.
Proof.
  split; [vm_compute; repeat split |].
  apply (first_failing_step_reports_wait_status env_dpkg_fails
           (installing_world env_dpkg_fails) 3 1 "").
  - vm_compute. reflexivity.
  - vm_compute. reflexivity.
  - vm_compute. reflexivity.
  - lia.
Defined.

(** The failing driver installation of the sample host, spelled out. *)
Example driver_install_failure_run :
  let env := env_driver_fails in
  let w := installing_world env in
  let w' := exec (installation_thread env) w in
  let steps := plan true false (Some "jammy") in
  map command steps
  = [update_cmd; prereq_cmd; repo_cmd (Some "jammy"); dpkg_cmd; update_cmd; driver_cmd] /\
  step_description steps 5 = Some "Installing NVIDIA driver..." /\
  skipn (List.length (commands_of (trace w))) (commands_of (trace w'))
  = (gate_commands ++ map command steps ++ [autoremove_cmd])%list /\
  In (failure_report 25600) (posted (trace w')) /\
  last (posted (trace w')) update_status_display_wrapper = show_error_dialog_wrapper.
Proof. vm_compute. repeat split. tauto. Qed.

(* ================================================================= *)
(** * Further properties *)

(** ** The console, whatever it holds *)

Lemma line_count_app (a b : string) :
  gtk_text_buffer_get_line_count (a ++ b) + 1
  = gtk_text_buffer_get_line_count a + gtk_text_buffer_get_line_count b.
Proof.
  induction a as [|c a IH]; cbn [append gtk_text_buffer_get_line_count]; [lia |].
  destruct (Ascii.eqb c newline); lia.
Qed.

Lemma line_count_single (s : string) :
  no_newline s = true -> gtk_text_buffer_get_line_count s = 1.
Proof.
  induction s as [|c s IH]; cbn [no_newline gtk_text_buffer_get_line_count];
    [reflexivity |].
  intros H. apply andb_prop in H as [Hc Hs]. apply negb_true_iff in Hc.
  rewrite Hc. auto.
Qed.

Lemma delete_from_start (text : string) (e : nat) :
  gtk_text_buffer_delete text 0 e = substring e (String.length text - e) text.
Proof. unfold gtk_text_buffer_delete. rewrite substring_0_0. reflexivity. Qed.

Lemma delete_from_start_cons (c : ascii) (t : string) (e : nat) :
  gtk_text_buffer_delete (String c t) 0 (S e) = gtk_text_buffer_delete t 0 e.
Proof. rewrite !delete_from_start. reflexivity. Qed.

Lemma delete_nothing (text : string) : gtk_text_buffer_delete text 0 0 = text.
Proof.
  rewrite delete_from_start, Nat.sub_0_r. apply substring_all.
Qed.

(** Deleting from the start of the buffer to the start of line [n]
    removes exactly [n] lines. *)
Lemma line_count_delete_lines (text : string) :
  forall n, n < gtk_text_buffer_get_line_count text ->
  gtk_text_buffer_get_line_count
    (gtk_text_buffer_delete text 0 (gtk_text_buffer_get_iter_at_line text n))
  = gtk_text_buffer_get_line_count text - n.
Proof.
  induction text as [|c t IH]; intros n Hn.
  - cbn in Hn. assert (n = 0) by lia. subst n. reflexivity.
  - destruct n as [|n].
    + rewrite iter_at_line_0, delete_nothing. lia.
    + cbn [gtk_text_buffer_get_iter_at_line].
      rewrite delete_from_start_cons.
      cbn [gtk_text_buffer_get_line_count] in *.
      destruct (Ascii.eqb c newline).
      * rewrite IH by lia. lia.
      * rewrite IH by lia. lia.
Qed.

Lemma formatted_message_line_count now type message :
  gtk_text_buffer_get_line_count (formatted_message now type message)
  = gtk_text_buffer_get_line_count message + 1.
Proof.
  rewrite formatted_message_line.
  assert (Hsplit : log_line now type message = log_line now type "" ++ message).
  { unfold log_line. rewrite !append_assoc. reflexivity. }
  rewrite Hsplit.
  pose proof (line_count_app (log_line now type "" ++ message) (String newline "")) as H1.
  pose proof (line_count_app (log_line now type "") message) as H2.
  rewrite (line_count_single (log_line now type "")) in H2
    by (apply log_line_single; reflexivity).
  cbn [gtk_text_buffer_get_line_count] in H1. rewrite Ascii.eqb_refl in H1. lia.
Qed.

(** X1. Whatever the console holds and whatever the message, after
    [log_message] has inserted it the console has the lines it had,
    cut down to one less than [MAX_LOG_LINES], plus the lines of the
    message: a single-line message never leaves more than
    [MAX_LOG_LINES] lines, even in a console that was over the cap. *)
Theorem console_insert_line_count (text : string) now type (message : string) :
  gtk_text_buffer_get_line_count (console_insert text now type message)
  = Nat.min (gtk_text_buffer_get_line_count text) (MAX_LOG_LINES - 1)
    + gtk_text_buffer_get_line_count message.
Proof.
  unfold console_insert.
  set (lc := gtk_text_buffer_get_line_count text).
  assert (Hins : forall t,
            gtk_text_buffer_get_line_count
              (gtk_text_buffer_insert t (gtk_text_buffer_get_end_iter t)
                 (formatted_message now type message))
            = gtk_text_buffer_get_line_count t
              + gtk_text_buffer_get_line_count message).
  { intros t. rewrite insert_at_end.
    pose proof (line_count_app t (formatted_message now type message)) as H.
    rewrite formatted_message_line_count in H. lia. }
  destruct (MAX_LOG_LINES <=? lc)%nat eqn:Hcap.
  - apply Nat.leb_le in Hcap. rewrite Hins, iter_at_line_0.
    rewrite line_count_delete_lines by (fold lc; unfold MAX_LOG_LINES in *; lia).
    fold lc. unfold MAX_LOG_LINES in *. lia.
  - apply Nat.leb_gt in Hcap. rewrite Hins. fold lc. unfold MAX_LOG_LINES in *. lia.
Qed.

Lemma trim_lines_lastn (all : list string) (x : string) :
  (trim_lines (lastn (MAX_LOG_LINES - 1) all) ++ [x])%list
  = lastn (MAX_LOG_LINES - 1) (all ++ [x]).
Proof.
  unfold trim_lines, lastn, MAX_LOG_LINES.
  rewrite length_skipn, length_app. cbn [List.length].
  destruct (Nat.le_gt_cases (1000 - 1) (List.length all)) as [Hlong | Hshort].
  - replace (1000 <=? S (List.length all - (List.length all - (1000 - 1))))%nat
      with true by (symmetry; apply Nat.leb_le; lia).
    rewrite skipn_skipn, skipn_app.
    replace (List.length all + 1 - (1000 - 1) - List.length all) with 0 by lia.
    cbn [skipn]. f_equal. f_equal. lia.
  - replace (1000 <=? S (List.length all - (List.length all - (1000 - 1))))%nat
      with false by (symmetry; apply Nat.leb_gt; lia).
    replace (List.length all - (1000 - 1)) with 0 by lia.
    replace (List.length all + 1 - (1000 - 1)) with 0 by lia.
    reflexivity.
Qed.

Lemma nlog_log_message env message type (w : World) (text : string) :
  console_buffer (data w) = Some text ->
  nlog (exec (log_message env message type) w) = S (nlog w).
Proof. intros H. unfold exec, log_message. rewrite H. reflexivity. Qed.

Lemma lastn_single_lines (k : nat) (ls : list string) :
  single_lines ls -> single_lines (lastn k ls).
Proof.
  intros H. unfold lastn, single_lines in *.
  rewrite <- (firstn_skipn (List.length ls - k) ls) in H.
  apply Forall_app in H. tauto.
Qed.

Lemma log_lines_single env (entries : list (string * StatusType)) :
  Forall (fun e => no_newline (fst e) = true) entries ->
  forall n, single_lines (log_lines env n entries).
Proof.
  induction 1 as [|[message type] entries Hm _ IH]; intros n; cbn [log_lines];
    constructor; [apply log_line_single; exact Hm | apply IH].
Qed.

Lemma log_all_keeps_newest env (entries : list (string * StatusType)) :
  Forall (fun e => no_newline (fst e) = true) entries ->
  forall (w : World) (all : list string),
  single_lines all ->
  console_buffer (data w) = Some (unlines (lastn (MAX_LOG_LINES - 1) all)) ->
  console_buffer (data (exec (log_all env entries) w))
  = Some (unlines (lastn (MAX_LOG_LINES - 1) (all ++ log_lines env (nlog w) entries))).
Proof.
  induction 1 as [|[message type] entries Hm Hrest IH]; intros w all Hall Hbuf.
  - cbn [log_lines]. rewrite app_nil_r. exact Hbuf.
  - cbn [log_all log_lines]. rewrite exec_bind.
    pose proof (log_message_console env w _ message type Hbuf
                  (lastn_single_lines _ _ Hall)) as Hstep.
    rewrite trim_lines_lastn in Hstep.
    rewrite (IH _ (all ++ [log_line (clock env (nlog w)) type message])%list).
    + rewrite (nlog_log_message env message type w _ Hbuf), <- app_assoc. reflexivity.
    + apply Forall_app. split; [exact Hall |].
      constructor; [apply log_line_single; exact Hm | constructor].
    + exact Hstep.
Qed.

Lemma lastn_Forall {A} (P : A -> Prop) (k : nat) (l : list A) :
  Forall P l -> Forall P (lastn k l).
Proof.
  intros H. unfold lastn.
  rewrite <- (firstn_skipn (List.length l - k) l) in H.
  apply Forall_app in H. tauto.
Qed.

Lemma lastn_length {A} (k : nat) (l : list A) :
  List.length (lastn k l) = Nat.min (List.length l) k.
Proof. unfold lastn. rewrite length_skipn. lia. Qed.

Lemma log_lines_length env (entries : list (string * StatusType)) :
  forall n, List.length (log_lines env n entries) = List.length entries.
Proof.
  induction entries as [|[message type] entries IH]; intros n; cbn [log_lines List.length];
    [reflexivity | now rewrite IH].
Qed.

Lemma log_lines_well_formed env (entries : list (string * StatusType)) :
  forall n, Forall (fun l => well_formed_line l = true) (log_lines env n entries).
Proof.
  induction entries as [|[message type] entries IH]; intros n; cbn [log_lines];
    constructor; [apply log_line_well_formed | apply IH].
Qed.

(** C5. For every sequence of single-line log insertions into the empty
    console: the console holds one line per insertion until it has
    [MAX_LOG_LINES] lines and never more; what it holds are the newest
    formatted lines, in the order of their insertion; every retained line
    has the format [[HH:MM:SS] [SEVERITY] message]; and inserting one
    more line into a console that is at the cap evicts exactly the oldest
    line, so that the count is again the cap. *)
Theorem log_message_caps_console (env : Env) (w : World)
    (entries : list (string * StatusType)) :
  console_buffer (data w) = Some EmptyString ->
  Forall (fun e => no_newline (fst e) = true) entries ->
  let w' := exec (log_all env entries) w in
  exists text,
    console_buffer (data w') = Some text /\
    gtk_text_buffer_get_line_count text
    = Nat.min (S (List.length entries)) MAX_LOG_LINES /\
    gtk_text_buffer_get_line_count text <= MAX_LOG_LINES /\
    retained_lines text = lastn (MAX_LOG_LINES - 1) (log_lines env (nlog w) entries) /\
    Forall (fun l => well_formed_line l = true) (retained_lines text) /\
    (gtk_text_buffer_get_line_count text = MAX_LOG_LINES ->
     forall message type, no_newline message = true ->
     exists oldest kept text',
       retained_lines text = oldest :: kept /\
       console_buffer (data (exec (log_message env message type) w')) = Some text' /\
       retained_lines text' = (kept ++ [log_line (clock env (nlog w')) type message])%list /\
       gtk_text_buffer_get_line_count text' = MAX_LOG_LINES).
Proof.
  intros Hempty Hentries w'.
  pose proof (log_all_keeps_newest env entries Hentries w [] (Forall_nil _) Hempty) as Hbuf.
  cbn [List.app] in Hbuf. fold w' in Hbuf.
  set (ls := lastn (MAX_LOG_LINES - 1) (log_lines env (nlog w) entries)) in *.
  assert (Hls : single_lines ls)
    by (apply lastn_single_lines, log_lines_single; exact Hentries).
  assert (Hwf : Forall (fun l => well_formed_line l = true) ls)
    by (apply lastn_Forall, log_lines_well_formed).
  assert (Hlen : List.length ls = Nat.min (List.length entries) (MAX_LOG_LINES - 1))
    by (unfold ls; rewrite lastn_length, log_lines_length; reflexivity).
  assert (Hcount : S (List.length ls) = Nat.min (S (List.length entries)) MAX_LOG_LINES)
    by (rewrite Hlen; unfold MAX_LOG_LINES; lia).
  assert (Hle : S (List.length ls) <= MAX_LOG_LINES)
    by (rewrite Hcount; unfold MAX_LOG_LINES; lia).
  exists (unlines ls).
  rewrite retained_lines_unlines, line_count_unlines by exact Hls.
  split; [exact Hbuf |]. split; [exact Hcount |]. split; [exact Hle |].
  split; [reflexivity |]. split; [exact Hwf |].
  intros Hcap message type Hm.
  destruct (trim_lines_at_cap ls Hcap) as (oldest & kept & Hls_eq & Htrim).
  pose proof (log_message_console_lines env w' ls message type
                (conj Hbuf (conj Hls (conj Hwf Hle))) Hm) as (Hbuf' & Hls' & _ & _).
  rewrite Htrim in Hbuf', Hls'.
  exists oldest, kept, (unlines (kept ++ [log_line (clock env (nlog w')) type message])).
  rewrite retained_lines_unlines, line_count_unlines by exact Hls'.
  repeat split; try assumption.
  rewrite length_app. simpl. rewrite <- Hcap, Hls_eq. simpl. lia.
Qed.

Lemma log_message_caps_console_witness :
  let entries := map (fun n => (fmt_d (Z.of_nat n), STATUS_INFO)) (seq 1 1005) in
  let w' := exec (log_all env_ok entries) initial_world in
  exists text,
    console_buffer (data w') = Some text /\
    gtk_text_buffer_get_line_count text
    = Nat.min (S (List.length entries)) MAX_LOG_LINES /\
    gtk_text_buffer_get_line_count text <= MAX_LOG_LINES /\
    retained_lines text
    = lastn (MAX_LOG_LINES - 1) (log_lines env_ok (nlog initial_world) entries) /\
    Forall (fun l => well_formed_line l = true) (retained_lines text) /\
    (gtk_text_buffer_get_line_count text = MAX_LOG_LINES ->
     forall message type, no_newline message = true ->
     exists oldest kept text',
       retained_lines text = oldest :: kept /\
       console_buffer (data (exec (log_message env_ok message type) w')) = Some text' /\
       retained_lines text' = (kept ++ [log_line (clock env_ok (nlog w')) type message])%list /\
       gtk_text_buffer_get_line_count text' = MAX_LOG_LINES).
Proof.
  apply (log_message_caps_console env_ok initial_world
           (map (fun n => (fmt_d (Z.of_nat n), STATUS_INFO)) (seq 1 1005))).
  - reflexivity.
  - apply Forall_forall.
    apply (proj1 (forallb_forall (fun e : string * StatusType => no_newline (fst e))
                    (map (fun n => (fmt_d (Z.of_nat n), STATUS_INFO)) (seq 1 1005)))).
    vm_compute. reflexivity.
Defined.

(** A message with line feeds in it is inserted as it is: after 999
    single-line insertions one message of three lines leaves 1002 lines
    in the console, two of them without time stamp and severity. *)
Lemma multi_line_message_exceeds_cap :
  let entries :=
    (map (fun n => (fmt_d (Z.of_nat n), STATUS_INFO)) (seq 1 999)
     ++ [(("first" ++ String newline ("second" ++ String newline "third"))%string,
          STATUS_ERROR)])%list in
  let w' := exec (log_all env_ok entries) initial_world in
  option_map gtk_text_buffer_get_line_count (console_buffer (data w')) = Some 1002 /\
  Nat.ltb MAX_LOG_LINES 1002 = true /\
  option_map (fun t => map well_formed_line (lastn 3 (retained_lines t)))
    (console_buffer (data w'))
  = Some [true; false; false].
Proof. vm_compute. repeat split. Qed.

(** X2. After any sequence of single-line insertions into the empty
    console, the console holds the newest [MAX_LOG_LINES - 1] formatted
    lines, in the order in which they were logged: lines are evicted
    oldest first and never reordered or merged. *)
Theorem console_keeps_newest_lines (env : Env) (w : World)
    (entries : list (string * StatusType)) :
  console_buffer (data w) = Some EmptyString ->
  Forall (fun e => no_newline (fst e) = true) entries ->
  exists text,
    console_buffer (data (exec (log_all env entries) w)) = Some text /\
    retained_lines text = lastn (MAX_LOG_LINES - 1) (log_lines env (nlog w) entries).
Proof.
  intros Hempty Hentries.
  pose proof (log_all_keeps_newest env entries Hentries w [] (Forall_nil _) Hempty) as H.
  cbn [List.app] in H. eexists. split; [exact H |].
  apply retained_lines_unlines, lastn_single_lines, log_lines_single. exact Hentries.
Qed.

Lemma console_keeps_newest_lines_witness :
  let entries := [("Checking for NVIDIA GPU...", STATUS_INFO); ("Disk full", STATUS_ERROR)] in
  exists text,
    console_buffer (data (exec (log_all env_ok entries) initial_world)) = Some text /\
    retained_lines text
    = lastn (MAX_LOG_LINES - 1) (log_lines env_ok (nlog initial_world) entries).
Proof.
  apply (console_keeps_newest_lines env_ok initial_world
           [("Checking for NVIDIA GPU...", STATUS_INFO); ("Disk full", STATUS_ERROR)]).
  - reflexivity.
  - repeat constructor.
Defined.

(** ** The log relay *)

Lemma split_at_bar_app (severity message : string) :
  split_at_bar severity = None ->
  split_at_bar (severity ++ String bar message) = Some (severity, message).
Proof.
  induction severity as [|c t IH]; cbn [append split_at_bar]; intros H.
  - reflexivity.
  - destruct (Ascii.eqb c bar); [discriminate H |].
    destruct (split_at_bar t) as [[a b]|]; [discriminate H |].
    rewrite IH by reflexivity. reflexivity.
Qed.

Lemma g_strsplit_bar_2_app (severity message : string) :
  split_at_bar severity = None ->
  g_strsplit_bar_2 (severity ++ String bar message) = [severity; message].
Proof.
  intros H. unfold g_strsplit_bar_2.
  rewrite (split_at_bar_app severity message H).
  destruct severity; reflexivity.
Qed.

(** X3. [update_log_ui] undoes the encoding [SEVERITY|message].  For
    every text in front of the first bar, empty or not, the message
    behind it is logged, bars inside the message included: with the
    severity named when the text is one of [SUCCESS], [WARNING],
    [ERROR] and [INFO], and as [INFO] for every other text.  A text
    without a bar, the empty text and the NULL pointer are dropped
    without a trace. *)
Theorem update_log_ui_round_trip (env : Env) (w : World) :
  (forall type message,
     update_log_ui env (Some (severity_name type ++ String bar message)) w
     = log_message env message
         (match type with STATUS_UNKNOWN => STATUS_INFO | t => t end) w) /\
  (forall severity message,
     split_at_bar severity = None ->
     severity <> "SUCCESS" -> severity <> "WARNING" -> severity <> "ERROR" ->
     update_log_ui env (Some (severity ++ String bar message)) w
     = log_message env message STATUS_INFO w) /\
  (forall text, split_at_bar text = None -> update_log_ui env (Some text) w = (tt, w)) /\
  update_log_ui env (Some EmptyString) w = (tt, w) /\
  update_log_ui env None w = (tt, w).
Proof.
  split; [| split; [| split; [| split; reflexivity]]].
  - intros type message. destruct type; reflexivity.
  - intros severity message Hbar Hs Hw He.
    unfold update_log_ui.
    rewrite (g_strsplit_bar_2_app severity message Hbar).
    apply String.eqb_neq in Hs, Hw, He. rewrite Hs, Hw, He.
    destruct (String.eqb severity "INFO"); reflexivity.
  - intros text Hnone. unfold update_log_ui, g_strsplit_bar_2.
    destruct text; [reflexivity |]. rewrite Hnone. reflexivity.
Qed.

Lemma update_log_ui_round_trip_witness :
  (forall type message,
     update_log_ui env_ok (Some (severity_name type ++ String bar message)) initial_world
     = log_message env_ok message
         (match type with STATUS_UNKNOWN => STATUS_INFO | t => t end) initial_world) /\
  (forall message,
     update_log_ui env_ok (Some ("DEBUG" ++ String bar message)) initial_world
     = log_message env_ok message STATUS_INFO initial_world) /\
  (forall message,
     update_log_ui env_ok (Some (String bar message)) initial_world
     = log_message env_ok message STATUS_INFO initial_world) /\
  split_at_bar "no severity here" = None /\
  update_log_ui env_ok (Some "no severity here") initial_world = (tt, initial_world).
Proof.
  pose proof (update_log_ui_round_trip env_ok initial_world) as (Hrt & Hother & Hdrop & _).
  split; [exact Hrt |].
  split; [intros message; apply (Hother "DEBUG" message);
          [reflexivity | discriminate | discriminate | discriminate] |].
  split; [intros message; apply (Hother "" message);
          [reflexivity | discriminate | discriminate | discriminate] |].
  split; [reflexivity |].
  apply Hdrop. reflexivity.
Defined.

(** ** The status cards *)

Lemma remove_status_classes (classes : list string) :
  gtk_style_context_remove_class "status-info"
    (gtk_style_context_remove_class "status-error"
       (gtk_style_context_remove_class "status-warning"
          (gtk_style_context_remove_class "status-success" classes)))
  = filter (fun c => negb (existsb (String.eqb c) status_classes)) classes.
Proof.
  unfold gtk_style_context_remove_class, status_classes.
  induction classes as [|c classes IH]; [reflexivity |].
  cbn [filter existsb].
  destruct (String.eqb c "status-success"); cbn [negb orb]; [exact IH |].
  cbn [filter].
  destruct (String.eqb c "status-warning"); cbn [negb orb]; [exact IH |].
  cbn [filter].
  destruct (String.eqb c "status-error"); cbn [negb orb]; [exact IH |].
  cbn [filter].
  destruct (String.eqb c "status-info"); cbn [negb orb]; [exact IH |].
  rewrite IH. reflexivity.
Qed.

Lemma filter_twice {A} (p : A -> bool) (l : list A) :
  filter p (filter p l) = filter p l.
Proof.
  induction l as [|a l IH]; [reflexivity |].
  cbn [filter]. destruct (p a) eqn:Hp; [| exact IH].
  cbn [filter]. rewrite Hp, IH. reflexivity.
Qed.

Lemma filter_complement {A} (p : A -> bool) (l : list A) :
  filter p (filter (fun a => negb (p a)) l) = [].
Proof.
  induction l as [|a l IH]; [reflexivity |].
  cbn [filter]. destruct (p a) eqn:Hp; cbn [negb]; [exact IH |].
  cbn [filter]. rewrite Hp. exact IH.
Qed.

Lemma status_class_absent (class : string) (classes : list string) :
  existsb (String.eqb class) status_classes = true ->
  existsb (String.eqb class)
    (filter (fun c => negb (existsb (String.eqb c) status_classes)) classes) = false.
Proof.
  intros Hclass. induction classes as [|c classes IH]; [reflexivity |].
  cbn [filter]. destruct (existsb (String.eqb c) status_classes) eqn:Hc; cbn [negb];
    [exact IH |].
  cbn [existsb]. rewrite IH, orb_false_r.
  destruct (String.eqb_spec class c) as [-> |]; [congruence | reflexivity].
Qed.

Lemma update_status_card_classes (card : StatusCard) (icon : string)
    (text : option string) (type : StatusType) :
  status_classes_of (update_status_card card icon text type)
  = match type with
    | STATUS_SUCCESS => ["status-success"]
    | STATUS_WARNING => ["status-warning"]
    | STATUS_ERROR => ["status-error"]
    | STATUS_INFO => ["status-info"]
    | STATUS_UNKNOWN => []
    end /\
  other_classes_of (update_status_card card icon text type) = other_classes_of card.
Proof.
  unfold update_status_card, status_classes_of, other_classes_of.
  cbn [style_classes]. rewrite remove_status_classes.
  set (others := filter (fun c => negb (existsb (String.eqb c) status_classes))
                   (style_classes card)).
  assert (Hnone : filter (fun c => existsb (String.eqb c) status_classes) others = [])
    by apply filter_complement.
  assert (Hsame : filter (fun c => negb (existsb (String.eqb c) status_classes)) others
                  = others) by apply filter_twice.
  assert (Hadd : forall class,
            existsb (String.eqb class) status_classes = true ->
            filter (fun c => existsb (String.eqb c) status_classes)
              (gtk_style_context_add_class class others) = [class] /\
            filter (fun c => negb (existsb (String.eqb c) status_classes))
              (gtk_style_context_add_class class others) = others).
  { intros class Hclass. unfold gtk_style_context_add_class.
    subst others. rewrite status_class_absent by exact Hclass.
    cbn [filter]. rewrite Hclass, Hnone, Hsame. cbn [negb]. split; reflexivity. }
  destruct type; try (apply Hadd; reflexivity).
  split; assumption.
Qed.

(** X4. Whatever classes a status label carries, [update_status_card]
    leaves it with exactly one status class, the one of the new type
    (none for [STATUS_UNKNOWN]), and with all its other classes.  Hence
    after any probe [update_status_display] shows three cards with a
    non-empty text each and the one class that goes with the flag. *)
Theorem status_cards_after_probe (env : Env) (w : World) (cards : StatusCards)
    (card : StatusCard) (icon : string) (text : option string) (type : StatusType) :
  status_classes_of (update_status_card card icon text type)
  = match type with
    | STATUS_SUCCESS => ["status-success"]
    | STATUS_WARNING => ["status-warning"]
    | STATUS_ERROR => ["status-error"]
    | STATUS_INFO => ["status-info"]
    | STATUS_UNKNOWN => []
    end /\
  other_classes_of (update_status_card card icon text type) = other_classes_of card /\
  let info := system_info (data (exec (detection_thread env) w)) in
  let shown := update_status_display info cards in
  nonempty (status_text (gpu_card shown)) = true /\
  nonempty (status_text (driver_card shown)) = true /\
  nonempty (status_text (cuda_card shown)) = true /\
  status_classes_of (gpu_card shown)
  = [if gpu_detected info then "status-success" else "status-error"] /\
  status_classes_of (driver_card shown)
  = [if driver_installed info then "status-success" else "status-warning"] /\
  status_classes_of (cuda_card shown)
  = [if cuda_installed info then "status-success" else "status-info"] /\
  other_classes_of (gpu_card shown) = other_classes_of (gpu_card cards) /\
  other_classes_of (driver_card shown) = other_classes_of (driver_card cards) /\
  other_classes_of (cuda_card shown) = other_classes_of (cuda_card cards).
Proof.
  split; [apply update_status_card_classes |].
  split; [apply update_status_card_classes |].
  intros info shown.
  destruct (detection_thread_fields env w) as ((g & Hg & Hgn) & (d & Hd & Hdn) &
                                               (c & Hc & Hcn) & _).
  fold info in Hg, Hd, Hc.
  subst shown. unfold update_status_display. cbn [gpu_card driver_card cuda_card].
  repeat match goal with
  | |- _ /\ _ => split
  end;
    try (unfold update_status_card; cbn [status_text]; rewrite ?Hg, ?Hd, ?Hc; assumption);
    try apply update_status_card_classes;
    match goal with
    | |- status_classes_of (update_status_card ?k ?i ?t ?ty) = _ =>
        rewrite (proj1 (update_status_card_classes k i t ty))
    end;
    match goal with |- context [if ?b then _ else _] => destruct b end; reflexivity.
Qed.

(** ** The probe, in full *)

Lemma probe_frame_trans (a b c : AppData) :
  probe_frame a b -> probe_frame b c -> probe_frame a c.
Proof.
  unfold probe_frame. intros H1 H2.
  repeat match goal with H : _ /\ _ |- _ => destruct H end.
  repeat split; try congruence; tauto.
Qed.

Lemma probe_run_refl (w : World) : probe_run [] [] w w.
Proof.
  exists []. rewrite app_nil_r. repeat split; auto.
Qed.

Lemma probe_run_trans (c1 c2 : list string) (p1 p2 : list IdleCallback)
    (w w1 w2 : World) :
  probe_run c1 p1 w w1 -> probe_run c2 p2 w1 w2 ->
  probe_run (c1 ++ c2) (p1 ++ p2) w w2.
Proof.
  intros (t1 & Ht1 & Hq1 & Hc1 & Hp1 & Hn1 & Hth1 & Hf1)
         (t2 & Ht2 & Hq2 & Hc2 & Hp2 & Hn2 & Hth2 & Hf2).
  exists (t1 ++ t2)%list.
  split; [rewrite Ht2, Ht1, app_assoc; reflexivity |].
  split; [apply Forall_app; split; assumption |].
  split; [rewrite commands_of_app; congruence |].
  split; [rewrite posted_app; congruence |].
  split; [rewrite length_app; lia |].
  split; [congruence |].
  eapply probe_frame_trans; eassumption.
Qed.

Lemma probe_run_log env message type (w : World) :
  probe_run [] [] w (exec (log_message env message type) w).
Proof.
  unfold exec, log_message.
  destruct (console_buffer (data w)) as [text|] eqn:Hbuf; [| apply probe_run_refl].
  exists [Log type message]. cbn.
  repeat split; auto; try lia; try (repeat constructor);
    try (rewrite Hbuf; discriminate); try discriminate.
Qed.

Lemma probe_run_command env (c : string) (w : World) :
  probe_run [c] [] w (exec (run_command env c) w).
Proof.
  rewrite exec_run_command. exists [Exec c (popen env (ncmd w) c)]. cbn.
  repeat split; auto; try lia; repeat constructor.
Qed.

Lemma probe_run_set_system_info (f : SystemInfo -> SystemInfo) (w : World) :
  probe_run [] [] w (exec (modify_app (set_system_info f)) w).
Proof.
  exists []. cbn. rewrite app_nil_r. repeat split; auto.
Qed.

Lemma probe_run_idle_add (cb : IdleCallback) (w : World) :
  probe_run [] [cb] w (exec (g_idle_add cb) w).
Proof.
  exists [IdleAdd cb]. cbn. repeat split; auto; repeat constructor.
Qed.

Lemma detect_nvidia_gpu_exact env (w : World) :
  let g := detected_text (popen env (ncmd w) lspci_cmd) in
  exec (detect_nvidia_gpu env) w
  = exec (modify_app (set_system_info
            (set_gpu (found g) (describe "Detected: " "No NVIDIA GPU detected" g))))
      (exec (run_command env lspci_cmd) w) /\
  eval (detect_nvidia_gpu env) w = found g.
Proof.
  unfold detect_nvidia_gpu. rewrite exec_bind, eval_bind, eval_run_command_full.
  destruct (popen env (ncmd w) lspci_cmd) as [[[|p|p] [|c t]]|];
    cbn [wait_status option_map snd detected_text found describe];
    rewrite exec_bind, eval_bind, exec_ret; split; reflexivity.
Qed.

Lemma detect_nvidia_driver_exact env (w : World) :
  let g := detected_text (popen env (ncmd w) nvidia_smi_cmd) in
  exec (detect_nvidia_driver env) w
  = exec (modify_app (set_system_info
            (set_driver (found g) (describe "Installed: Version " "Not installed" g))))
      (exec (run_command env nvidia_smi_cmd) w) /\
  eval (detect_nvidia_driver env) w = found g.
Proof.
  unfold detect_nvidia_driver. rewrite exec_bind, eval_bind, eval_run_command_full.
  destruct (popen env (ncmd w) nvidia_smi_cmd) as [[[|p|p] [|c t]]|];
    cbn [wait_status option_map snd detected_text found describe];
    rewrite exec_bind, eval_bind, exec_ret; split; reflexivity.
Qed.

Lemma detect_cuda_exact env (w : World) :
  let g := detected_text (popen env (ncmd w) nvcc_cmd) in
  exec (detect_cuda env) w
  = exec (modify_app (set_system_info
            (set_cuda (found g) (describe "Installed: CUDA " "Not installed" g))))
      (exec (run_command env nvcc_cmd) w) /\
  eval (detect_cuda env) w = found g.
Proof.
  unfold detect_cuda. rewrite exec_bind, eval_bind, eval_run_command_full.
  destruct (popen env (ncmd w) nvcc_cmd) as [[[|p|p] [|c t]]|];
    cbn [wait_status option_map snd detected_text found describe];
    rewrite exec_bind, eval_bind, exec_ret; split; reflexivity.
Qed.

Lemma probe_run_detector (c : string) (f : SystemInfo -> SystemInfo) env
    (w w' : World) :
  w' = exec (modify_app (set_system_info f)) (exec (run_command env c) w) ->
  probe_run [c] [] w w'.
Proof.
  intros ->.
  change [c] with ([c] ++ [])%list. change (@nil IdleCallback) with (@nil IdleCallback ++ [])%list.
  eapply probe_run_trans; [apply probe_run_command | apply probe_run_set_system_info].
Qed.

Lemma system_info_run_command env (c : string) (w : World) :
  system_info (data (exec (run_command env c) w)) = system_info (data w).
Proof. rewrite app_run_command. reflexivity. Qed.

(** [detection_thread] in two parts: the codename, then the three
    detectors and the closing callbacks. *)
Lemma detection_thread_stages env (w : World) :
  exists w0,
    probe_run [lsb_release_cmd] [] w w0 /\
    system_info (data w0)
    = set_distro_codename
        (probed_codename (popen env (ncmd w) lsb_release_cmd)
           (distro_codename (system_info (data w))))
        (system_info (data w)) /\
    exec (detection_thread env) w
    = exec (g_idle_add (set_widget_sensitive_wrapper detect_button))
        (exec (g_idle_add update_status_display_wrapper)
           (exec (g_idle_add (update_progress_ui
                    (mkProgressUpdate 0%Q None (Some "System detection completed.")
                       STATUS_INFO)))
              (exec (detect_cuda env)
                 (exec (log_message env "Checking CUDA status..." STATUS_INFO)
                    (exec (detect_nvidia_driver env)
                       (exec (log_message env "Checking driver status..." STATUS_INFO)
                          (exec (detect_nvidia_gpu env)
                             (exec (log_message env "Checking for NVIDIA GPU..."
                                      STATUS_INFO) w0)))))))).
Proof.
  unfold detection_thread. repeat rewrite exec_bind.
  match goal with
  | |- context [exec (log_message env "Checking for NVIDIA GPU..." STATUS_INFO) ?x] =>
      set (w0 := x)
  end.
  exists w0. split; [| split; [| reflexivity]].
  - subst w0. rewrite exec_get_app.
    change [lsb_release_cmd] with (((([] ++ []) ++ [lsb_release_cmd]) ++ []) ++ [])%list.
    change (@nil IdleCallback) with ((((@nil IdleCallback ++ []) ++ []) ++ []) ++ [])%list.
    eapply probe_run_trans.
    2:{ match goal with
        | |- probe_run _ _ _ (exec (match ?x with _ => _ end) _) => destruct x
        end; rewrite exec_bind;
        (eapply (probe_run_trans [] [] [] []);
         [apply probe_run_set_system_info | apply probe_run_log]). }
    eapply probe_run_trans.
    2:{ match goal with
        | |- probe_run _ _ _ (exec (match ?x with _ => _ end) _) => destruct x
        end; [apply probe_run_set_system_info | apply probe_run_refl]. }
    eapply probe_run_trans; [| apply probe_run_command].
    eapply probe_run_trans; apply probe_run_log.
  - subst w0. rewrite exec_get_app. change (eval get_app ?x) with (data x).
    rewrite snd_eval_run_command, !ncmd_log.
    destruct (popen env (ncmd w) lsb_release_cmd) as [[status out]|];
      cbn [option_map snd probed_codename].
    + rewrite system_info_modify. cbn [set_distro_codename distro_codename].
      rewrite exec_bind, system_info_log, !system_info_modify.
      rewrite system_info_run_command, !system_info_log. reflexivity.
    + rewrite exec_ret, system_info_run_command, !system_info_log.
      destruct (distro_codename (system_info (data w)));
        rewrite exec_bind, system_info_log, system_info_modify,
          system_info_run_command, !system_info_log; reflexivity.
Qed.

Lemma ncmd_modify_app (f : AppData -> AppData) (w : World) :
  ncmd (exec (modify_app f) w) = ncmd w.
Proof. reflexivity. Qed.

Lemma ncmd_run_command env (c : string) (w : World) :
  ncmd (exec (run_command env c) w) = S (ncmd w).
Proof. rewrite exec_run_command. reflexivity. Qed.

Lemma probe_run_ncmd (cmds : list string) (cbs : list IdleCallback) (w w' : World) :
  probe_run cmds cbs w w' -> ncmd w' = ncmd w + List.length cmds.
Proof. intros (t & _ & _ & _ & _ & Hn & _). exact Hn. Qed.

Lemma ends_with_space_cons (c c' : ascii) (t : string) :
  ends_with_space (String c (String c' t)) = ends_with_space (String c' t).
Proof.
  unfold ends_with_space. cbn [String.length]. rewrite !Nat.sub_succ, !Nat.sub_0_r.
  reflexivity.
Qed.

Lemma g_strchomp_no_trailing_space (s : string) :
  ends_with_space (g_strchomp s) = false.
Proof.
  induction s as [|c t IH]; [reflexivity |].
  cbn [g_strchomp]. destruct (g_strchomp t) as [|c' t'] eqn:Ht.
  - destruct (g_ascii_isspace c) eqn:Hc; [reflexivity |].
    unfold ends_with_space. cbn. exact Hc.
  - rewrite ends_with_space_cons. exact IH.
Qed.

(** X5. The [SystemInfo] a probe ends with is a function of the four
    answers of the system and of nothing else but the codename known
    before: each flag says whether its command ended with status 0 and
    non-empty output, each description is the prefix with the trimmed
    output or else the sentinel, and the codename is the output of
    [lsb_release] without trailing white space, or, when [popen] fails,
    the codename known before, or [unknown] when there was none.  In
    every case the codename does not end in white space: the line feed
    that ends the output of [lsb_release] never reaches the commands
    built from the codename. *)
Theorem probe_result_determined_by_answers (env : Env) (w : World) :
  let n := ncmd w in
  let g := detected_text (popen env (n + 1) lspci_cmd) in
  let d := detected_text (popen env (n + 2) nvidia_smi_cmd) in
  let c := detected_text (popen env (n + 3) nvcc_cmd) in
  let codename := probed_codename (popen env n lsb_release_cmd)
                    (distro_codename (system_info (data w))) in
  system_info (data (exec (detection_thread env) w))
  = mkSystemInfo
      (found g) (Some (describe "Detected: " "No NVIDIA GPU detected" g))
      (found d) (Some (describe "Installed: Version " "Not installed" d))
      (found c) (Some (describe "Installed: CUDA " "Not installed" c))
      (Some codename) /\
  ends_with_space codename = false.
Proof.
  intros n g d c codename. split.
  2:{ subst codename. unfold probed_codename.
      destruct (popen env n lsb_release_cmd) as [[status out]|];
        [apply g_strchomp_no_trailing_space |].
      destruct (distro_codename (system_info (data w)));
        [apply g_strchomp_no_trailing_space | reflexivity]. }
  destruct (detection_thread_stages env w) as (w0 & Hrun & Hinfo & ->).
  apply probe_run_ncmd in Hrun. cbn [List.length] in Hrun.
  rewrite !app_g_idle_add.
  rewrite (proj1 (detect_cuda_exact env _)), system_info_modify, system_info_run_command.
  rewrite system_info_log.
  rewrite (proj1 (detect_nvidia_driver_exact env _)), system_info_modify,
    system_info_run_command.
  rewrite system_info_log.
  rewrite (proj1 (detect_nvidia_gpu_exact env _)), system_info_modify,
    system_info_run_command.
  rewrite system_info_log, Hinfo.
  repeat rewrite ?ncmd_log, ?ncmd_modify_app, ?ncmd_run_command.
  rewrite Hrun. fold n.
  replace (S (S (n + 1))) with (n + 3) by lia.
  replace (S (n + 1)) with (n + 2) by lia.
  reflexivity.
Qed.

Lemma detection_thread_probe_run (env : Env) (w : World) :
  probe_run probe_commands probe_callbacks w (exec (detection_thread env) w).
Proof.
  destruct (detection_thread_stages env w) as (w0 & Hrun & _ & ->).
  unfold probe_commands, probe_callbacks.
  change [lsb_release_cmd; lspci_cmd; nvidia_smi_cmd; nvcc_cmd]
    with ((((((((([lsb_release_cmd] ++ []) ++ [lspci_cmd]) ++ []) ++ [nvidia_smi_cmd])
               ++ []) ++ [nvcc_cmd]) ++ []) ++ []) ++ [])%list.
  match goal with
  | |- probe_run _ [?a; ?b; ?c] _ _ =>
      change [a; b; c]
        with (((((((((@nil IdleCallback ++ []) ++ []) ++ []) ++ []) ++ []) ++ [])
                 ++ [a]) ++ [b]) ++ [c])%list
  end.
  eapply probe_run_trans; [| apply probe_run_idle_add].
  eapply probe_run_trans; [| apply probe_run_idle_add].
  eapply probe_run_trans; [| apply probe_run_idle_add].
  eapply probe_run_trans;
    [| eapply probe_run_detector; apply (proj1 (detect_cuda_exact env _))].
  eapply probe_run_trans; [| apply probe_run_log].
  eapply probe_run_trans;
    [| eapply probe_run_detector; apply (proj1 (detect_nvidia_driver_exact env _))].
  eapply probe_run_trans; [| apply probe_run_log].
  eapply probe_run_trans;
    [| eapply probe_run_detector; apply (proj1 (detect_nvidia_gpu_exact env _))].
  eapply probe_run_trans; [| apply probe_run_log].
  exact Hrun.
Qed.

Lemma probe_commands_not_mutating (codename : option string) (c : string) :
  In c probe_commands -> ~ In c (mutating_commands codename).
Proof.
  unfold probe_commands, mutating_commands. cbn [In].
  intros [<- | [<- | [<- | [<- | []]]]];
    intros [H|[H|[H|[H|[H|[H|[H|[H|[H|[]]]]]]]]]]; discriminate H.
Qed.

(** X6. A probe is read-only.  Whatever the system answers it starts
    exactly the four detection commands, in their order and none of them
    a command that changes the system; it queues exactly the closing
    progress update, the status refresh and the re-enabling of the detect
    button; it writes neither the run flag nor any widget state, opens no
    dialog and creates no thread: of [AppData] only [system_info] and the
    console change. *)
Theorem probe_is_read_only (env : Env) (w : World) :
  let w' := exec (detection_thread env) w in
  (exists tr,
     trace w' = (trace w ++ tr)%list /\
     Forall (fun e => quiet_effect e = true) tr /\
     commands_of tr = probe_commands /\
     posted tr = probe_callbacks) /\
  (forall codename c, In c probe_commands -> ~ In c (mutating_commands codename)) /\
  threads w' = threads w /\
  probe_frame (data w) (data w').
Proof.
  destruct (detection_thread_probe_run env w)
    as (tr & Htr & Hq & Hc & Hp & _ & Hth & Hf).
  split; [exists tr; auto |].
  split; [intros codename c; apply probe_commands_not_mutating |].
  split; assumption.
Qed.

Lemma exec_on_detect_clicked env (w : World) :
  installation_running (data w) = false ->
  exec (on_detect_clicked env) w
  = exec (pthread_create detection_worker)
      (exec (log_message env "Running system detection..." STATUS_INFO)
         (exec (modify_app (gtk_widget_set_sensitive detect_button false)) w)).
Proof.
  intros Hrun. unfold on_detect_clicked.
  rewrite exec_bind, exec_get_app. change (eval get_app w) with (data w).
  rewrite Hrun, !exec_bind. reflexivity.
Qed.

Lemma exec_dispatch_probe_callbacks env (w : World) :
  exec (dispatch_all env probe_callbacks) w
  = exec (modify_app (gtk_widget_set_sensitive detect_button true))
      (exec (log_message env "System detection completed." STATUS_INFO) w).
Proof.
  unfold probe_callbacks. cbn [dispatch_all dispatch message log_text log_type].
  repeat rewrite exec_bind. rewrite !exec_ret. reflexivity.
Qed.

Lemma exec_run_worker_detection env (w : World) :
  exec (run_worker env detection_worker) w
  = mkWorld (data (exec (detection_thread env) w)) (ncmd (exec (detection_thread env) w))
      (nlog (exec (detection_thread env) w)) (trace (exec (detection_thread env) w))
      (remove_first detection_worker (threads (exec (detection_thread env) w))).
Proof. unfold run_worker. rewrite exec_bind. reflexivity. Qed.

(** X7. A click on the detect button while no install run is active
    and no worker is in flight disables the button and starts one probe;
    when that worker has ended and the main loop has run the callbacks
    it queued, no worker is left, the detect button is sensitive again,
    and the run flag, the install button and the option boxes are as
    they were before the click. *)
Theorem detect_click_round_trip (env : Env) (w : World) :
  installation_running (data w) = false ->
  threads w = [] ->
  let w1 := exec (on_detect_clicked env) w in
  let w2 := exec (run_worker env detection_worker) w1 in
  let w3 := exec (dispatch_all env probe_callbacks) w2 in
  detect_button_sensitive (data w1) = false /\
  threads w1 = [detection_worker] /\
  (exists tr, trace w2 = (trace w1 ++ tr)%list /\ posted tr = probe_callbacks) /\
  threads w2 = [] /\
  threads w3 = [] /\
  detect_button_sensitive (data w3) = true /\
  installation_running (data w3) = false /\
  install_button_sensitive (data w3) = install_button_sensitive (data w) /\
  install_driver_check (data w3) = install_driver_check (data w) /\
  install_cuda_check (data w3) = install_cuda_check (data w) /\
  system_info (data w3) = system_info (data w2).
Proof.
  intros Hrun Hth w1 w2 w3.
  assert (H1 : probe_frame
                 (gtk_widget_set_sensitive detect_button false (data w))
                 (data (exec (log_message env "Running system detection..." STATUS_INFO)
                          (exec (modify_app (gtk_widget_set_sensitive detect_button false))
                             w))) /\
               threads (exec (log_message env "Running system detection..." STATUS_INFO)
                          (exec (modify_app (gtk_widget_set_sensitive detect_button false))
                             w)) = threads w).
  { destruct (probe_run_log env "Running system detection..." STATUS_INFO
                (exec (modify_app (gtk_widget_set_sensitive detect_button false)) w))
      as (t & _ & _ & _ & _ & _ & Ht & Hf).
    split; [exact Hf | exact Ht]. }
  destruct H1 as [Hf1 Ht1].
  assert (Hw1 : w1 = exec (pthread_create detection_worker)
                       (exec (log_message env "Running system detection..." STATUS_INFO)
                          (exec (modify_app (gtk_widget_set_sensitive detect_button false))
                             w)))
    by (apply exec_on_detect_clicked; exact Hrun).
  assert (Hth1 : threads w1 = [detection_worker]).
  { rewrite Hw1. unfold exec at 1, pthread_create. cbn [snd threads].
    rewrite Ht1, Hth. reflexivity. }
  assert (Hdw1 : data w1
                 = set_worker_thread detection_worker
                     (data (exec (log_message env "Running system detection..."
                                    STATUS_INFO)
                              (exec (modify_app
                                       (gtk_widget_set_sensitive detect_button false))
                                 w))))
    by (rewrite Hw1; reflexivity).
  assert (Hdata1 : detect_button_sensitive (data w1) = false /\
                   installation_running (data w1) = false /\
                   install_button_sensitive (data w1) = install_button_sensitive (data w) /\
                   install_driver_check (data w1) = install_driver_check (data w) /\
                   install_cuda_check (data w1) = install_cuda_check (data w)).
  { rewrite Hdw1.
    destruct Hf1 as (F1 & _ & F3 & F4 & _ & F6 & F7 & _).
    cbn [set_worker_thread detect_button_sensitive installation_running
           install_button_sensitive install_driver_check install_cuda_check].
    rewrite F1, F3, F4, F6, F7. cbn. rewrite Hrun. repeat split. }
  destruct (detection_thread_probe_run env w1)
    as (tr & Htr & _ & _ & Hp & _ & Hth2 & Hf2).
  assert (Hw2 : w2 = mkWorld (data (exec (detection_thread env) w1))
                       (ncmd (exec (detection_thread env) w1))
                       (nlog (exec (detection_thread env) w1))
                       (trace (exec (detection_thread env) w1))
                       (remove_first detection_worker
                          (threads (exec (detection_thread env) w1))))
    by apply exec_run_worker_detection.
  assert (Hthreads2 : threads w2 = []).
  { rewrite Hw2. cbn [threads]. rewrite Hth2, Hth1. reflexivity. }
  assert (Hw3 : w3 = exec (modify_app (gtk_widget_set_sensitive detect_button true))
                       (exec (log_message env "System detection completed." STATUS_INFO)
                          w2))
    by apply exec_dispatch_probe_callbacks.
  destruct (probe_run_log env "System detection completed." STATUS_INFO w2)
    as (t3 & _ & _ & _ & _ & _ & Hth3 & Hf3).
  destruct Hdata1 as (Ha & Hb & Hc & Hd & He).
  assert (Hdata2 : data w2 = data (exec (detection_thread env) w1))
    by (rewrite Hw2; reflexivity).
  unfold probe_frame in Hf2, Hf3. rewrite <- Hdata2 in Hf2.
  repeat match goal with H : _ /\ _ |- _ => destruct H end.
  split; [exact Ha |]. split; [exact Hth1 |].
  split; [exists tr; split; [rewrite Hw2; exact Htr | exact Hp] |].
  split; [exact Hthreads2 |].
  rewrite Hw3. unfold exec at 1 3 5 7 9 11 13, modify_app. cbn [snd threads data].
  cbn [gtk_widget_set_sensitive detect_button_sensitive installation_running
         install_button_sensitive install_driver_check install_cuda_check system_info].
  split; [congruence |]. split; [reflexivity |].
  split; [congruence |]. split; [congruence |]. split; [congruence |].
  split; [congruence |].
  apply system_info_log.
Qed.

Lemma detect_click_round_trip_witness :
  let w := probed_world env_ok in
  let w1 := exec (on_detect_clicked env_ok) w in
  let w2 := exec (run_worker env_ok detection_worker) w1 in
  let w3 := exec (dispatch_all env_ok probe_callbacks) w2 in
  detect_button_sensitive (data w1) = false /\
  threads w1 = [detection_worker] /\
  (exists tr, trace w2 = (trace w1 ++ tr)%list /\ posted tr = probe_callbacks) /\
  threads w2 = [] /\
  threads w3 = [] /\
  detect_button_sensitive (data w3) = true /\
  installation_running (data w3) = false /\
  install_button_sensitive (data w3) = install_button_sensitive (data w) /\
  install_driver_check (data w3) = install_driver_check (data w) /\
  install_cuda_check (data w3) = install_cuda_check (data w) /\
  system_info (data w3) = system_info (data w2).
Proof.
  apply (detect_click_round_trip env_ok (probed_world env_ok)); reflexivity.
Defined.

(** ** The install request *)

Lemma eval_verify_sudo_access env (password : string) (w : World) :
  eval (verify_sudo_access env password) w
  = (wait_status (popen env (ncmd w) sudo_test_cmd) =? 0)%Z.
Proof.
  unfold verify_sudo_access. rewrite eval_bind, eval_run_command_full.
  destruct (popen env (ncmd w) sudo_test_cmd) as [[status out]|]; reflexivity.
Qed.

Lemma exec_verify_sudo_access env (password : string) (w : World) :
  exec (verify_sudo_access env password) w = exec (run_command env sudo_test_cmd) w.
Proof. unfold verify_sudo_access. rewrite exec_bind, exec_ret. reflexivity. Qed.

Lemma exec_emit (e : Effect) (w : World) :
  exec (emit e) w = mkWorld (data w) (ncmd w) (nlog w) (trace w ++ [e]) (threads w).
Proof. reflexivity. Qed.

Lemma spawned_app (a b : list Effect) :
  spawned (a ++ b) = (spawned a ++ spawned b)%list.
Proof. apply flat_map_app. Qed.

Lemma probes_without_commands (tr : list Effect) :
  Forall (fun e => probe_effect e = true) tr ->
  commands_of tr = [] ->
  Forall (fun e => log_effect e = true) tr.
Proof.
  induction 1 as [|e tr He _ IH]; intros Hc; constructor.
  - destruct e; try discriminate He; [discriminate Hc | reflexivity].
  - apply IH. destruct e; try discriminate He; [discriminate Hc | exact Hc].
Qed.

(** What holds of a handler that only ran processes and showed dialogs. *)
Lemma rejected_world (w : World) (tr : list Effect) (cmds : list string) :
  commands_of tr = cmds ->
  spawned tr = [] ->
  incl cmds [wsl_cmd; sudo_test_cmd] ->
  data w = data w /\
  threads w = threads w /\
  spawned (trace w ++ tr) = spawned (trace w) /\
  exists cmds, commands_of (trace w ++ tr) = (commands_of (trace w) ++ cmds)%list /\
               incl cmds [wsl_cmd; sudo_test_cmd].
Proof.
  intros Hc Hs Hi.
  rewrite spawned_app, Hs, app_nil_r, commands_of_app, Hc.
  repeat split. exists cmds. split; [reflexivity | exact Hi].
Qed.

Ltac reject_with cmds :=
  cbn [data ncmd nlog trace threads]; repeat rewrite <- app_assoc;
  match goal with
  | |- context [spawned (trace ?w ++ ?tr)] => apply (rejected_world w tr cmds)
  end.

(** X8. An install request starts a worker exactly when no run is
    active, the host is not WSL, the last probe found a GPU, an option is
    ticked, the user confirms, a password is entered and [sudo] accepts
    it.  Then the run flag is set before the thread is created, both
    buttons are disabled, the label reads [Installing...], the progress
    frame is shown, and until the flag is reset both handlers do nothing.
    Otherwise [AppData] and the threads are untouched, and the only
    processes the handler may have started are the WSL probe and the
    [sudo] test. *)
Theorem install_request_decision (env : Env) (user : UserInput) (w : World) :
  let h := exec (on_install_clicked env user) w in
  if install_request_ok env user w
  then
    threads h = (threads w ++ [installation_worker])%list /\
    installation_running (data h) = true /\
    detect_button_sensitive (data h) = false /\
    install_button_sensitive (data h) = false /\
    install_button_label (data h) = "Installing..." /\
    progress_frame_visible (data h) = true /\
    system_info (data h) = system_info (data w) /\
    (exists pre logs,
       trace h = (trace w ++ pre ++ SetRunning true :: logs
                    ++ [Spawn installation_worker])%list /\
       commands_of pre = [wsl_cmd; sudo_test_cmd] /\
       spawned pre = [] /\
       Forall (fun e => log_effect e = true) logs) /\
    exec (on_detect_clicked env) h = h /\
    exec (on_install_clicked env user) h = h
  else
    data h = data w /\
    threads h = threads w /\
    spawned (trace h) = spawned (trace w) /\
    exists cmds, commands_of (trace h) = (commands_of (trace w) ++ cmds)%list /\
                 incl cmds [wsl_cmd; sudo_test_cmd].
Proof.
  intros h.
  assert (Hh : h = exec (on_install_clicked env user) w) by reflexivity.
  clearbody h. unfold install_request_ok.
  destruct (installation_running (data w)) eqn:Hrun; cbn [negb andb].
  { destruct (handlers_reject_while_installing env user w Hrun) as [_ Hsame].
    rewrite Hsame in Hh. subst h.
    repeat split. exists []. rewrite app_nil_r. split; [reflexivity | intros x []]. }
  unfold on_install_clicked in Hh.
  rewrite exec_bind, exec_get_app in Hh. change (eval get_app w) with (data w) in Hh.
  rewrite Hrun, exec_bind, exec_is_wsl_system, exec_run_command in Hh.
  destruct (eval (is_wsl_system env) w); cbn [negb andb].
  { unfold show_error_dialog in Hh. rewrite exec_emit in Hh. subst h.
    reject_with [wsl_cmd]; [reflexivity | reflexivity |].
    intros x [<- | []]; left; reflexivity. }
  destruct (gpu_detected (system_info (data w))); cbn [negb andb] in *.
  2:{ unfold show_error_dialog in Hh. rewrite exec_emit in Hh. subst h.
      reject_with [wsl_cmd]; [reflexivity | reflexivity |].
      intros x [<- | []]; left; reflexivity. }
  cbv zeta in Hh.
  destruct (install_driver_check (data w) || install_cuda_check (data w)) eqn:Hsel.
  2:{ apply orb_false_elim in Hsel as [Hd Hc]. rewrite Hd, Hc in Hh.
      cbn [negb andb] in *.
      unfold show_error_dialog in Hh. rewrite exec_emit in Hh. subst h.
      reject_with [wsl_cmd]; [reflexivity | reflexivity |].
      intros x [<- | []]; left; reflexivity. }
  replace (negb (install_driver_check (data w)) && negb (install_cuda_check (data w)))
    with false in Hh
    by (destruct (install_driver_check (data w)), (install_cuda_check (data w));
        try reflexivity; discriminate Hsel).
  cbn [andb]. rewrite exec_bind, exec_emit in Hh. cbn [data ncmd nlog trace threads] in Hh.
  destruct (confirm_yes user); cbn [negb andb] in *.
  2:{ rewrite exec_ret in Hh. subst h.
      reject_with [wsl_cmd]; [reflexivity | reflexivity |].
      intros x [<- | []]; left; reflexivity. }
  rewrite exec_bind, exec_emit in Hh. cbn [data ncmd nlog trace threads] in Hh.
  destruct (password_entry user) as [password|].
  2:{ rewrite exec_ret in Hh. subst h.
      reject_with [wsl_cmd]; [reflexivity | reflexivity |].
      intros x [<- | []]; left; reflexivity. }
  rewrite exec_bind, eval_verify_sudo_access, exec_verify_sudo_access, exec_run_command
    in Hh.
  cbn [data ncmd nlog trace threads] in Hh.
  destruct (wait_status (popen env (S (ncmd w)) sudo_test_cmd) =? 0)%Z; cbn [negb] in Hh.
  2:{ unfold show_error_dialog in Hh. rewrite exec_emit in Hh. subst h.
      reject_with [wsl_cmd; sudo_test_cmd];
        [reflexivity | reflexivity | intros x Hx; exact Hx]. }
  repeat rewrite exec_bind in Hh.
  match type of Hh with
  | context [exec (log_message env ?m ?t) ?x] =>
      destruct (probes_log env m t x) as (logs & (Hlt & _ & Hlth & Hcore) & Hlogs & Hnone);
      set (wl := exec (log_message env m t) x) in *
  end.
  assert (Hfields : installation_running (data wl) = true /\
                    detect_button_sensitive (data wl) = false /\
                    install_button_sensitive (data wl) = false /\
                    install_button_label (data wl) = "Installing..." /\
                    progress_frame_visible (data wl) = true /\
                    system_info (data wl) = system_info (data w)).
  { destruct Hcore as [-> | [text ->]]; repeat split. }
  destruct Hfields as (F1 & F2 & F3 & F4 & F5 & F6).
  assert (Hdata : data h = set_worker_thread installation_worker (data wl))
    by (rewrite Hh; reflexivity).
  assert (Hrunning : installation_running (data h) = true)
    by (rewrite Hdata; exact F1).
  split; [rewrite Hh; unfold exec at 1, pthread_create; cbn [snd threads];
          rewrite Hlth; reflexivity |].
  rewrite Hdata.
  cbn [set_worker_thread installation_running detect_button_sensitive
         install_button_sensitive install_button_label progress_frame_visible
         system_info].
  split; [exact F1 |]. split; [exact F2 |]. split; [exact F3 |].
  split; [exact F4 |]. split; [exact F5 |]. split; [exact F6 |].
  split.
  - exists [Exec wsl_cmd (popen env (ncmd w) wsl_cmd);
            Dialog "Confirm Installation"; Dialog "Authentication Required";
            Exec sudo_test_cmd (popen env (S (ncmd w)) sudo_test_cmd)], logs.
    split; [| split; [reflexivity | split; [reflexivity |]]].
    + rewrite Hh. unfold exec at 1, pthread_create. cbn [snd trace]. rewrite Hlt.
      unfold set_running. repeat rewrite exec_bind.
      unfold exec, modify_app, emit. cbn [snd trace].
      repeat rewrite <- app_assoc. reflexivity.
    + apply probes_without_commands; assumption.
  - apply (handlers_reject_while_installing env user h Hrunning).
Qed.

(** ** The gates, once more *)

(** X9. The compatibility gate is decided by the WSL marker alone:
    running as root, low disk space, Secure Boot or an unsupported
    codename never make it refuse, whatever the system answers.  It does
    not return at all under one answer: when [popen] succeeds for the
    disk query and fails for the Secure Boot query, [output] is freed a
    second time and the process is killed after the third probe.  The
    gate starts only its read-only probes (one under WSL, three
    otherwise), queues no callback, and of [AppData] touches only the
    console. *)
Theorem compatibility_gate_decided_by_marker (env : Env) (w : World) :
  let w' := exec (check_system_compatibility env) w in
  eval (check_system_compatibility env) w
  = (if double_free env w then None else Some (negb (eval (is_wsl_system env) w))) /\
  (exists tr,
     trace w' = (trace w ++ tr ++ if double_free env w then [Abort] else [])%list /\
     Forall (fun e => probe_effect e = true) tr /\
     posted tr = [] /\
     commands_of tr = if eval (is_wsl_system env) w then [wsl_cmd]
                      else [wsl_cmd; df_cmd; mokutil_cmd]) /\
  (forall codename c,
     In c [wsl_cmd; df_cmd; mokutil_cmd] -> ~ In c (mutating_commands codename)) /\
  threads w' = threads w /\
  same_core (data w) (data w').
Proof.
  intros w'.
  destruct (check_system_compatibility_outcome env w)
    as (Hres & tr & (Htr & _ & Hth & Hcore) & Hprobe & Hcmds).
  split; [exact Hres |].
  split; [exists tr; repeat split; auto; apply probe_effects_posted; exact Hprobe |].
  split; [| split; assumption].
  intros codename c. unfold mutating_commands. cbn [In].
  intros [<- | [<- | [<- | []]]];
    intros [H|[H|[H|[H|[H|[H|[H|[H|[H|[]]]]]]]]]]; discriminate H.
Qed.

Lemma gates_blocked_offline env (w : World) :
  eval (is_wsl_system env) w = false ->
  double_free env w = false ->
  wait_status (popen env (ncmd w + 3) ping_cmd) <> 0%Z ->
  gates_pass env w = false /\
  probes gate_commands w (after_gates env w).
Proof.
  intros Hwsl Hfree Hping.
  pose proof (check_system_compatibility_probes env w Hfree) as Hc. rewrite Hwsl in Hc.
  pose proof (check_internet_connectivity_probes env
                (exec (check_system_compatibility env) w)) as Hi.
  split.
  - unfold gates_pass.
    rewrite check_system_compatibility_result, Hfree, Hwsl. cbn [negb].
    rewrite check_internet_connectivity_result, (probes_ncmd _ _ _ Hc).
    cbn [List.length]. apply Z.eqb_neq. exact Hping.
  - unfold after_gates, gate_commands.
    change [wsl_cmd; df_cmd; mokutil_cmd; ping_cmd]
      with ([wsl_cmd; df_cmd; mokutil_cmd] ++ [ping_cmd])%list.
    eapply probes_trans; eassumption.
Qed.

(** X10. When the host is not WSL, [check_system_compatibility] returns
    (its buffer is not freed twice) and the reachability probe ends with
    a non-zero status or cannot be started, the run stops at the
    connectivity gate: the only processes started are the four read-only
    gate probes, none of them a command that changes the system; the run
    flag is reset, the buttons are restored and the failure dialog is
    queued. *)
Theorem no_connectivity_aborts_before_mutation (env : Env) (w : World) :
  eval (is_wsl_system env) w = false ->
  double_free env w = false ->
  wait_status (popen env (ncmd w + 3) ping_cmd) <> 0%Z ->
  let w' := exec (installation_thread env) w in
  (exists work,
     trace w' = (trace w ++ work ++ terminal_effects [show_error_dialog_wrapper])%list /\
     Forall (fun e => probe_effect e = true) work /\
     commands_of work = gate_commands) /\
  (forall codename c, In c gate_commands -> ~ In c (mutating_commands codename)) /\
  installation_running (data w') = false /\
  threads w' = threads w.
Proof.
  intros Hwsl Hfree Hping w'. subst w'.
  destruct (gates_blocked_offline env w Hwsl Hfree Hping)
    as (Hgates & work & (Htr & _ & Hth & _) & Hprobe & Hcmds).
  rewrite installation_thread_run, Hwsl, Hfree, Hgates. cbn [negb].
  split; [exists work; cbn [finish_run trace]; rewrite Htr, <- app_assoc; auto |].
  split; [| split; [reflexivity | exact Hth]].
  intros codename c. unfold gate_commands, mutating_commands. cbn [In].
  intros [<- | [<- | [<- | [<- | []]]]];
    intros [H|[H|[H|[H|[H|[H|[H|[H|[H|[]]]]]]]]]]; discriminate H.
Qed.

Lemma no_connectivity_aborts_witness :
  let env := env_offline in
  let w := installing_world env_ok in
  let w' := exec (installation_thread env) w in
  eval (is_wsl_system env) w = false /\
  double_free env w = false /\
  wait_status (popen env (ncmd w + 3) ping_cmd) <> 0%Z /\
  (exists work,
     trace w' = (trace w ++ work ++ terminal_effects [show_error_dialog_wrapper])%list /\
     Forall (fun e => probe_effect e = true) work /\
     commands_of work = gate_commands) /\
  (forall codename c, In c gate_commands -> ~ In c (mutating_commands codename)) /\
  installation_running (data w') = false /\
  threads w' = threads w.
Proof.
  split; [vm_compute; reflexivity |].
  split; [vm_compute; reflexivity |].
  split; [vm_compute; discriminate |].
  apply (no_connectivity_aborts_before_mutation env_offline (installing_world env_ok)).
  - vm_compute. reflexivity.
  - vm_compute. reflexivity.
  - vm_compute. discriminate.
Defined.

(** ** A run in which every step succeeds *)

Lemma eval_exec_plan env (inc : gdouble) (steps : list Step) :
  forall (progress : gdouble) (w : World),
  eval (exec_plan env progress inc steps) w
  = match first_failure env (ncmd w) steps with None => true | Some _ => false end.
Proof.
  induction steps as [|s rest IH]; intros progress w.
  - unfold eval. rewrite exec_plan_nil. reflexivity.
  - unfold eval. rewrite exec_plan_cons. cbv zeta. cbn [first_failure].
    destruct (wait_status (popen env (ncmd w) (command s)) =? 0)%Z; [| reflexivity].
    match goal with
    | |- fst (exec_plan env ?p inc rest ?x) = _ =>
        change (fst (exec_plan env p inc rest x)) with (eval (exec_plan env p inc rest) x)
    end.
    rewrite IH. cbn [ncmd].
    destruct (first_failure env (S (ncmd w)) rest); reflexivity.
Qed.

Lemma progress_shown_app (a b : list IdleCallback) :
  progress_shown (a ++ b) = (progress_shown a ++ progress_shown b)%list.
Proof. apply flat_map_app. Qed.

Lemma progress_shown_step progress inc (s : Step) (r : PopenResult) :
  progress_shown (posted (step_effects progress inc s r))
  = match announce s with Some _ => [advance progress inc] | None => [] end.
Proof.
  unfold step_effects.
  destruct (announce s) as [[m l]|]; destruct (wait_status r =? 0)%Z; reflexivity.
Qed.

(** The progress values a step list puts on display are a prefix of the
    announced ones followed by 100; all of them when every step
    succeeds, and then the last effects are the final report and the
    removal of the keyring file. *)
Lemma exec_plan_progress env (inc : gdouble) (steps : list Step) :
  forall (progress : gdouble) (w : World),
  exists tr n,
    trace (exec (exec_plan env progress inc steps) w) = (trace w ++ tr)%list /\
    progress_shown (posted tr)
    = firstn n (announced_progress progress inc steps ++ [(100 # 1)%Q]) /\
    (eval (exec_plan env progress inc steps) w = true ->
     progress_shown (posted tr)
     = (announced_progress progress inc steps ++ [(100 # 1)%Q])%list /\
     exists front,
       tr = (front ++
             [IdleAdd final_report;
              Exec rm_keyring_cmd
                (popen env (ncmd w + List.length steps) rm_keyring_cmd)])%list).
Proof.
  induction steps as [|s rest IH]; intros progress w.
  - unfold exec, eval. rewrite exec_plan_nil. cbn [fst snd trace].
    eexists. exists 1. split; [reflexivity |]. split; [reflexivity |].
    intros _. split; [reflexivity |].
    exists []. cbn [List.length List.app]. rewrite Nat.add_0_r. reflexivity.
  - unfold exec, eval. rewrite exec_plan_cons. cbv zeta.
    set (r := popen env (ncmd w) (command s)).
    set (w1 := mkWorld _ _ _ _ _).
    destruct (wait_status r =? 0)%Z.
    + destruct (IH (next_progress progress inc s) w1) as (tr & n & Htr & Hshown & Hall).
      unfold exec, eval in Htr, Hall.
      exists (step_effects progress inc s r ++ tr)%list,
             (match announce s with Some _ => S n | None => n end).
      split; [rewrite Htr; subst w1; cbn [trace]; rewrite app_assoc; reflexivity |].
      rewrite posted_app, progress_shown_app, progress_shown_step.
      cbn [announced_progress].
      split; [rewrite Hshown; unfold next_progress; destruct (announce s); reflexivity |].
      intros Hok. destruct (Hall Hok) as (Hfull & front & Hfront).
      split; [rewrite Hfull; unfold next_progress; destruct (announce s); reflexivity |].
      exists (step_effects progress inc s r ++ front)%list.
      rewrite Hfront. subst w1. cbn [ncmd List.length].
      rewrite <- app_assoc.
      replace (S (ncmd w) + List.length rest) with (ncmd w + S (List.length rest)) by lia.
      reflexivity.
    + cbn [fst snd]. subst w1. cbn [trace].
      exists (step_effects progress inc s r),
             (match announce s with Some _ => 1 | None => 0 end).
      split; [reflexivity |].
      rewrite progress_shown_step. cbn [announced_progress].
      split; [destruct (announce s); reflexivity | discriminate].
Qed.

Lemma steps_world_plan env (w : World) :
  steps_world env w
  = exec (exec_plan env 0%Q
            (progress_increment_of
               (total_steps (install_driver_check (data w)) (install_cuda_check (data w))))
            (plan (install_driver_check (data w)) (install_cuda_check (data w))
               (distro_codename (system_info (data w)))))
      (after_gates env w).
Proof. unfold steps_world, exec. rewrite install_steps_plan. reflexivity. Qed.

Lemma steps_succeed_plan env (w : World) :
  steps_succeed env w
  = eval (exec_plan env 0%Q
            (progress_increment_of
               (total_steps (install_driver_check (data w)) (install_cuda_check (data w))))
            (plan (install_driver_check (data w)) (install_cuda_check (data w))
               (distro_codename (system_info (data w)))))
      (after_gates env w).
Proof. unfold steps_succeed, eval. rewrite install_steps_plan. reflexivity. Qed.

Lemma shown_update_app (shown : option (gdouble * string)) (a b : list IdleCallback) :
  shown_update shown (a ++ b) = shown_update (shown_update shown a) b.
Proof.
  revert shown. induction a as [|cb a IH]; intros shown; [reflexivity |].
  destruct cb; simpl; apply IH.
Qed.

Lemma shown_update_some (cbs : list IdleCallback) :
  forall u, shown_update (Some u) cbs
            = Some (match shown_update None cbs with Some u' => u' | None => u end).
Proof.
  induction cbs as [|cb cbs IH]; intros u; [reflexivity |].
  destruct cb as [u'| | | | |]; cbn [shown_update]; try apply IH.
  destruct (message u') as [m|]; [| apply IH].
  rewrite (IH (progress u', m)). destruct (shown_update None cbs); reflexivity.
Qed.

Lemma same_core_progress (a b : AppData) :
  same_core a b ->
  progress_bar_fraction b = progress_bar_fraction a /\
  progress_label b = progress_label a.
Proof. intros [-> | [t ->]]; split; reflexivity. Qed.

(** Once the main loop has run a list of callbacks, bar and label show
    the last update that carried a message. *)
Lemma dispatch_all_display env (cbs : list IdleCallback) :
  forall w,
  let ui := exec (dispatch_all env cbs) w in
  (progress_bar_fraction (data ui), progress_label (data ui))
  = progress_display cbs (data w).
Proof.
  induction cbs as [|cb cbs IH]; intros w; [reflexivity |].
  cbv zeta in *. cbn [dispatch_all]. rewrite exec_bind, IH.
  destruct cb as [u| | | | |]; unfold progress_display; cbn [shown_update];
    try (destruct (shown_update None cbs) as [[p m]|]; reflexivity).
  set (w1 := exec (dispatch env (update_progress_ui u)) w).
  assert (Hw1 : progress_bar_fraction (data w1)
                = match message u with
                  | Some _ => Qred (progress u / (100 # 1))%Q
                  | None => progress_bar_fraction (data w)
                  end /\
                progress_label (data w1)
                = match message u with Some m => m | None => progress_label (data w) end).
  { subst w1. cbn [dispatch]. rewrite exec_bind.
    destruct (log_text u) as [l|].
    - match goal with
      | |- context [exec (log_message env l ?t) ?x] =>
          destruct (probes_log env l t x) as (tr & (_ & _ & _ & Hcore) & _)
      end.
      destruct (same_core_progress _ _ Hcore) as [-> ->].
      destruct (message u); split; reflexivity.
    - destruct (message u); split; reflexivity. }
  destruct Hw1 as [Hf Hl].
  destruct (message u) as [m|] eqn:Hm.
  - rewrite shown_update_some.
    destruct (shown_update None cbs) as [[p' m']|]; [reflexivity |].
    rewrite Hf, Hl. reflexivity.
  - destruct (shown_update None cbs) as [[p' m']|]; rewrite ?Hf, ?Hl; reflexivity.
Qed.

Lemma dispatch_all_app env (a b : list IdleCallback) (w : World) :
  exec (dispatch_all env (a ++ b)) w
  = exec (dispatch_all env b) (exec (dispatch_all env a) w).
Proof.
  revert w. induction a as [|cb a IH]; intros w; [reflexivity |].
  cbn [List.app dispatch_all]. rewrite !exec_bind. apply IH.
Qed.

Lemma gates_pass_base env (w : World) :
  gates_pass env w = true ->
  ncmd (after_gates env w) = ncmd w + List.length gate_commands.
Proof.
  intros H. destruct (gates_pass_probes env w H) as (_ & tr & (_ & Hn & _) & _ & Hc).
  rewrite Hn, Hc. reflexivity.
Qed.

(** X11. In a run that passed the gates and in which no step fails:
    the processes started are those of the gates, every command of the
    plan, and the removal of the keyring file, which is the last effect
    of the working phase, right after the final report; nothing is
    auto-removed; the run ends with the flag reset and the completion
    dialog queued.  Once the main loop has run the queued callbacks the
    bar is full, the label reads "Installation completed successfully!",
    both buttons are usable again and the completion dialog is open. *)
Theorem successful_run_completes (env : Env) (w : World) :
  let steps := plan (install_driver_check (data w)) (install_cuda_check (data w))
                 (distro_codename (system_info (data w))) in
  let base := ncmd w + List.length gate_commands in
  gates_pass env w = true ->
  first_failure env base steps = None ->
  let w' := exec (installation_thread env) w in
  exists work,
    trace w' = (trace w ++ work ++ terminal_effects [show_completion_dialog_wrapper])%list /\
    commands_of work = (gate_commands ++ map command steps ++ [rm_keyring_cmd])%list /\
    (exists front,
       work = (front ++
               [IdleAdd final_report;
                Exec rm_keyring_cmd
                  (popen env (base + List.length steps) rm_keyring_cmd)])%list) /\
    installation_running (data w') = false /\
    let ui := exec (dispatch_all env
                      (posted work ++ restore_callbacks ++ [show_completion_dialog_wrapper]))
                w' in
    progress_bar_fraction (data ui) = 1%Q /\
    progress_label (data ui) = "Installation completed successfully!" /\
    detect_button_sensitive (data ui) = true /\
    install_button_sensitive (data ui) = true /\
    install_button_label (data ui) = "[INSTALL] Start" /\
    exists before, trace ui = (before ++ [Dialog "Installation Complete"])%list.
Proof.
  intros steps base Hgates Hnone w'.
  destruct (gates_pass_probes env w Hgates) as (Hwsl & gates & (Hg & _) & Hgprobe & Hgc).
  pose proof (gates_pass_base env w Hgates) as Hbase. fold base in Hbase.
  set (inc := progress_increment_of
                (total_steps (install_driver_check (data w)) (install_cuda_check (data w)))).
  assert (Hsucc : steps_succeed env w = true).
  { rewrite steps_succeed_plan, eval_exec_plan, Hbase. fold steps. rewrite Hnone.
    reflexivity. }
  destruct (install_steps_outcome env w) as (tr & (Hs & _) & Hout).
  rewrite Hsucc in Hout. fold steps in Hout.
  destruct (exec_plan_progress env inc steps 0%Q (after_gates env w))
    as (tr' & n & Htr' & _ & Hall).
  unfold inc, steps in Htr', Hall.
  rewrite <- steps_world_plan in Htr'. rewrite <- steps_succeed_plan in Hall.
  fold steps in Hall.
  assert (Heq : tr' = tr) by (rewrite Hs in Htr'; eapply app_inv_head; symmetry; exact Htr').
  subst tr'. destruct (Hall Hsucc) as (_ & front & Hfront). rewrite Hbase in Hfront.
  destruct (gates_pass_no_double_free env w Hgates) as [Hfree _].
  subst w'. rewrite installation_thread_run, Hwsl, Hfree, Hgates, Hsucc. cbn [negb].
  exists (gates ++ tr)%list. cbn [finish_run trace data].
  rewrite Hs, Hg. repeat rewrite <- app_assoc.
  split; [reflexivity |].
  split; [rewrite commands_of_app, Hgc, Hout; reflexivity |].
  split; [exists (gates ++ front)%list; rewrite Hfront, app_assoc; reflexivity |].
  split; [reflexivity |].
  match goal with
  | |- context [exec (dispatch_all env ?cbs) ?x] =>
      pose proof (dispatch_all_display env cbs x) as Hd;
      assert (Hshown : shown_update None cbs
                       = Some ((100 # 1)%Q, "Installation completed successfully!"))
  end.
  { rewrite posted_app, (probe_effects_posted gates Hgprobe), Hfront, posted_app.
    cbn [List.app]. rewrite <- app_assoc, shown_update_app. reflexivity. }
  cbv zeta in Hd. unfold progress_display in Hd. rewrite Hshown in Hd.
  pose proof (f_equal fst Hd) as Hf. pose proof (f_equal snd Hd) as Hl.
  cbn [fst snd] in Hf, Hl. cbv zeta. rewrite Hf, Hl.
  split; [reflexivity |]. split; [reflexivity |].
  rewrite dispatch_all_app.
  match goal with
  | |- context [exec (dispatch_all env (posted ?t)) ?x] =>
      generalize (exec (dispatch_all env (posted t)) x)
  end.
  intros w1.
  split; [reflexivity |]. split; [reflexivity |]. split; [reflexivity |].
  eexists. reflexivity.
Qed.

Lemma successful_run_completes_witness :
  let env := env_ok in
  let w := installing_world env_ok in
  let steps := plan (install_driver_check (data w)) (install_cuda_check (data w))
                 (distro_codename (system_info (data w))) in
  let base := ncmd w + List.length gate_commands in
  gates_pass env w = true /\
  first_failure env base steps = None /\
  let w' := exec (installation_thread env) w in
  exists work,
    trace w' = (trace w ++ work ++ terminal_effects [show_completion_dialog_wrapper])%list /\
    commands_of work = (gate_commands ++ map command steps ++ [rm_keyring_cmd])%list /\
    (exists front,
       work = (front ++
               [IdleAdd final_report;
                Exec rm_keyring_cmd
                  (popen env (base + List.length steps) rm_keyring_cmd)])%list) /\
    installation_running (data w') = false /\
    let ui := exec (dispatch_all env
                      (posted work ++ restore_callbacks ++ [show_completion_dialog_wrapper]))
                w' in
    progress_bar_fraction (data ui) = 1%Q /\
    progress_label (data ui) = "Installation completed successfully!" /\
    detect_button_sensitive (data ui) = true /\
    install_button_sensitive (data ui) = true /\
    install_button_label (data ui) = "[INSTALL] Start" /\
    exists before, trace ui = (before ++ [Dialog "Installation Complete"])%list.
Proof.
  split; [vm_compute; reflexivity |].
  split; [vm_compute; reflexivity |].
  apply (successful_run_completes env_ok (installing_world env_ok)).
  - vm_compute. reflexivity.
  - vm_compute. reflexivity.
Defined.

(** ** The progress values on display *)

Lemma Forall_firstn_of {A} (P : A -> Prop) (n : nat) (l : list A) :
  Forall P l -> Forall P (firstn n l).
Proof.
  intros H. rewrite <- (firstn_skipn n l) in H. apply Forall_app in H. tauto.
Qed.

Lemma StronglySorted_firstn {A} (R : A -> A -> Prop) (l : list A) :
  forall n, StronglySorted R l -> StronglySorted R (firstn n l).
Proof.
  induction l as [|a l IH]; intros [|n] H; cbn [firstn]; try constructor.
  - apply IH. inversion H; assumption.
  - apply Forall_firstn_of. inversion H; assumption.
Qed.

Lemma plan_progress_in_range (d c : bool) (codename : option string) :
  d || c = true ->
  let shown := (announced_progress 0%Q (progress_increment_of (total_steps d c))
                  (plan d c codename) ++ [(100 # 1)%Q])%list in
  Forall percentage shown /\ StronglySorted Qle shown.
Proof.
  intros H shown. subst shown.
  destruct d, c; try discriminate H; vm_compute announced_progress;
    cbn [List.app]; unfold percentage; split;
    repeat (constructor; try (split; [reflexivity | discriminate]);
            try discriminate).
Qed.

Lemma probe_effects_show_nothing (tr : list Effect) :
  Forall (fun e => probe_effect e = true) tr -> progress_shown (posted tr) = [].
Proof. intros H. rewrite (probe_effects_posted tr H). reflexivity. Qed.

(** X12. When at least one of the two options is ticked, every progress
    value an install run puts on display lies in (0, 100], and the
    values never decrease, whatever the system answers and wherever the
    run stops. *)
Theorem shown_progress_stays_in_range (env : Env) (w : World) :
  install_driver_check (data w) || install_cuda_check (data w) = true ->
  exists tr,
    trace (exec (installation_thread env) w) = (trace w ++ tr)%list /\
    Forall percentage (progress_shown (posted tr)) /\
    StronglySorted Qle (progress_shown (posted tr)).
Proof.
  intros Hopt.
  rewrite installation_thread_run.
  destruct (double_free env w) eqn:Hfree.
  { destruct (check_system_compatibility_killed env w Hfree)
      as (work & (Htr & _) & Hprobe & _).
    assert (Hwsl : eval (is_wsl_system env) w = false).
    { unfold double_free in Hfree. destruct (eval (is_wsl_system env) w);
        [discriminate Hfree | reflexivity]. }
    rewrite Hwsl. exists (work ++ [Abort])%list. split; [exact Htr |].
    rewrite posted_app, progress_shown_app, (probe_effects_show_nothing work Hprobe).
    split; constructor. }
  pose proof (check_system_compatibility_probes env w Hfree) as Hc.
  destruct (eval (is_wsl_system env) w) eqn:Hwsl.
  { destruct Hc as (work & (Htr & _) & Hprobe & _).
    exists (work ++ terminal_effects [])%list. cbn [finish_run trace].
    rewrite Htr, <- app_assoc. split; [reflexivity |].
    rewrite posted_app, progress_shown_app, (probe_effects_show_nothing work Hprobe).
    split; constructor. }
  pose proof (check_internet_connectivity_probes env
                (exec (check_system_compatibility env) w)) as Hi.
  fold (after_gates env w) in Hi.
  pose proof (probes_trans _ _ _ _ _ Hc Hi) as (gates & (Hg & _) & Hgprobe & _).
  destruct (negb (gates_pass env w)).
  { exists (gates ++ terminal_effects [show_error_dialog_wrapper])%list.
    cbn [finish_run trace]. rewrite Hg, <- app_assoc. split; [reflexivity |].
    rewrite posted_app, progress_shown_app, (probe_effects_show_nothing gates Hgprobe).
    split; constructor. }
  destruct (exec_plan_progress env
              (progress_increment_of
                 (total_steps (install_driver_check (data w)) (install_cuda_check (data w))))
              (plan (install_driver_check (data w)) (install_cuda_check (data w))
                 (distro_codename (system_info (data w))))
              0%Q (after_gates env w))
    as (tr & n & Htr & Hshown & _).
  rewrite <- steps_world_plan in Htr.
  destruct (plan_progress_in_range _ _ (distro_codename (system_info (data w))) Hopt)
    as [Hrange Hsorted].
  cbv zeta in Hrange, Hsorted.
  assert (Hin : Forall percentage (progress_shown (posted tr)))
    by (rewrite Hshown; apply Forall_firstn_of; exact Hrange).
  assert (Hup : StronglySorted Qle (progress_shown (posted tr)))
    by (rewrite Hshown; apply StronglySorted_firstn; exact Hsorted).
  destruct (steps_succeed env w).
  - exists (gates ++ tr ++ terminal_effects [show_completion_dialog_wrapper])%list.
    cbn [finish_run trace]. rewrite Htr, Hg. repeat rewrite <- app_assoc.
    split; [reflexivity |].
    rewrite !posted_app, !progress_shown_app, (probe_effects_show_nothing gates Hgprobe).
    cbn [List.app].
    change (progress_shown (posted (terminal_effects [show_completion_dialog_wrapper])))
      with (@nil gdouble).
    rewrite app_nil_r. split; assumption.
  - exists (gates ++ tr ++ Exec autoremove_cmd
                             (popen env (ncmd (steps_world env w)) autoremove_cmd)
                  :: terminal_effects [show_error_dialog_wrapper])%list.
    cbn [finish_run trace]. rewrite exec_run_command. cbn [trace].
    rewrite Htr, Hg. repeat rewrite <- app_assoc.
    split; [reflexivity |].
    rewrite !posted_app, !progress_shown_app, (probe_effects_show_nothing gates Hgprobe).
    cbn [List.app].
    change (progress_shown
              (posted (Exec autoremove_cmd
                         (popen env (ncmd (steps_world env w)) autoremove_cmd)
                       :: terminal_effects [show_error_dialog_wrapper])))
      with (@nil gdouble).
    rewrite app_nil_r. split; assumption.
Qed.

Lemma shown_progress_stays_in_range_witness :
  install_driver_check (data (installing_world env_driver_fails))
  || install_cuda_check (data (installing_world env_driver_fails)) = true /\
  exists tr,
    trace (exec (installation_thread env_driver_fails) (installing_world env_driver_fails))
    = (trace (installing_world env_driver_fails) ++ tr)%list /\
    Forall percentage (progress_shown (posted tr)) /\
    StronglySorted Qle (progress_shown (posted tr)).
Proof.
  split; [vm_compute; reflexivity |].
  apply (shown_progress_stays_in_range env_driver_fails
           (installing_world env_driver_fails)).
  vm_compute. reflexivity.
Defined.

(** ** The main loop *)

Lemma dispatch_step env (cb : IdleCallback) (w : World) (text : string) :
  console_buffer (data w) = Some text ->
  let w1 := exec (dispatch env cb) w in
  exists text' tr,
    console_buffer (data w1) = Some text' /\
    trace w1 = (trace w ++ tr)%list /\
    logged tr = log_of_callback cb /\
    commands_of tr = [] /\ spawned tr = [] /\ posted tr = [] /\
    threads w1 = threads w /\ ncmd w1 = ncmd w /\
    system_info (data w1) = system_info (data w) /\
    installation_running (data w1) = installation_running (data w).
Proof.
  intros Hbuf w1. subst w1.
  destruct cb as [u| |x|x| |]; cbn [dispatch log_of_callback].
  - rewrite exec_bind.
    set (w0 := exec match message u with
                    | Some m => modify_app (set_progress (Qred (progress u / (100 # 1))%Q) m)
                    | None => ret tt
                    end w).
    assert (H0 : console_buffer (data w0) = Some text /\ trace w0 = trace w /\
                 threads w0 = threads w /\ ncmd w0 = ncmd w /\
                 system_info (data w0) = system_info (data w) /\
                 installation_running (data w0) = installation_running (data w)).
    { subst w0. destruct (message u); cbn; auto 10. }
    destruct H0 as (Hb0 & Ht0 & Hth0 & Hn0 & Hsi0 & Hr0).
    destruct (log_text u) as [l|].
    + unfold exec, log_message. rewrite Hb0. cbn [snd data trace threads ncmd].
      eexists _, [Log (log_type u) l]. rewrite Ht0.
      repeat split; assumption.
    + rewrite exec_ret. exists text, []. rewrite app_nil_r. repeat split; assumption.
  - exists text, []. rewrite exec_ret, app_nil_r. repeat split; assumption.
  - exists text, []. destruct x; cbn; rewrite app_nil_r; repeat split; assumption.
  - exists text, []. destruct x; cbn; rewrite app_nil_r; repeat split; assumption.
  - exists text, [Dialog "Installation Complete"]. cbn. repeat split; assumption.
  - exists text, [Dialog "Installation Failed"]. cbn. repeat split; assumption.
Qed.

Lemma logged_app (a b : list Effect) :
  logged (a ++ b) = (logged a ++ logged b)%list.
Proof. apply flat_map_app. Qed.

Lemma log_message_agree env message type (w1 w2 : World) :
  console_buffer (data w1) = console_buffer (data w2) ->
  nlog w1 = nlog w2 ->
  console_buffer (data (exec (log_message env message type) w1))
  = console_buffer (data (exec (log_message env message type) w2)) /\
  nlog (exec (log_message env message type) w1)
  = nlog (exec (log_message env message type) w2).
Proof.
  intros Hc Hn. unfold exec, log_message. rewrite Hc.
  destruct (console_buffer (data w2)) as [text|] eqn:H2; cbn [snd data nlog].
  - rewrite Hn. split; reflexivity.
  - rewrite Hc, H2. auto.
Qed.

Lemma log_all_app env (a b : list (string * StatusType)) (w : World) :
  exec (log_all env (a ++ b)) w = exec (log_all env b) (exec (log_all env a) w).
Proof.
  revert w. induction a as [|[message type] a IH]; intros w; [reflexivity |].
  cbn [List.app log_all]. rewrite !exec_bind. apply IH.
Qed.

Lemma dispatch_agree env (cb : IdleCallback) (w1 w2 : World) :
  console_buffer (data w1) = console_buffer (data w2) ->
  nlog w1 = nlog w2 ->
  console_buffer (data (exec (dispatch env cb) w1))
  = console_buffer (data (exec (log_all env (log_entries [cb])) w2)) /\
  nlog (exec (dispatch env cb) w1) = nlog (exec (log_all env (log_entries [cb])) w2).
Proof.
  intros Hc Hn.
  destruct cb as [u| |x|x| |]; try (split; assumption);
    try (destruct x; split; assumption).
  unfold log_entries. cbn [dispatch flat_map log_of_callback]. rewrite exec_bind.
  assert (H0 : console_buffer
                 (data (exec match message u with
                             | Some m =>
                                 modify_app (set_progress (Qred (progress u / (100 # 1))%Q) m)
                             | None => ret tt
                             end w1)) = console_buffer (data w2) /\
               nlog (exec match message u with
                          | Some m =>
                              modify_app (set_progress (Qred (progress u / (100 # 1))%Q) m)
                          | None => ret tt
                          end w1) = nlog w2)
    by (destruct (message u); split; assumption).
  destruct H0 as [Hc0 Hn0].
  destruct (log_text u) as [l|]; cbn [List.app map fst snd log_all].
  - rewrite (exec_bind (log_message env l (log_type u))), exec_ret.
    apply log_message_agree; assumption.
  - rewrite !exec_ret. split; assumption.
Qed.

Lemma dispatch_all_agree env (cbs : list IdleCallback) :
  forall w1 w2,
  console_buffer (data w1) = console_buffer (data w2) ->
  nlog w1 = nlog w2 ->
  console_buffer (data (exec (dispatch_all env cbs) w1))
  = console_buffer (data (exec (log_all env (log_entries cbs)) w2)) /\
  nlog (exec (dispatch_all env cbs) w1) = nlog (exec (log_all env (log_entries cbs)) w2).
Proof.
  induction cbs as [|cb cbs IH]; intros w1 w2 Hc Hn; [auto |].
  cbn [dispatch_all]. rewrite exec_bind.
  change (log_entries (cb :: cbs))
    with (map (fun e : StatusType * string => (snd e, fst e))
            (log_of_callback cb ++ flat_map log_of_callback cbs)).
  rewrite map_app.
  change (map (fun e : StatusType * string => (snd e, fst e))
            (flat_map log_of_callback cbs)) with (log_entries cbs).
  replace (map (fun e : StatusType * string => (snd e, fst e)) (log_of_callback cb))
    with (log_entries [cb])
    by (unfold log_entries; cbn [flat_map]; rewrite app_nil_r; reflexivity).
  rewrite log_all_app.
  destruct (dispatch_agree env cb w1 w2 Hc Hn) as [Hc' Hn'].
  apply IH; assumption.
Qed.

(** X13. With a console in place, the main loop writes the log text of
    every queued callback to the console exactly once and in queue
    order: the console text it leaves is the one that logging these
    texts one after the other leaves, and when the texts are single
    lines and the console held the newest lines of an earlier log, it
    holds the newest [MAX_LOG_LINES - 1] lines of the old log followed
    by the formatted new ones.  The callbacks start no process and no
    thread, queue no further callback, and leave [SystemInfo] and the
    run flag alone.  Bar and label end up showing the last update that
    carried a message: the progress values [run_command_with_progress]
    reports, which carry none, are never shown. *)
Theorem main_loop_writes_logs_in_order (env : Env) (cbs : list IdleCallback) (w : World) :
  console_buffer (data w) <> None ->
  let ui := exec (dispatch_all env cbs) w in
  (exists tr,
     trace ui = (trace w ++ tr)%list /\
     logged tr = flat_map log_of_callback cbs /\
     commands_of tr = [] /\ spawned tr = [] /\ posted tr = []) /\
  threads ui = threads w /\
  ncmd ui = ncmd w /\
  system_info (data ui) = system_info (data w) /\
  installation_running (data ui) = installation_running (data w) /\
  (progress_bar_fraction (data ui), progress_label (data ui))
  = progress_display cbs (data w) /\
  console_buffer (data ui)
  = console_buffer (data (exec (log_all env (log_entries cbs)) w)) /\
  (forall all : list string,
     single_lines all ->
     console_buffer (data w) = Some (unlines (lastn (MAX_LOG_LINES - 1) all)) ->
     Forall (fun e => no_newline (fst e) = true) (log_entries cbs) ->
     console_buffer (data ui)
     = Some (unlines (lastn (MAX_LOG_LINES - 1)
                        (all ++ log_lines env (nlog w) (log_entries cbs))))).
Proof.
  intros Hbuf ui.
  assert (Hagree : console_buffer (data ui)
                   = console_buffer (data (exec (log_all env (log_entries cbs)) w)))
    by (apply (dispatch_all_agree env cbs w w); reflexivity).
  split; [| split; [| split; [| split; [| split; [| split; [apply dispatch_all_display |] ]]]]].
  6:{ split; [exact Hagree |].
      intros all Hall Hconsole Hsingle. rewrite Hagree.
      apply log_all_keeps_newest; assumption. }
  all: clear Hagree; subst ui; revert w Hbuf;
    (induction cbs as [|cb cbs IH]; intros w Hbuf;
     [try reflexivity |
      destruct (console_buffer (data w)) as [text|] eqn:Htext; [| congruence];
      destruct (dispatch_step env cb w text Htext)
        as (text' & tr & Hb & Ht & Hl & Hc & Hs & Hp & Hth & Hn & Hsi & Hr);
      cbn [dispatch_all]; rewrite exec_bind;
      assert (Hbuf1 : console_buffer (data (exec (dispatch env cb) w)) <> None)
        by (rewrite Hb; discriminate);
      specialize (IH _ Hbuf1)]).
  - exists []. rewrite app_nil_r. repeat split.
  - destruct IH as (tr' & Ht' & Hl' & Hc' & Hs' & Hp').
    exists (tr ++ tr')%list. rewrite Ht', Ht, <- app_assoc.
    split; [reflexivity |].
    rewrite logged_app, commands_of_app, spawned_app, posted_app.
    rewrite Hl, Hl', Hc, Hc', Hs, Hs', Hp, Hp'. repeat split.
  - congruence.
  - congruence.
  - congruence.
  - congruence.
Qed.

Lemma main_loop_writes_logs_in_order_witness :
  let w := initial_world in
  let cbs := [ running_report dpkg_cmd; failure_report 256;
               set_widget_sensitive_wrapper install_button;
               show_error_dialog_wrapper ] in
  let ui := exec (dispatch_all env_ok cbs) w in
  (console_buffer (data w) <> None /\
   single_lines [] /\
   console_buffer (data w) = Some (unlines (lastn (MAX_LOG_LINES - 1) [])) /\
   Forall (fun e => no_newline (fst e) = true) (log_entries cbs)) /\
  (exists tr,
     trace ui = (trace w ++ tr)%list /\
     logged tr = flat_map log_of_callback cbs /\
     commands_of tr = [] /\ spawned tr = [] /\ posted tr = []) /\
  threads ui = threads w /\
  ncmd ui = ncmd w /\
  system_info (data ui) = system_info (data w) /\
  installation_running (data ui) = installation_running (data w) /\
  (progress_bar_fraction (data ui), progress_label (data ui))
  = progress_display cbs (data w) /\
  console_buffer (data ui)
  = console_buffer (data (exec (log_all env_ok (log_entries cbs)) w)) /\
  console_buffer (data ui)
  = Some (unlines (lastn (MAX_LOG_LINES - 1)
                     ([] ++ log_lines env_ok (nlog w) (log_entries cbs)))).
Proof.
  assert (H1 : console_buffer (data initial_world) <> None) by (vm_compute; discriminate).
  assert (H2 : single_lines []) by constructor.
  assert (H3 : console_buffer (data initial_world)
               = Some (unlines (lastn (MAX_LOG_LINES - 1) []))) by reflexivity.
  assert (H4 : Forall (fun e => no_newline (fst e) = true)
                 (log_entries [ running_report dpkg_cmd; failure_report 256;
                                set_widget_sensitive_wrapper install_button;
                                show_error_dialog_wrapper ]))
    by (repeat constructor).
  split; [auto |].
  destruct (main_loop_writes_logs_in_order env_ok
              [ running_report dpkg_cmd; failure_report 256;
                set_widget_sensitive_wrapper install_button;
                show_error_dialog_wrapper ] initial_world H1)
    as (A & B & C & D & E & F & G & H).
  repeat (split; [assumption |]).
  apply (H [] H2 H3 H4).
Defined.

(** The console after the main loop has run the two reports of a failed
    command. *)
Example console_after_failure_reports :
  console_buffer
    (data (exec (dispatch_all env_ok [running_report dpkg_cmd; failure_report 256])
             initial_world))
  = Some ("[12:00:00] [INFO] Running: sudo dpkg -i cuda-keyring_1.1-1_all.deb"
          ++ String newline
            ("[12:00:00] [ERROR] Command failed with exit code 256" ++ String newline "")).
Proof. vm_compute. reflexivity. Qed.

(** ** An install request from click to restored window *)

Lemma same_core_proj {A} (f : AppData -> A) (a b : AppData) :
  (forall t d, f (set_console_buffer t d) = f d) ->
  same_core a b -> f b = f a.
Proof. intros Hf [-> | [t ->]]; [reflexivity | apply Hf]. Qed.

Lemma same_core_set_running (v : bool) (a b : AppData) :
  same_core a b ->
  same_core (set_installation_running v a) (set_installation_running v b).
Proof. intros [-> | [t ->]]; [left | right; exists t]; reflexivity. Qed.

(** What an accepted request leaves behind just before the worker is
    created. *)
Lemma on_install_clicked_accepted env (user : UserInput) (w : World) :
  install_request_ok env user w = true ->
  exists wl,
    exec (on_install_clicked env user) w = exec (pthread_create installation_worker) wl /\
    threads wl = threads w /\
    installation_running (data wl) = true /\
    progress_frame_visible (data wl) = true /\
    system_info (data wl) = system_info (data w) /\
    install_driver_check (data wl) = install_driver_check (data w) /\
    install_cuda_check (data wl) = install_cuda_check (data w).
Proof.
  unfold install_request_ok. intros Hok.
  apply andb_prop in Hok as [Hok Hsudo]. apply andb_prop in Hok as [Hok Hyes].
  apply andb_prop in Hok as [Hok Hsel]. apply andb_prop in Hok as [Hok Hgpu].
  apply andb_prop in Hok as [Hrun Hwsl].
  apply negb_true_iff in Hrun, Hwsl.
  destruct (password_entry user) as [password|] eqn:Hpw; [| discriminate Hsudo].
  unfold on_install_clicked.
  rewrite exec_bind, exec_get_app. change (eval get_app w) with (data w).
  rewrite Hrun, exec_bind, exec_is_wsl_system, exec_run_command, Hwsl, Hgpu.
  cbn [negb]. cbv zeta.
  replace (negb (install_driver_check (data w)) && negb (install_cuda_check (data w)))
    with false
    by (destruct (install_driver_check (data w)), (install_cuda_check (data w));
        try reflexivity; discriminate Hsel).
  rewrite exec_bind, exec_emit, Hyes. cbn [negb data ncmd nlog trace threads].
  rewrite exec_bind, exec_emit, Hpw. cbn [data ncmd nlog trace threads].
  rewrite exec_bind, eval_verify_sudo_access, exec_verify_sudo_access, exec_run_command.
  cbn [data ncmd nlog trace threads]. rewrite Hsudo. cbn [negb].
  repeat rewrite exec_bind.
  match goal with
  | |- context [exec (log_message env ?m ?t) ?x] =>
      destruct (probes_log env m t x) as (logs & (_ & _ & Hlth & Hcore) & _);
      exists (exec (log_message env m t) x)
  end.
  split; [reflexivity |]. split; [exact Hlth |].
  destruct Hcore as [-> | [text ->]]; repeat split.
Qed.

Lemma installation_thread_keeps env (w : World) :
  double_free env w = false ->
  threads (exec (installation_thread env) w) = threads w /\
  same_core (set_installation_running false (data w))
    (data (exec (installation_thread env) w)).
Proof.
  intros Hfree.
  rewrite installation_thread_run, Hfree.
  pose proof (check_system_compatibility_probes env w Hfree) as Hc.
  pose proof (check_internet_connectivity_probes env
                (exec (check_system_compatibility env) w)) as Hi.
  fold (after_gates env w) in Hi.
  pose proof (probes_trans _ _ _ _ _ Hc Hi) as (gates & (_ & _ & Hgth & Hgcore) & _).
  destruct Hc as (t1 & (_ & _ & Hcth & Hccore) & _).
  destruct (install_steps_outcome env w) as (tr & (_ & Hsd & Hsth & _) & _).
  repeat match goal with |- context [if ?b then _ else _] => destruct b end;
    cbn [finish_run data threads]; rewrite ?exec_run_command; cbn [data threads];
    rewrite ?Hsd, ?Hsth;
    (split; [assumption | apply same_core_set_running; assumption]).
Qed.

Lemma exec_run_worker_installation env (w : World) :
  exec (run_worker env installation_worker) w
  = mkWorld (data (exec (installation_thread env) w))
      (ncmd (exec (installation_thread env) w))
      (nlog (exec (installation_thread env) w)) (trace (exec (installation_thread env) w))
      (remove_first installation_worker (threads (exec (installation_thread env) w))).
Proof. unfold run_worker. rewrite exec_bind. reflexivity. Qed.

(** The main loop never touches the threads, the run flag, the probe
    results, the option boxes or the visibility of the progress frame. *)
Lemma dispatch_all_keeps env (cbs : list IdleCallback) :
  forall w,
  let ui := exec (dispatch_all env cbs) w in
  threads ui = threads w /\
  installation_running (data ui) = installation_running (data w) /\
  progress_frame_visible (data ui) = progress_frame_visible (data w) /\
  system_info (data ui) = system_info (data w) /\
  install_driver_check (data ui) = install_driver_check (data w) /\
  install_cuda_check (data ui) = install_cuda_check (data w).
Proof.
  induction cbs as [|cb cbs IH]; intros w; cbv zeta; [repeat split |].
  cbn [dispatch_all]. rewrite exec_bind.
  destruct (IH (exec (dispatch env cb) w)) as (-> & -> & -> & -> & -> & ->).
  destruct cb as [u| |x|x| |]; try (repeat split; fail);
    try (destruct x; repeat split; fail).
  cbn [dispatch]. rewrite exec_bind.
  set (w0 := exec match message u with
                  | Some m => modify_app (set_progress (Qred (progress u / (100 # 1))%Q) m)
                  | None => ret tt
                  end w).
  assert (H0 : threads w0 = threads w /\
               installation_running (data w0) = installation_running (data w) /\
               progress_frame_visible (data w0) = progress_frame_visible (data w) /\
               system_info (data w0) = system_info (data w) /\
               install_driver_check (data w0) = install_driver_check (data w) /\
               install_cuda_check (data w0) = install_cuda_check (data w))
    by (subst w0; destruct (message u); repeat split).
  destruct H0 as (<- & <- & <- & <- & <- & <-).
  destruct (log_text u) as [l|]; [| repeat split].
  destruct (probes_log env l (log_type u) w0) as (t & (_ & _ & Hth & Hcore) & _).
  split; [exact Hth |].
  split; [apply (same_core_proj installation_running _ _ (fun _ _ => eq_refl) Hcore) |].
  split; [apply (same_core_proj progress_frame_visible _ _ (fun _ _ => eq_refl) Hcore) |].
  split; [apply (same_core_proj system_info _ _ (fun _ _ => eq_refl) Hcore) |].
  split; [apply (same_core_proj install_driver_check _ _ (fun _ _ => eq_refl) Hcore) |].
  apply (same_core_proj install_cuda_check _ _ (fun _ _ => eq_refl) Hcore).
Qed.

(** X14. An accepted install request, followed to its end: the handler
    starts one worker with the run flag set; when the worker has
    finished -- which it does whatever the system answered, unless
    [check_system_compatibility] frees its buffer twice -- it is gone
    from the thread list and the flag is reset; once the main loop has
    run the callbacks the worker queued, both buttons are usable, the
    install button has its label back and the progress frame is still on
    display.  The probe results are those from before the request: an
    install run never refreshes them, and the option boxes are as the
    user left them. *)
Theorem install_click_round_trip (env : Env) (user : UserInput) (w : World) :
  install_request_ok env user w = true ->
  threads w = [] ->
  let w1 := exec (on_install_clicked env user) w in
  double_free env w1 = false ->
  let w2 := exec (run_worker env installation_worker) w1 in
  threads w1 = [installation_worker] /\
  installation_running (data w1) = true /\
  threads w2 = [] /\
  installation_running (data w2) = false /\
  exists tr,
    trace w2 = (trace w1 ++ tr)%list /\
    let w3 := exec (dispatch_all env (posted tr)) w2 in
    threads w3 = [] /\
    installation_running (data w3) = false /\
    detect_button_sensitive (data w3) = true /\
    install_button_sensitive (data w3) = true /\
    install_button_label (data w3) = "[INSTALL] Start" /\
    progress_frame_visible (data w3) = true /\
    system_info (data w3) = system_info (data w) /\
    install_driver_check (data w3) = install_driver_check (data w) /\
    install_cuda_check (data w3) = install_cuda_check (data w).
Proof.
  intros Hok Hth w1 Hfree w2.
  destruct (on_install_clicked_accepted env user w Hok)
    as (wl & Hw1 & Hlth & Hlrun & Hlpfv & Hlsi & Hld & Hlc).
  assert (H1 : threads w1 = [installation_worker] /\
               installation_running (data w1) = true /\
               progress_frame_visible (data w1) = true /\
               system_info (data w1) = system_info (data w) /\
               install_driver_check (data w1) = install_driver_check (data w) /\
               install_cuda_check (data w1) = install_cuda_check (data w)).
  { subst w1. rewrite Hw1. unfold exec, pthread_create.
    cbn [snd threads data set_worker_thread installation_running progress_frame_visible
           system_info install_driver_check install_cuda_check].
    rewrite Hlth, Hth. repeat split; assumption. }
  destruct H1 as (Hth1 & Hrun1 & Hpfv1 & Hsi1 & Hd1 & Hc1).
  destruct (installation_thread_keeps env w1 Hfree) as [Hth2 Hcore].
  destruct (installation_thread_exit env w1 Hfree) as (work & dialog & Htr & _ & Hdialog).
  assert (Hw2 : w2 = mkWorld (data (exec (installation_thread env) w1))
                       (ncmd (exec (installation_thread env) w1))
                       (nlog (exec (installation_thread env) w1))
                       (trace (exec (installation_thread env) w1))
                       (remove_first installation_worker
                          (threads (exec (installation_thread env) w1))))
    by apply exec_run_worker_installation.
  assert (H2 : threads w2 = [] /\
               installation_running (data w2) = false /\
               progress_frame_visible (data w2) = true /\
               system_info (data w2) = system_info (data w) /\
               install_driver_check (data w2) = install_driver_check (data w) /\
               install_cuda_check (data w2) = install_cuda_check (data w)).
  { rewrite Hw2. cbn [threads data]. rewrite Hth2, Hth1.
    split; [reflexivity |].
    rewrite (same_core_proj installation_running _ _ (fun _ _ => eq_refl) Hcore),
            (same_core_proj progress_frame_visible _ _ (fun _ _ => eq_refl) Hcore),
            (same_core_proj system_info _ _ (fun _ _ => eq_refl) Hcore),
            (same_core_proj install_driver_check _ _ (fun _ _ => eq_refl) Hcore),
            (same_core_proj install_cuda_check _ _ (fun _ _ => eq_refl) Hcore).
    cbn [set_installation_running installation_running progress_frame_visible
           system_info install_driver_check install_cuda_check].
    repeat split; assumption. }
  destruct H2 as (Hth2' & Hrun2 & Hpfv2 & Hsi2 & Hd2 & Hc2).
  split; [exact Hth1 |]. split; [exact Hrun1 |].
  split; [exact Hth2' |]. split; [exact Hrun2 |].
  exists (work ++ terminal_effects dialog)%list.
  split; [rewrite Hw2; exact Htr |].
  cbv zeta. rewrite posted_app, dispatch_all_app.
  destruct (dispatch_all_keeps env (posted work) w2) as (K1 & K2 & K3 & K4 & K5 & K6).
  rewrite Hth2' in K1. rewrite Hrun2 in K2. rewrite Hpfv2 in K3. rewrite Hsi2 in K4.
  rewrite Hd2 in K5. rewrite Hc2 in K6.
  revert K1 K2 K3 K4 K5 K6.
  generalize (exec (dispatch_all env (posted work)) w2). intros wm K1 K2 K3 K4 K5 K6.
  destruct Hdialog as [-> | [-> | ->]];
    (split; [exact K1 |]); (split; [exact K2 |]);
    (split; [reflexivity |]); (split; [reflexivity |]); (split; [reflexivity |]);
    (split; [exact K3 |]); (split; [exact K4 |]); (split; [exact K5 | exact K6]).
Qed.

Lemma install_click_round_trip_witness :
  let env := env_driver_fails in
  let user := user_yes in
  let w := probed_world env_driver_fails in
  install_request_ok env user w = true /\
  threads w = [] /\
  let w1 := exec (on_install_clicked env user) w in
  double_free env w1 = false /\
  let w2 := exec (run_worker env installation_worker) w1 in
  threads w1 = [installation_worker] /\
  installation_running (data w1) = true /\
  threads w2 = [] /\
  installation_running (data w2) = false /\
  exists tr,
    trace w2 = (trace w1 ++ tr)%list /\
    let w3 := exec (dispatch_all env (posted tr)) w2 in
    threads w3 = [] /\
    installation_running (data w3) = false /\
    detect_button_sensitive (data w3) = true /\
    install_button_sensitive (data w3) = true /\
    install_button_label (data w3) = "[INSTALL] Start" /\
    progress_frame_visible (data w3) = true /\
    system_info (data w3) = system_info (data w) /\
    install_driver_check (data w3) = install_driver_check (data w) /\
    install_cuda_check (data w3) = install_cuda_check (data w).
Proof.
  split; [vm_compute; reflexivity |].
  split; [vm_compute; reflexivity |].
  split; [vm_compute; reflexivity |].
  apply (install_click_round_trip env_driver_fails user_yes
           (probed_world env_driver_fails)).
  - vm_compute. reflexivity.
  - vm_compute. reflexivity.
  - vm_compute. reflexivity.
Defined.

(** ** The run that does not return *)

(** X15. When the host is not WSL, [popen] succeeds for the disk query
    and fails for the Secure Boot query, an install run ends inside
    [check_system_compatibility], at the second [g_free] of [output]:
    the three probes are the only processes started, no callback is
    queued, the run flag is left as it was and nothing restores the
    buttons. *)
Theorem double_free_kills_install_run (env : Env) (w : World) :
  double_free env w = true ->
  let w' := exec (installation_thread env) w in
  (exists work,
     trace w' = (trace w ++ work ++ [Abort])%list /\
     Forall (fun e => probe_effect e = true) work /\
     commands_of work = [wsl_cmd; df_cmd; mokutil_cmd] /\
     posted work = []) /\
  installation_running (data w') = installation_running (data w) /\
  detect_button_sensitive (data w') = detect_button_sensitive (data w) /\
  install_button_sensitive (data w') = install_button_sensitive (data w) /\
  threads w' = threads w.
Proof.
  intros Hfree w'. subst w'.
  assert (Hwsl : eval (is_wsl_system env) w = false).
  { unfold double_free in Hfree. destruct (eval (is_wsl_system env) w);
      [discriminate Hfree | reflexivity]. }
  rewrite installation_thread_run, Hwsl, Hfree.
  destruct (check_system_compatibility_killed env w Hfree)
    as (work & (Htr & _ & Hth & Hcore) & Hprobe & Hcmds).
  split; [exists work; repeat split; auto; apply probe_effects_posted; exact Hprobe |].
  split; [apply (same_core_proj installation_running _ _ (fun _ _ => eq_refl) Hcore) |].
  split; [apply (same_core_proj detect_button_sensitive _ _ (fun _ _ => eq_refl) Hcore) |].
  split; [apply (same_core_proj install_button_sensitive _ _ (fun _ _ => eq_refl) Hcore) |].
  exact Hth.
Qed.

Lemma double_free_kills_install_run_witness :
  let env := env_mokutil_unavailable in
  let w := installing_world env_ok in
  let w' := exec (installation_thread env) w in
  double_free env w = true /\
  (exists work,
     trace w' = (trace w ++ work ++ [Abort])%list /\
     Forall (fun e => probe_effect e = true) work /\
     commands_of work = [wsl_cmd; df_cmd; mokutil_cmd] /\
     posted work = []) /\
  installation_running (data w') = installation_running (data w) /\
  detect_button_sensitive (data w') = detect_button_sensitive (data w) /\
  install_button_sensitive (data w') = install_button_sensitive (data w) /\
  threads w' = threads w.
Proof.
  split; [vm_compute; reflexivity |].
  apply (double_free_kills_install_run env_mokutil_unavailable (installing_world env_ok)).
  vm_compute. reflexivity.
Defined.
